(** * Client management of the window manager: a shallow embedding of
    [client.c] and the properties of its state machine, geometry
    resolver, stacking engine and focus controller. *)

From Stdlib Require Import ZArith List Bool String Lia Floats Uint63.
From stdpp Require Import gmap.

Open Scope Z_scope.

(** ** Machine integers

    Integers are mathematical integers; a store into a narrower C type is
    written out as a wrap-around.  Arithmetic on [int] is left unwrapped:
    signed overflow is undefined in C. *)

Definition wrap_u16 (z : Z) : Z := z mod 65536.
Definition wrap_s16 (z : Z) : Z := (z + 32768) mod 65536 - 32768.
Definition wrap_u32 (z : Z) : Z := z mod 4294967296.

(** Modelled from the spec: the macros [MAX] and [MIN] of
    [common/util.h] are not among the sources; the resolver clamps up to
    the minimum and down to the maximum (section 4.3, steps 4 and 5). *)
Definition MAX (a b : Z) : Z := if a <? b then b else a.
Definition MIN (a b : Z) : Z := if a <? b then a else b.

(** ** Doubles

    [double] is IEEE 754 binary64, which is what Rocq's primitive floats
    are. *)

(** [(double) n] for an [int] n: exact. *)
Definition int_to_double (z : Z) : float :=
  if z <? 0
  then PrimFloat.opp (PrimFloat.of_uint63 (Uint63.of_Z (- z)))
  else PrimFloat.of_uint63 (Uint63.of_Z z).

(** [(int) d]: truncation toward zero.  The conversion of a value that is
    not finite is undefined in C; it is given 0 here.  So is the
    conversion of a finite value beyond the range of [int]; it is given
    its truncation here, and nothing below is stated about such a
    value. *)
Definition double_to_int (d : float) : Z :=
  match Prim2SF d with
  | S754_finite s m e =>
      let mag := match e with
                 | Z0 => Z.pos m
                 | Zpos p => Z.shiftl (Z.pos m) (Zpos p)
                 | Zneg p => Z.shiftr (Z.pos m) (Zpos p)
                 end in
      if s then - mag else mag
  | _ => 0
  end.

Definition dlt (a b : float) : bool := PrimFloat.ltb a b.

(** ** Rectangles and size hints *)

(** Modelled from the spec: [area_t] is declared in a header that is not
    among the sources.  A rectangle is x, y, width and height (section
    3); x and y are [int16_t] and width and height [uint16_t], as the
    [uint16_t] copies of the resolver show. *)
Record area_t := mk_area { x : Z; y : Z; width : Z; height : Z }.

Definition set_x (v : Z) (a : area_t) : area_t :=
  {| x := v; y := y a; width := width a; height := height a |}.
Definition set_y (v : Z) (a : area_t) : area_t :=
  {| x := x a; y := v; width := width a; height := height a |}.
Definition set_width (v : Z) (a : area_t) : area_t :=
  {| x := x a; y := y a; width := v; height := height a |}.
Definition set_height (v : Z) (a : area_t) : area_t :=
  {| x := x a; y := y a; width := width a; height := v |}.

(** [xcb_size_hints_t] of the XCB library: [uint32_t flags], the other
    fields [int32_t]. *)
Record xcb_size_hints_t := mk_size_hints {
  flags : Z;
  min_width : Z; min_height : Z;
  max_width : Z; max_height : Z;
  width_inc : Z; height_inc : Z;
  min_aspect_num : Z; min_aspect_den : Z;
  max_aspect_num : Z; max_aspect_den : Z;
  base_width : Z; base_height : Z
}.

(** The flag bits of [xcb_size_hints_flags_t], as the XCB library
    defines them. *)
Definition XCB_SIZE_HINT_P_SIZE : Z := 8.
Definition XCB_SIZE_HINT_P_MIN_SIZE : Z := 16.
Definition XCB_SIZE_HINT_P_MAX_SIZE : Z := 32.
Definition XCB_SIZE_HINT_P_RESIZE_INC : Z := 64.
Definition XCB_SIZE_HINT_P_ASPECT : Z := 128.
Definition XCB_SIZE_HINT_BASE_SIZE : Z := 256.

(** [flags & bit] used as a condition. *)
Definition has_flag (fl bit : Z) : bool := negb (Z.land fl bit =? 0).

(** Modelled from the spec: the macro [unsigned_subtract] of
    [common/util.h] is not among the sources.  Section 4.3, step 6,
    describes it as a subtraction that floors at zero instead of
    underflowing; the left operand is a [uint16_t] variable, which
    receives the result. *)
Definition unsigned_subtract (a b : Z) : Z :=
  if b >? a then 0 else wrap_u16 (a - b).

(** ** Windows, clients and the global configuration *)

Abbreviation xcb_window_t := Z.
Definition XCB_NONE : Z := 0.

(** A [client_t *] is the address of a client object in the heap of the
    global configuration; [NULL] is [None]. *)
Abbreviation client_p := nat.

(** Modelled from the spec: [window_type_t] is declared in a header that
    is not among the sources; the variants are those of section 3. *)
Inductive window_type_t :=
| WINDOW_TYPE_NORMAL | WINDOW_TYPE_DESKTOP | WINDOW_TYPE_DOCK
| WINDOW_TYPE_SPLASH | WINDOW_TYPE_DIALOG | WINDOW_TYPE_MENU
| WINDOW_TYPE_TOOLBAR | WINDOW_TYPE_UTILITY | WINDOW_TYPE_DROPDOWN_MENU
| WINDOW_TYPE_POPUP_MENU | WINDOW_TYPE_TOOLTIP | WINDOW_TYPE_NOTIFICATION
| WINDOW_TYPE_COMBO | WINDOW_TYPE_DND.

Definition window_type_eqb (a b : window_type_t) : bool :=
  match a, b with
  | WINDOW_TYPE_NORMAL, WINDOW_TYPE_NORMAL
  | WINDOW_TYPE_DESKTOP, WINDOW_TYPE_DESKTOP
  | WINDOW_TYPE_DOCK, WINDOW_TYPE_DOCK
  | WINDOW_TYPE_SPLASH, WINDOW_TYPE_SPLASH
  | WINDOW_TYPE_DIALOG, WINDOW_TYPE_DIALOG
  | WINDOW_TYPE_MENU, WINDOW_TYPE_MENU
  | WINDOW_TYPE_TOOLBAR, WINDOW_TYPE_TOOLBAR
  | WINDOW_TYPE_UTILITY, WINDOW_TYPE_UTILITY
  | WINDOW_TYPE_DROPDOWN_MENU, WINDOW_TYPE_DROPDOWN_MENU
  | WINDOW_TYPE_POPUP_MENU, WINDOW_TYPE_POPUP_MENU
  | WINDOW_TYPE_TOOLTIP, WINDOW_TYPE_TOOLTIP
  | WINDOW_TYPE_NOTIFICATION, WINDOW_TYPE_NOTIFICATION
  | WINDOW_TYPE_COMBO, WINDOW_TYPE_COMBO
  | WINDOW_TYPE_DND, WINDOW_TYPE_DND => true
  | _, _ => false
  end.

(** The states of the [WM_STATE] property, from the XCB library. *)
Inductive wm_state_t :=
| XCB_WM_STATE_WITHDRAWN | XCB_WM_STATE_NORMAL | XCB_WM_STATE_ICONIC.

(** Modelled from the spec: [client_t] is declared in a header that is
    not among the sources.  These are the fields that [client.c] reads or
    writes, under the names it uses (section 3 lists them).  [screen] is
    the [screen_t *] as an index into [globalconf.screens]; [titlebar] is
    the window of the attached titlebar, if any; [geometries_internal]
    stands for [geometries.internal], and so on. *)
Record client_t := mk_client {
  win : xcb_window_t;
  screen : nat;
  phys_screen : nat;
  type : window_type_t;
  titlebar : option xcb_window_t;
  transient_for : option client_p;
  protocols : list Z;
  nofocus : bool;
  invalid : bool;
  isurgent : bool;
  isminimized : bool;
  issticky : bool;
  isfullscreen : bool;
  ismaxhoriz : bool;
  ismaxvert : bool;
  isabove : bool;
  isbelow : bool;
  ismodal : bool;
  isontop : bool;
  isbanned : bool;
  ishidden : bool;
  geometry : area_t;
  geometries_internal : area_t;
  geometries_fullscreen : area_t;
  geometries_max : area_t;
  border : Z;
  border_fs : Z;
  size_hints : xcb_size_hints_t;
  size_hints_honor : bool
}.

Definition set_win (v : xcb_window_t) (r : client_t) : client_t :=
  {| win := v; screen := screen r; phys_screen := phys_screen r; type :=
     type r; titlebar := titlebar r; transient_for := transient_for r;
     protocols := protocols r; nofocus := nofocus r; invalid := invalid r;
     isurgent := isurgent r; isminimized := isminimized r; issticky :=
     issticky r; isfullscreen := isfullscreen r; ismaxhoriz := ismaxhoriz
     r; ismaxvert := ismaxvert r; isabove := isabove r; isbelow := isbelow
     r; ismodal := ismodal r; isontop := isontop r; isbanned := isbanned
     r; ishidden := ishidden r; geometry := geometry r;
     geometries_internal := geometries_internal r; geometries_fullscreen
     := geometries_fullscreen r; geometries_max := geometries_max r;
     border := border r; border_fs := border_fs r; size_hints :=
     size_hints r; size_hints_honor := size_hints_honor r |}.
Definition set_phys_screen (v : nat) (r : client_t) : client_t :=
  {| win := win r; screen := screen r; phys_screen := v; type := type r;
     titlebar := titlebar r; transient_for := transient_for r; protocols
     := protocols r; nofocus := nofocus r; invalid := invalid r; isurgent
     := isurgent r; isminimized := isminimized r; issticky := issticky r;
     isfullscreen := isfullscreen r; ismaxhoriz := ismaxhoriz r; ismaxvert
     := ismaxvert r; isabove := isabove r; isbelow := isbelow r; ismodal
     := ismodal r; isontop := isontop r; isbanned := isbanned r; ishidden
     := ishidden r; geometry := geometry r; geometries_internal :=
     geometries_internal r; geometries_fullscreen := geometries_fullscreen
     r; geometries_max := geometries_max r; border := border r; border_fs
     := border_fs r; size_hints := size_hints r; size_hints_honor :=
     size_hints_honor r |}.
Definition set_type (v : window_type_t) (r : client_t) : client_t :=
  {| win := win r; screen := screen r; phys_screen := phys_screen r; type
     := v; titlebar := titlebar r; transient_for := transient_for r;
     protocols := protocols r; nofocus := nofocus r; invalid := invalid r;
     isurgent := isurgent r; isminimized := isminimized r; issticky :=
     issticky r; isfullscreen := isfullscreen r; ismaxhoriz := ismaxhoriz
     r; ismaxvert := ismaxvert r; isabove := isabove r; isbelow := isbelow
     r; ismodal := ismodal r; isontop := isontop r; isbanned := isbanned
     r; ishidden := ishidden r; geometry := geometry r;
     geometries_internal := geometries_internal r; geometries_fullscreen
     := geometries_fullscreen r; geometries_max := geometries_max r;
     border := border r; border_fs := border_fs r; size_hints :=
     size_hints r; size_hints_honor := size_hints_honor r |}.
Definition set_titlebar (v : option xcb_window_t) (r : client_t) : client_t :=
  {| win := win r; screen := screen r; phys_screen := phys_screen r; type
     := type r; titlebar := v; transient_for := transient_for r; protocols
     := protocols r; nofocus := nofocus r; invalid := invalid r; isurgent
     := isurgent r; isminimized := isminimized r; issticky := issticky r;
     isfullscreen := isfullscreen r; ismaxhoriz := ismaxhoriz r; ismaxvert
     := ismaxvert r; isabove := isabove r; isbelow := isbelow r; ismodal
     := ismodal r; isontop := isontop r; isbanned := isbanned r; ishidden
     := ishidden r; geometry := geometry r; geometries_internal :=
     geometries_internal r; geometries_fullscreen := geometries_fullscreen
     r; geometries_max := geometries_max r; border := border r; border_fs
     := border_fs r; size_hints := size_hints r; size_hints_honor :=
     size_hints_honor r |}.
Definition set_size_hints (v : xcb_size_hints_t) (r : client_t) : client_t :=
  {| win := win r; screen := screen r; phys_screen := phys_screen r; type
     := type r; titlebar := titlebar r; transient_for := transient_for r;
     protocols := protocols r; nofocus := nofocus r; invalid := invalid r;
     isurgent := isurgent r; isminimized := isminimized r; issticky :=
     issticky r; isfullscreen := isfullscreen r; ismaxhoriz := ismaxhoriz
     r; ismaxvert := ismaxvert r; isabove := isabove r; isbelow := isbelow
     r; ismodal := ismodal r; isontop := isontop r; isbanned := isbanned
     r; ishidden := ishidden r; geometry := geometry r;
     geometries_internal := geometries_internal r; geometries_fullscreen
     := geometries_fullscreen r; geometries_max := geometries_max r;
     border := border r; border_fs := border_fs r; size_hints := v;
     size_hints_honor := size_hints_honor r |}.
Definition set_screen (v : nat) (r : client_t) : client_t :=
  {| win := win r; screen := v; phys_screen := phys_screen r; type := type
     r; titlebar := titlebar r; transient_for := transient_for r;
     protocols := protocols r; nofocus := nofocus r; invalid := invalid r;
     isurgent := isurgent r; isminimized := isminimized r; issticky :=
     issticky r; isfullscreen := isfullscreen r; ismaxhoriz := ismaxhoriz
     r; ismaxvert := ismaxvert r; isabove := isabove r; isbelow := isbelow
     r; ismodal := ismodal r; isontop := isontop r; isbanned := isbanned
     r; ishidden := ishidden r; geometry := geometry r;
     geometries_internal := geometries_internal r; geometries_fullscreen
     := geometries_fullscreen r; geometries_max := geometries_max r;
     border := border r; border_fs := border_fs r; size_hints :=
     size_hints r; size_hints_honor := size_hints_honor r |}.
Definition set_transient_for (v : option client_p) (r : client_t) : client_t :=
  {| win := win r; screen := screen r; phys_screen := phys_screen r; type
     := type r; titlebar := titlebar r; transient_for := v; protocols :=
     protocols r; nofocus := nofocus r; invalid := invalid r; isurgent :=
     isurgent r; isminimized := isminimized r; issticky := issticky r;
     isfullscreen := isfullscreen r; ismaxhoriz := ismaxhoriz r; ismaxvert
     := ismaxvert r; isabove := isabove r; isbelow := isbelow r; ismodal
     := ismodal r; isontop := isontop r; isbanned := isbanned r; ishidden
     := ishidden r; geometry := geometry r; geometries_internal :=
     geometries_internal r; geometries_fullscreen := geometries_fullscreen
     r; geometries_max := geometries_max r; border := border r; border_fs
     := border_fs r; size_hints := size_hints r; size_hints_honor :=
     size_hints_honor r |}.
Definition set_invalid (v : bool) (r : client_t) : client_t :=
  {| win := win r; screen := screen r; phys_screen := phys_screen r; type
     := type r; titlebar := titlebar r; transient_for := transient_for r;
     protocols := protocols r; nofocus := nofocus r; invalid := v;
     isurgent := isurgent r; isminimized := isminimized r; issticky :=
     issticky r; isfullscreen := isfullscreen r; ismaxhoriz := ismaxhoriz
     r; ismaxvert := ismaxvert r; isabove := isabove r; isbelow := isbelow
     r; ismodal := ismodal r; isontop := isontop r; isbanned := isbanned
     r; ishidden := ishidden r; geometry := geometry r;
     geometries_internal := geometries_internal r; geometries_fullscreen
     := geometries_fullscreen r; geometries_max := geometries_max r;
     border := border r; border_fs := border_fs r; size_hints :=
     size_hints r; size_hints_honor := size_hints_honor r |}.
Definition set_isurgent (v : bool) (r : client_t) : client_t :=
  {| win := win r; screen := screen r; phys_screen := phys_screen r; type
     := type r; titlebar := titlebar r; transient_for := transient_for r;
     protocols := protocols r; nofocus := nofocus r; invalid := invalid r;
     isurgent := v; isminimized := isminimized r; issticky := issticky r;
     isfullscreen := isfullscreen r; ismaxhoriz := ismaxhoriz r; ismaxvert
     := ismaxvert r; isabove := isabove r; isbelow := isbelow r; ismodal
     := ismodal r; isontop := isontop r; isbanned := isbanned r; ishidden
     := ishidden r; geometry := geometry r; geometries_internal :=
     geometries_internal r; geometries_fullscreen := geometries_fullscreen
     r; geometries_max := geometries_max r; border := border r; border_fs
     := border_fs r; size_hints := size_hints r; size_hints_honor :=
     size_hints_honor r |}.
Definition set_isminimized (v : bool) (r : client_t) : client_t :=
  {| win := win r; screen := screen r; phys_screen := phys_screen r; type
     := type r; titlebar := titlebar r; transient_for := transient_for r;
     protocols := protocols r; nofocus := nofocus r; invalid := invalid r;
     isurgent := isurgent r; isminimized := v; issticky := issticky r;
     isfullscreen := isfullscreen r; ismaxhoriz := ismaxhoriz r; ismaxvert
     := ismaxvert r; isabove := isabove r; isbelow := isbelow r; ismodal
     := ismodal r; isontop := isontop r; isbanned := isbanned r; ishidden
     := ishidden r; geometry := geometry r; geometries_internal :=
     geometries_internal r; geometries_fullscreen := geometries_fullscreen
     r; geometries_max := geometries_max r; border := border r; border_fs
     := border_fs r; size_hints := size_hints r; size_hints_honor :=
     size_hints_honor r |}.
Definition set_issticky (v : bool) (r : client_t) : client_t :=
  {| win := win r; screen := screen r; phys_screen := phys_screen r; type
     := type r; titlebar := titlebar r; transient_for := transient_for r;
     protocols := protocols r; nofocus := nofocus r; invalid := invalid r;
     isurgent := isurgent r; isminimized := isminimized r; issticky := v;
     isfullscreen := isfullscreen r; ismaxhoriz := ismaxhoriz r; ismaxvert
     := ismaxvert r; isabove := isabove r; isbelow := isbelow r; ismodal
     := ismodal r; isontop := isontop r; isbanned := isbanned r; ishidden
     := ishidden r; geometry := geometry r; geometries_internal :=
     geometries_internal r; geometries_fullscreen := geometries_fullscreen
     r; geometries_max := geometries_max r; border := border r; border_fs
     := border_fs r; size_hints := size_hints r; size_hints_honor :=
     size_hints_honor r |}.
Definition set_isfullscreen (v : bool) (r : client_t) : client_t :=
  {| win := win r; screen := screen r; phys_screen := phys_screen r; type
     := type r; titlebar := titlebar r; transient_for := transient_for r;
     protocols := protocols r; nofocus := nofocus r; invalid := invalid r;
     isurgent := isurgent r; isminimized := isminimized r; issticky :=
     issticky r; isfullscreen := v; ismaxhoriz := ismaxhoriz r; ismaxvert
     := ismaxvert r; isabove := isabove r; isbelow := isbelow r; ismodal
     := ismodal r; isontop := isontop r; isbanned := isbanned r; ishidden
     := ishidden r; geometry := geometry r; geometries_internal :=
     geometries_internal r; geometries_fullscreen := geometries_fullscreen
     r; geometries_max := geometries_max r; border := border r; border_fs
     := border_fs r; size_hints := size_hints r; size_hints_honor :=
     size_hints_honor r |}.
Definition set_ismaxhoriz (v : bool) (r : client_t) : client_t :=
  {| win := win r; screen := screen r; phys_screen := phys_screen r; type
     := type r; titlebar := titlebar r; transient_for := transient_for r;
     protocols := protocols r; nofocus := nofocus r; invalid := invalid r;
     isurgent := isurgent r; isminimized := isminimized r; issticky :=
     issticky r; isfullscreen := isfullscreen r; ismaxhoriz := v;
     ismaxvert := ismaxvert r; isabove := isabove r; isbelow := isbelow r;
     ismodal := ismodal r; isontop := isontop r; isbanned := isbanned r;
     ishidden := ishidden r; geometry := geometry r; geometries_internal
     := geometries_internal r; geometries_fullscreen :=
     geometries_fullscreen r; geometries_max := geometries_max r; border
     := border r; border_fs := border_fs r; size_hints := size_hints r;
     size_hints_honor := size_hints_honor r |}.
Definition set_ismaxvert (v : bool) (r : client_t) : client_t :=
  {| win := win r; screen := screen r; phys_screen := phys_screen r; type
     := type r; titlebar := titlebar r; transient_for := transient_for r;
     protocols := protocols r; nofocus := nofocus r; invalid := invalid r;
     isurgent := isurgent r; isminimized := isminimized r; issticky :=
     issticky r; isfullscreen := isfullscreen r; ismaxhoriz := ismaxhoriz
     r; ismaxvert := v; isabove := isabove r; isbelow := isbelow r;
     ismodal := ismodal r; isontop := isontop r; isbanned := isbanned r;
     ishidden := ishidden r; geometry := geometry r; geometries_internal
     := geometries_internal r; geometries_fullscreen :=
     geometries_fullscreen r; geometries_max := geometries_max r; border
     := border r; border_fs := border_fs r; size_hints := size_hints r;
     size_hints_honor := size_hints_honor r |}.
Definition set_isabove (v : bool) (r : client_t) : client_t :=
  {| win := win r; screen := screen r; phys_screen := phys_screen r; type
     := type r; titlebar := titlebar r; transient_for := transient_for r;
     protocols := protocols r; nofocus := nofocus r; invalid := invalid r;
     isurgent := isurgent r; isminimized := isminimized r; issticky :=
     issticky r; isfullscreen := isfullscreen r; ismaxhoriz := ismaxhoriz
     r; ismaxvert := ismaxvert r; isabove := v; isbelow := isbelow r;
     ismodal := ismodal r; isontop := isontop r; isbanned := isbanned r;
     ishidden := ishidden r; geometry := geometry r; geometries_internal
     := geometries_internal r; geometries_fullscreen :=
     geometries_fullscreen r; geometries_max := geometries_max r; border
     := border r; border_fs := border_fs r; size_hints := size_hints r;
     size_hints_honor := size_hints_honor r |}.
Definition set_isbelow (v : bool) (r : client_t) : client_t :=
  {| win := win r; screen := screen r; phys_screen := phys_screen r; type
     := type r; titlebar := titlebar r; transient_for := transient_for r;
     protocols := protocols r; nofocus := nofocus r; invalid := invalid r;
     isurgent := isurgent r; isminimized := isminimized r; issticky :=
     issticky r; isfullscreen := isfullscreen r; ismaxhoriz := ismaxhoriz
     r; ismaxvert := ismaxvert r; isabove := isabove r; isbelow := v;
     ismodal := ismodal r; isontop := isontop r; isbanned := isbanned r;
     ishidden := ishidden r; geometry := geometry r; geometries_internal
     := geometries_internal r; geometries_fullscreen :=
     geometries_fullscreen r; geometries_max := geometries_max r; border
     := border r; border_fs := border_fs r; size_hints := size_hints r;
     size_hints_honor := size_hints_honor r |}.
Definition set_ismodal (v : bool) (r : client_t) : client_t :=
  {| win := win r; screen := screen r; phys_screen := phys_screen r; type
     := type r; titlebar := titlebar r; transient_for := transient_for r;
     protocols := protocols r; nofocus := nofocus r; invalid := invalid r;
     isurgent := isurgent r; isminimized := isminimized r; issticky :=
     issticky r; isfullscreen := isfullscreen r; ismaxhoriz := ismaxhoriz
     r; ismaxvert := ismaxvert r; isabove := isabove r; isbelow := isbelow
     r; ismodal := v; isontop := isontop r; isbanned := isbanned r;
     ishidden := ishidden r; geometry := geometry r; geometries_internal
     := geometries_internal r; geometries_fullscreen :=
     geometries_fullscreen r; geometries_max := geometries_max r; border
     := border r; border_fs := border_fs r; size_hints := size_hints r;
     size_hints_honor := size_hints_honor r |}.
Definition set_isontop (v : bool) (r : client_t) : client_t :=
  {| win := win r; screen := screen r; phys_screen := phys_screen r; type
     := type r; titlebar := titlebar r; transient_for := transient_for r;
     protocols := protocols r; nofocus := nofocus r; invalid := invalid r;
     isurgent := isurgent r; isminimized := isminimized r; issticky :=
     issticky r; isfullscreen := isfullscreen r; ismaxhoriz := ismaxhoriz
     r; ismaxvert := ismaxvert r; isabove := isabove r; isbelow := isbelow
     r; ismodal := ismodal r; isontop := v; isbanned := isbanned r;
     ishidden := ishidden r; geometry := geometry r; geometries_internal
     := geometries_internal r; geometries_fullscreen :=
     geometries_fullscreen r; geometries_max := geometries_max r; border
     := border r; border_fs := border_fs r; size_hints := size_hints r;
     size_hints_honor := size_hints_honor r |}.
Definition set_isbanned (v : bool) (r : client_t) : client_t :=
  {| win := win r; screen := screen r; phys_screen := phys_screen r; type
     := type r; titlebar := titlebar r; transient_for := transient_for r;
     protocols := protocols r; nofocus := nofocus r; invalid := invalid r;
     isurgent := isurgent r; isminimized := isminimized r; issticky :=
     issticky r; isfullscreen := isfullscreen r; ismaxhoriz := ismaxhoriz
     r; ismaxvert := ismaxvert r; isabove := isabove r; isbelow := isbelow
     r; ismodal := ismodal r; isontop := isontop r; isbanned := v;
     ishidden := ishidden r; geometry := geometry r; geometries_internal
     := geometries_internal r; geometries_fullscreen :=
     geometries_fullscreen r; geometries_max := geometries_max r; border
     := border r; border_fs := border_fs r; size_hints := size_hints r;
     size_hints_honor := size_hints_honor r |}.
Definition set_ishidden (v : bool) (r : client_t) : client_t :=
  {| win := win r; screen := screen r; phys_screen := phys_screen r; type
     := type r; titlebar := titlebar r; transient_for := transient_for r;
     protocols := protocols r; nofocus := nofocus r; invalid := invalid r;
     isurgent := isurgent r; isminimized := isminimized r; issticky :=
     issticky r; isfullscreen := isfullscreen r; ismaxhoriz := ismaxhoriz
     r; ismaxvert := ismaxvert r; isabove := isabove r; isbelow := isbelow
     r; ismodal := ismodal r; isontop := isontop r; isbanned := isbanned
     r; ishidden := v; geometry := geometry r; geometries_internal :=
     geometries_internal r; geometries_fullscreen := geometries_fullscreen
     r; geometries_max := geometries_max r; border := border r; border_fs
     := border_fs r; size_hints := size_hints r; size_hints_honor :=
     size_hints_honor r |}.
Definition set_geometry (v : area_t) (r : client_t) : client_t :=
  {| win := win r; screen := screen r; phys_screen := phys_screen r; type
     := type r; titlebar := titlebar r; transient_for := transient_for r;
     protocols := protocols r; nofocus := nofocus r; invalid := invalid r;
     isurgent := isurgent r; isminimized := isminimized r; issticky :=
     issticky r; isfullscreen := isfullscreen r; ismaxhoriz := ismaxhoriz
     r; ismaxvert := ismaxvert r; isabove := isabove r; isbelow := isbelow
     r; ismodal := ismodal r; isontop := isontop r; isbanned := isbanned
     r; ishidden := ishidden r; geometry := v; geometries_internal :=
     geometries_internal r; geometries_fullscreen := geometries_fullscreen
     r; geometries_max := geometries_max r; border := border r; border_fs
     := border_fs r; size_hints := size_hints r; size_hints_honor :=
     size_hints_honor r |}.
Definition set_geometries_internal (v : area_t) (r : client_t) : client_t :=
  {| win := win r; screen := screen r; phys_screen := phys_screen r; type
     := type r; titlebar := titlebar r; transient_for := transient_for r;
     protocols := protocols r; nofocus := nofocus r; invalid := invalid r;
     isurgent := isurgent r; isminimized := isminimized r; issticky :=
     issticky r; isfullscreen := isfullscreen r; ismaxhoriz := ismaxhoriz
     r; ismaxvert := ismaxvert r; isabove := isabove r; isbelow := isbelow
     r; ismodal := ismodal r; isontop := isontop r; isbanned := isbanned
     r; ishidden := ishidden r; geometry := geometry r;
     geometries_internal := v; geometries_fullscreen :=
     geometries_fullscreen r; geometries_max := geometries_max r; border
     := border r; border_fs := border_fs r; size_hints := size_hints r;
     size_hints_honor := size_hints_honor r |}.
Definition set_geometries_fullscreen (v : area_t) (r : client_t) : client_t :=
  {| win := win r; screen := screen r; phys_screen := phys_screen r; type
     := type r; titlebar := titlebar r; transient_for := transient_for r;
     protocols := protocols r; nofocus := nofocus r; invalid := invalid r;
     isurgent := isurgent r; isminimized := isminimized r; issticky :=
     issticky r; isfullscreen := isfullscreen r; ismaxhoriz := ismaxhoriz
     r; ismaxvert := ismaxvert r; isabove := isabove r; isbelow := isbelow
     r; ismodal := ismodal r; isontop := isontop r; isbanned := isbanned
     r; ishidden := ishidden r; geometry := geometry r;
     geometries_internal := geometries_internal r; geometries_fullscreen
     := v; geometries_max := geometries_max r; border := border r;
     border_fs := border_fs r; size_hints := size_hints r;
     size_hints_honor := size_hints_honor r |}.
Definition set_geometries_max (v : area_t) (r : client_t) : client_t :=
  {| win := win r; screen := screen r; phys_screen := phys_screen r; type
     := type r; titlebar := titlebar r; transient_for := transient_for r;
     protocols := protocols r; nofocus := nofocus r; invalid := invalid r;
     isurgent := isurgent r; isminimized := isminimized r; issticky :=
     issticky r; isfullscreen := isfullscreen r; ismaxhoriz := ismaxhoriz
     r; ismaxvert := ismaxvert r; isabove := isabove r; isbelow := isbelow
     r; ismodal := ismodal r; isontop := isontop r; isbanned := isbanned
     r; ishidden := ishidden r; geometry := geometry r;
     geometries_internal := geometries_internal r; geometries_fullscreen
     := geometries_fullscreen r; geometries_max := v; border := border r;
     border_fs := border_fs r; size_hints := size_hints r;
     size_hints_honor := size_hints_honor r |}.
Definition set_border (v : Z) (r : client_t) : client_t :=
  {| win := win r; screen := screen r; phys_screen := phys_screen r; type
     := type r; titlebar := titlebar r; transient_for := transient_for r;
     protocols := protocols r; nofocus := nofocus r; invalid := invalid r;
     isurgent := isurgent r; isminimized := isminimized r; issticky :=
     issticky r; isfullscreen := isfullscreen r; ismaxhoriz := ismaxhoriz
     r; ismaxvert := ismaxvert r; isabove := isabove r; isbelow := isbelow
     r; ismodal := ismodal r; isontop := isontop r; isbanned := isbanned
     r; ishidden := ishidden r; geometry := geometry r;
     geometries_internal := geometries_internal r; geometries_fullscreen
     := geometries_fullscreen r; geometries_max := geometries_max r;
     border := v; border_fs := border_fs r; size_hints := size_hints r;
     size_hints_honor := size_hints_honor r |}.
Definition set_border_fs (v : Z) (r : client_t) : client_t :=
  {| win := win r; screen := screen r; phys_screen := phys_screen r; type
     := type r; titlebar := titlebar r; transient_for := transient_for r;
     protocols := protocols r; nofocus := nofocus r; invalid := invalid r;
     isurgent := isurgent r; isminimized := isminimized r; issticky :=
     issticky r; isfullscreen := isfullscreen r; ismaxhoriz := ismaxhoriz
     r; ismaxvert := ismaxvert r; isabove := isabove r; isbelow := isbelow
     r; ismodal := ismodal r; isontop := isontop r; isbanned := isbanned
     r; ishidden := ishidden r; geometry := geometry r;
     geometries_internal := geometries_internal r; geometries_fullscreen
     := geometries_fullscreen r; geometries_max := geometries_max r;
     border := border r; border_fs := v; size_hints := size_hints r;
     size_hints_honor := size_hints_honor r |}.

(** Modelled from the spec: [tag.h] is not among the sources.  A tag is
    selected or not and tags a sequence of clients (section 6, tag and
    visibility predicate). *)
Record tag_t := mk_tag {
  selected : bool;
  tag_clients : list client_p
}.

Definition set_tag_clients (v : list client_p) (r : tag_t) : tag_t :=
  {| selected := selected r; tag_clients := v |}.

(** Modelled from the spec: [screen_t] is declared in a header that is
    not among the sources.  These are the fields that [client.c] uses:
    [tags], and the focus state of section 3, [client_focus] and
    [prev_client_focus], as [scr_client_focus] and
    [scr_prev_client_focus]. *)
Record screen_t := mk_screen {
  tags : list tag_t;
  scr_client_focus : option client_p;
  scr_prev_client_focus : option client_p
}.

Definition set_tags (v : list tag_t) (r : screen_t) : screen_t :=
  {| tags := v; scr_client_focus := scr_client_focus r; scr_prev_client_focus :=
     scr_prev_client_focus r |}.
Definition set_scr_client_focus (v : option client_p) (r : screen_t) : screen_t :=
  {| tags := tags r; scr_client_focus := v; scr_prev_client_focus :=
     scr_prev_client_focus r |}.
Definition set_scr_prev_client_focus (v : option client_p) (r : screen_t) : screen_t :=
  {| tags := tags r; scr_client_focus := scr_client_focus r; scr_prev_client_focus :=
     v |}.

(** Modelled from the spec: [wibox_t] is declared in a header that is not
    among the sources.  An auxiliary panel has a window, [sw.window], and
    an [ontop] flag (section 6). *)
Record wibox_t := mk_wibox {
  sw_window : xcb_window_t;
  ontop : bool
}.


(** Modelled from the spec: the type of [globalconf.hooks] is declared in
    a header that is not among the sources.  A field is [true] when the
    hook is registered (differs from [LUA_REFNIL]). *)
Record hooks_t := mk_hooks {
  hooks_focus : bool;
  hooks_unfocus : bool;
  hooks_manage : bool;
  hooks_unmanage : bool;
  hooks_clients : bool
}.


(** What the code asks of its collaborators (section 6): the requests
    sent to the X server, the calls into the EWMH, titlebar and screen
    modules, and the hooks run.  [hook_property] stands for the macro of
    that name, which runs the property hook of a client. *)
Inductive event :=
| xcb_configure_window_stack (w sibling : xcb_window_t)
| xcb_configure_window_geometry (w : xcb_window_t) (gx gy gw gh : Z)
| xcb_configure_window_border (w : xcb_window_t) (bw : Z)
| xcb_map_window (w : xcb_window_t)
| xcb_unmap_window (w : xcb_window_t)
| xcb_set_input_focus (w : xcb_window_t)
| xcb_set_input_focus_root (phys : nat)
| window_takefocus (w : xcb_window_t)
| xcb_set_wm_hints (w : xcb_window_t) (urgency : bool)
| window_state_set (w : xcb_window_t) (st : wm_state_t)
| xcb_ungrab_button (w : xcb_window_t)
| ewmh_client_update_hints (w : xcb_window_t)
| ewmh_update_net_active_window (phys : nat)
| ewmh_update_net_client_list (phys : nat)
| titlebar_ban (tb : option xcb_window_t)
| titlebar_update_geometry (w : xcb_window_t)
| titlebar_client_detach (w : xcb_window_t)
| screen_client_moveto (w : xcb_window_t) (new_screen : nat)
| hook_property (w : xcb_window_t) (prop : string)
| hook_focus (w : xcb_window_t)
| hook_unfocus (w : xcb_window_t)
| hook_unmanage (w : xcb_window_t)
| hook_clients.

(** Modelled from the spec: the type of [globalconf] is declared in a
    header that is not among the sources.  These are the fields that
    [client.c] uses, with the heap of client objects and the trace of
    events, newest first.  [screen_focus] is the [screen_t *] as an index
    into [screens]. *)
Record globalconf_t := mk_globalconf {
  clients : list client_p;
  stack : list client_p;
  screens : list screen_t;
  screen_focus : option nat;
  wiboxes : list wibox_t;
  hooks : hooks_t;
  client_need_stack_refresh : bool;
  need_reban : bool;
  heap : gmap nat client_t;
  trace : list event
}.

Definition set_clients (v : list client_p) (r : globalconf_t) : globalconf_t :=
  {| clients := v; stack := stack r; screens := screens r; screen_focus :=
     screen_focus r; wiboxes := wiboxes r; hooks := hooks r;
     client_need_stack_refresh := client_need_stack_refresh r; need_reban
     := need_reban r; heap := heap r; trace := trace r |}.
Definition set_stack (v : list client_p) (r : globalconf_t) : globalconf_t :=
  {| clients := clients r; stack := v; screens := screens r; screen_focus
     := screen_focus r; wiboxes := wiboxes r; hooks := hooks r;
     client_need_stack_refresh := client_need_stack_refresh r; need_reban
     := need_reban r; heap := heap r; trace := trace r |}.
Definition set_screens (v : list screen_t) (r : globalconf_t) : globalconf_t :=
  {| clients := clients r; stack := stack r; screens := v; screen_focus :=
     screen_focus r; wiboxes := wiboxes r; hooks := hooks r;
     client_need_stack_refresh := client_need_stack_refresh r; need_reban
     := need_reban r; heap := heap r; trace := trace r |}.
Definition set_screen_focus (v : option nat) (r : globalconf_t) : globalconf_t :=
  {| clients := clients r; stack := stack r; screens := screens r;
     screen_focus := v; wiboxes := wiboxes r; hooks := hooks r;
     client_need_stack_refresh := client_need_stack_refresh r; need_reban
     := need_reban r; heap := heap r; trace := trace r |}.
Definition set_client_need_stack_refresh (v : bool) (r : globalconf_t) : globalconf_t :=
  {| clients := clients r; stack := stack r; screens := screens r;
     screen_focus := screen_focus r; wiboxes := wiboxes r; hooks := hooks
     r; client_need_stack_refresh := v; need_reban := need_reban r; heap
     := heap r; trace := trace r |}.
Definition set_need_reban (v : bool) (r : globalconf_t) : globalconf_t :=
  {| clients := clients r; stack := stack r; screens := screens r;
     screen_focus := screen_focus r; wiboxes := wiboxes r; hooks := hooks
     r; client_need_stack_refresh := client_need_stack_refresh r;
     need_reban := v; heap := heap r; trace := trace r |}.
Definition set_heap (v : gmap nat client_t) (r : globalconf_t) : globalconf_t :=
  {| clients := clients r; stack := stack r; screens := screens r;
     screen_focus := screen_focus r; wiboxes := wiboxes r; hooks := hooks
     r; client_need_stack_refresh := client_need_stack_refresh r;
     need_reban := need_reban r; heap := v; trace := trace r |}.
Definition set_trace (v : list event) (r : globalconf_t) : globalconf_t :=
  {| clients := clients r; stack := stack r; screens := screens r;
     screen_focus := screen_focus r; wiboxes := wiboxes r; hooks := hooks
     r; client_need_stack_refresh := client_need_stack_refresh r;
     need_reban := need_reban r; heap := heap r; trace := v |}.

(** A freshly allocated client object: every field zero, as [client_new]
    leaves it. *)
Definition area_zero : area_t := mk_area 0 0 0 0.
Definition size_hints_zero : xcb_size_hints_t :=
  mk_size_hints 0 0 0 0 0 0 0 0 0 0 0 0 0.
Definition client_zero : client_t :=
  mk_client 0 0%nat 0%nat WINDOW_TYPE_NORMAL None None nil false false false
    false false false false false false false false false false false
    area_zero area_zero area_zero area_zero 0 0 size_hints_zero false.

(** *** The geometry resolver, [client_geometry_hints] *)

(** base size is substituted with min size if not specified *)
Definition hints_base (h : xcb_size_hints_t) : Z * Z :=
  if has_flag (flags h) XCB_SIZE_HINT_P_SIZE
  then (base_width h, base_height h)
  else if has_flag (flags h) XCB_SIZE_HINT_P_MIN_SIZE
  then (min_width h, min_height h)
  else (0, 0).

(** min size is substituted with base size if not specified *)
Definition hints_min (h : xcb_size_hints_t) : Z * Z :=
  if has_flag (flags h) XCB_SIZE_HINT_P_MIN_SIZE
  then (min_width h, min_height h)
  else if has_flag (flags h) XCB_SIZE_HINT_P_SIZE
  then (base_width h, base_height h)
  else (0, 0).

(** The aspect-ratio block. *)
Definition hints_aspect (h : xcb_size_hints_t) (basew baseh : Z)
    (geometry : area_t) : area_t :=
  if has_flag (flags h) XCB_SIZE_HINT_P_ASPECT
     && (min_aspect_num h >? 0)
     && (min_aspect_den h >? 0)
     && (height geometry - baseh >? 0)
     && (width geometry - basew >? 0)
  then
    let dx := int_to_double (width geometry - basew) in
    let dy := int_to_double (height geometry - baseh) in
    let min := PrimFloat.div (int_to_double (min_aspect_num h))
                             (int_to_double (min_aspect_den h)) in
    let max := PrimFloat.div (int_to_double (max_aspect_num h))
                             (int_to_double (min_aspect_den h)) in
    let ratio := PrimFloat.div dx dy in
    if dlt 0%float max && dlt 0%float min && dlt 0%float ratio
    then
      if dlt ratio min
      then
        let dy := PrimFloat.div (PrimFloat.add (PrimFloat.mul dx min) dy)
                                (PrimFloat.add (PrimFloat.mul min min) 1%float) in
        let dx := PrimFloat.mul dy min in
        set_height (wrap_u16 (double_to_int dy + baseh))
          (set_width (wrap_u16 (double_to_int dx + basew)) geometry)
      else if dlt max ratio
      then
        let dy := PrimFloat.div (PrimFloat.add (PrimFloat.mul dx min) dy)
                                (PrimFloat.add (PrimFloat.mul max max) 1%float) in
        let dx := PrimFloat.mul dy min in
        set_height (wrap_u16 (double_to_int dy + baseh))
          (set_width (wrap_u16 (double_to_int dx + basew)) geometry)
      else geometry
    else geometry
  else geometry.

(** The clamps to the minimum and to the maximum size. *)
Definition hints_clamp (h : xcb_size_hints_t) (minw minh : Z)
    (geometry : area_t) : area_t :=
  let geometry :=
    if negb (minw =? 0)
    then set_width (wrap_u16 (MAX (width geometry) minw)) geometry
    else geometry in
  let geometry :=
    if negb (minh =? 0)
    then set_height (wrap_u16 (MAX (height geometry) minh)) geometry
    else geometry in
  if has_flag (flags h) XCB_SIZE_HINT_P_MAX_SIZE
  then
    let geometry :=
      if negb (max_width h =? 0)
      then set_width (wrap_u16 (MIN (width geometry) (max_width h))) geometry
      else geometry in
    if negb (max_height h =? 0)
    then set_height (wrap_u16 (MIN (height geometry) (max_height h))) geometry
    else geometry
  else geometry.

(** The test that guards the resize-increment block. *)
Definition hints_increment_enabled (h : xcb_size_hints_t) : bool :=
  has_flag (flags h) (Z.lor XCB_SIZE_HINT_P_RESIZE_INC XCB_SIZE_HINT_BASE_SIZE)
  && negb (width_inc h =? 0) && negb (height_inc h =? 0).

(** The resize-increment block; C's [%] truncates, as [Z.rem] does. *)
Definition hints_increment (h : xcb_size_hints_t) (basew baseh : Z)
    (geometry : area_t) : area_t :=
  if hints_increment_enabled h
  then
    let t1 := wrap_u16 (width geometry) in
    let t2 := wrap_u16 (height geometry) in
    let t1 := unsigned_subtract t1 basew in
    let t2 := unsigned_subtract t2 baseh in
    set_height (wrap_u16 (height geometry - Z.rem t2 (height_inc h)))
      (set_width (wrap_u16 (width geometry - Z.rem t1 (width_inc h))) geometry)
  else geometry.

Definition client_geometry_hints (c : client_t) (geometry : area_t) : area_t :=
  let h := size_hints c in
  let '(basew, baseh) := hints_base h in
  let '(minw, minh) := hints_min h in
  let geometry := hints_aspect h basew baseh geometry in
  let geometry := hints_clamp h minw minh geometry in
  hints_increment h basew baseh geometry.

(** ** Faults and the state monad

    A C function that works on a state [S] and returns an [A] is a
    function from [S] to a fault or to the result with the new state. *)

Inductive fault := NullPointer | DanglingPointer | OutOfBounds | OutOfFuel.

Definition result (A : Type) : Type := (fault + A)%type.

Definition M (S A : Type) : Type := S -> result (A * S).

Definition ret {S A : Type} (a : A) : M S A := fun s => inr (a, s).

Definition bind {S A B : Type} (m : M S A) (k : A -> M S B) : M S B :=
  fun s => match m s with
           | inl f => inl f
           | inr (a, s') => k a s'
           end.

Definition throw {S A : Type} (f : fault) : M S A := fun _ => inl f.

Definition get {S : Type} : M S S := fun s => inr (s, s).

Definition modify {S : Type} (f : S -> S) : M S unit := fun s => inr (tt, f s).

Declare Scope M_scope.
Delimit Scope M_scope with M.
Notation "'let*' x ':=' m 'in' k" := (bind m (fun x => k))
  (at level 10, x name, m at level 100, k at level 200) : M_scope.
Notation "m ;; k" := (bind m (fun _ => k))
  (at level 100, k at level 200, right associativity) : M_scope.
Open Scope M_scope.

(** [foreach(elem, array) acc = body(elem, acc);] *)
Fixpoint foreach {S A B : Type} (l : list A) (acc : B)
    (body : A -> B -> M S B) : M S B :=
  match l with
  | [] => ret acc
  | a :: l' => let* acc' := body a acc in foreach l' acc' body
  end.

(** *** Functions of one client

    A function that takes a [client_t *c] and touches nothing but [*c]
    and the globals works on the pair of the client object and the
    global configuration. *)

Definition cstate : Type := client_t * globalconf_t.

(** Reads [*c]. *)
Definition self : M cstate client_t := fun s => inr (fst s, s).

(** An assignment to a field of [*c]. *)
Definition assign (f : client_t -> client_t) : M cstate unit :=
  fun s => inr (tt, (f (fst s), snd s)).

(** A call to a collaborator; the trace has the newest event first. *)
Definition record (e : event) (g : globalconf_t) : globalconf_t :=
  set_trace (e :: trace g) g.

Definition emit (e : event) : M cstate unit :=
  fun s => inr (tt, (fst s, record e (snd s))).

(** Modelled from the spec: [client_stack] of [client.h] is not among the
    sources; it marks the stacking engine dirty (section 4.2). *)
Definition client_stack : M cstate unit :=
  fun s => inr (tt, (fst s, set_client_need_stack_refresh true (snd s))).

(** Modelled from the spec: [client_need_reban] of [client.h] is not among
    the sources; banning is visibility bookkeeping (section 4.1), kept
    here as one flag. *)
Definition client_need_reban : M cstate unit :=
  fun s => inr (tt, (fst s, set_need_reban true (snd s))).

(** Modelled from the spec: [screen_client_moveto] of [screen.c] is not
    among the sources; the client migrates to the new region, its tags
    are another module's affair (section 4.3). *)
Definition do_screen_client_moveto (new_screen : nat) : M cstate unit :=
  let* c := self in
  assign (set_screen new_screen) ;;
  emit (screen_client_moveto (win c) new_screen).

Definition client_seturgent (urgent : bool) : M cstate unit :=
  let* c := self in
  if negb (eqb (isurgent c) urgent)
  then
    assign (set_isurgent urgent) ;;
    emit (ewmh_client_update_hints (win c)) ;;
    (* update ICCCM hints *)
    emit (xcb_set_wm_hints (win c) urgent) ;;
    emit (hook_property (win c) "urgent")
  else ret tt.

Definition client_setminimized (s : bool) : M cstate unit :=
  let* c := self in
  if negb (eqb (isminimized c) s)
  then
    client_need_reban ;;
    assign (set_isminimized s) ;;
    client_need_reban ;;
    emit (window_state_set (win c)
            (if s then XCB_WM_STATE_ICONIC else XCB_WM_STATE_NORMAL)) ;;
    emit (ewmh_client_update_hints (win c)) ;;
    (* execute hook *)
    emit (hook_property (win c) "minimized")
  else ret tt.

Definition client_setsticky (s : bool) : M cstate unit :=
  let* c := self in
  if negb (eqb (issticky c) s)
  then
    client_need_reban ;;
    assign (set_issticky s) ;;
    client_need_reban ;;
    emit (ewmh_client_update_hints (win c)) ;;
    emit (hook_property (win c) "sticky")
  else ret tt.

Definition client_setmodal (s : bool) : M cstate unit :=
  let* c := self in
  if negb (eqb (ismodal c) s)
  then
    assign (set_ismodal s) ;;
    client_stack ;;
    emit (ewmh_client_update_hints (win c)) ;;
    (* execute hook *)
    emit (hook_property (win c) "modal")
  else ret tt.

Definition client_unban : M cstate unit :=
  let* c := self in
  if isbanned c
  then
    emit (xcb_map_window (win c)) ;;
    assign (set_isbanned false)
  else ret tt.

(** The window types on which [client_setborder] refuses a border. *)
Definition borderless_type (t : window_type_t) : bool :=
  window_type_eqb t WINDOW_TYPE_DOCK
  || window_type_eqb t WINDOW_TYPE_SPLASH
  || window_type_eqb t WINDOW_TYPE_DESKTOP.

(** [geometry.width += d; geometry.height += d] on [uint16_t] fields. *)
Definition grow (d : Z) (a : area_t) : area_t :=
  set_height (wrap_u16 (height a + d)) (set_width (wrap_u16 (width a + d)) a).

Definition client_setborder (bwidth : Z) : M cstate unit :=
  let* c := self in
  if (bwidth >? 0) && (borderless_type (type c) || isfullscreen c)
  then ret tt
  else if (bwidth =? border c) || (bwidth <? 0)
  then ret tt
  else
    (* Update geometry with the new border. *)
    assign (fun c => set_geometry (grow (- (2 * border c)) (geometry c)) c) ;;
    assign (set_border bwidth) ;;
    emit (xcb_configure_window_border (win c) bwidth) ;;
    assign (fun c => set_geometry (grow (2 * border c) (geometry c)) c) ;;
    (* Changing border size also affects the size of the titlebar. *)
    emit (titlebar_update_geometry (win c)) ;;
    emit (hook_property (win c) "border_width").

Section Client.

(** The collaborators whose code is in other modules: the geometry of
    the display and of the screens, and the geometry of titlebars. *)
Variable display_area_get : nat -> area_t.
Variable screen_area_get : nat -> bool -> area_t.
Variable screen_getbycoord : nat -> Z -> Z -> nat.
Variable titlebar_geometry_remove : option xcb_window_t -> Z -> area_t -> area_t.
Variable titlebar_geometry_add : option xcb_window_t -> Z -> area_t -> area_t.

(** The offscreen appearance fixes of [client_resize]. *)
Definition resize_onscreen (c : client_t) (geom : area_t) : area_t :=
  let area := display_area_get (phys_screen c) in
  let geom :=
    if x geom >? width area
    then set_x (wrap_s16 (width area - width geom)) geom else geom in
  let geom :=
    if y geom >? height area
    then set_y (wrap_s16 (height area - height geom)) geom else geom in
  let geom := if x geom + width geom <? 0 then set_x 0 geom else geom in
  if y geom + height geom <? 0 then set_y 0 geom else geom.

(** The rectangle [geometry_internal] that [client_resize] computes. *)
Definition resize_geometry_internal (c : client_t) (geom : area_t)
    (hints : bool) : area_t :=
  let geom := resize_onscreen c geom in
  (* Real client geometry, please keep it contained to C code at the very least. *)
  let geometry_internal :=
    titlebar_geometry_remove (titlebar c) (border c) geom in
  if hints
  then client_geometry_hints c geometry_internal
  else geometry_internal.

Definition area_differs (a b : area_t) : bool :=
  negb (x a =? x b) || negb (y a =? y b)
  || negb (width a =? width b) || negb (height a =? height b).

Definition client_resize (geom : area_t) (hints : bool) : M cstate bool :=
  let* c := self in
  let geometry_internal := resize_geometry_internal c geom hints in
  if (width geometry_internal =? 0) || (height geometry_internal =? 0)
  then ret false
  else
    (* Also let client hints propegate to the "official" geometry. *)
    let geom :=
      titlebar_geometry_add (titlebar c) (border c) geometry_internal in
    if area_differs (geometries_internal c) geometry_internal
    then
      let new_screen :=
        screen_getbycoord (screen c) (x geometry_internal)
          (y geometry_internal) in
      assign (set_geometries_internal geometry_internal) ;;
      (* Also store geometry including border and titlebar. *)
      assign (set_geometry geom) ;;
      emit (titlebar_update_geometry (win c)) ;;
      (* the values go through [uint32_t values[4]] *)
      emit (xcb_configure_window_geometry (win c)
              (wrap_u32 (x geometry_internal))
              (wrap_u32 (y geometry_internal))
              (wrap_u32 (width geometry_internal))
              (wrap_u32 (height geometry_internal))) ;;
      do_screen_client_moveto new_screen ;;
      (* execute hook *)
      emit (hook_property (win c) "geometry") ;;
      ret true
    else ret false.

(** The setters that call one another.  The recursion of the C code is
    not structural, so the functions take fuel; two units are always
    enough (a setter called with [true] calls setters with [false], and
    those call no setter).

    [titlebar_ban] belongs to the titlebar module: the call is recorded
    as a request, and what it takes out of the rectangle of a client
    that has a titlebar is not modelled.  What is stated below about the
    rectangle that [client_setfullscreen] saves is therefore stated for
    clients without a titlebar only. *)
Fixpoint client_setfullscreen (fuel : nat) (s : bool) {struct fuel}
    : M cstate unit :=
  match fuel with
  | O => throw OutOfFuel
  | S fuel =>
    let* c := self in
    if negb (eqb (isfullscreen c) s)
    then
      (* Make sure the current geometry is stored without titlebar. *)
      (if s then emit (titlebar_ban (titlebar c)) else ret tt) ;;
      (* become fullscreen! *)
      assign (set_isfullscreen s) ;;
      let* geom :=
        if s
        then
          (* remove any max state *)
          client_setmaxhoriz fuel false ;;
          client_setmaxvert fuel false ;;
          (* You can only be part of one of the special layers. *)
          client_setbelow fuel false ;;
          client_setabove fuel false ;;
          client_setontop fuel false ;;
          let* c := self in
          let geom := screen_area_get (screen c) false in
          assign (set_geometries_fullscreen (geometry c)) ;;
          assign (set_border_fs (border c)) ;;
          client_setborder 0 ;;
          ret geom
        else
          let* c := self in
          let geom := geometries_fullscreen c in
          client_setborder (border_fs c) ;;
          ret geom in
      client_resize geom false ;;
      client_stack ;;
      emit (ewmh_client_update_hints (win c)) ;;
      emit (hook_property (win c) "fullscreen")
    else ret tt
  end

with client_setmaxhoriz (fuel : nat) (s : bool) {struct fuel}
    : M cstate unit :=
  match fuel with
  | O => throw OutOfFuel
  | S fuel =>
    let* c := self in
    if negb (eqb (ismaxhoriz c) s)
    then
      assign (set_ismaxhoriz s) ;;
      let* geom :=
        if s
        then
          (* remove fullscreen mode *)
          client_setfullscreen fuel false ;;
          let* c := self in
          let geom := screen_area_get (screen c) true in
          let geom := set_y (y (geometry c)) geom in
          let geom := set_height (height (geometry c)) geom in
          assign (fun c => set_geometries_max
                             (set_x (x (geometry c)) (geometries_max c)) c) ;;
          assign (fun c => set_geometries_max
                             (set_width (width (geometry c)) (geometries_max c)) c) ;;
          ret geom
        else
          let* c := self in
          let geom := geometry c in
          let geom := set_x (x (geometries_max c)) geom in
          let geom := set_width (width (geometries_max c)) geom in
          ret geom in
      let* c' := self in
      client_resize geom (size_hints_honor c') ;;
      client_stack ;;
      emit (ewmh_client_update_hints (win c)) ;;
      emit (hook_property (win c) "maximized_horizontal")
    else ret tt
  end

with client_setmaxvert (fuel : nat) (s : bool) {struct fuel}
    : M cstate unit :=
  match fuel with
  | O => throw OutOfFuel
  | S fuel =>
    let* c := self in
    if negb (eqb (ismaxvert c) s)
    then
      assign (set_ismaxvert s) ;;
      let* geom :=
        if s
        then
          (* remove fullscreen mode *)
          client_setfullscreen fuel false ;;
          let* c := self in
          let geom := screen_area_get (screen c) true in
          let geom := set_x (x (geometry c)) geom in
          let geom := set_width (width (geometry c)) geom in
          assign (fun c => set_geometries_max
                             (set_y (y (geometry c)) (geometries_max c)) c) ;;
          assign (fun c => set_geometries_max
                             (set_height (height (geometry c)) (geometries_max c)) c) ;;
          ret geom
        else
          let* c := self in
          let geom := geometry c in
          let geom := set_y (y (geometries_max c)) geom in
          let geom := set_height (height (geometries_max c)) geom in
          ret geom in
      let* c' := self in
      client_resize geom (size_hints_honor c') ;;
      client_stack ;;
      emit (ewmh_client_update_hints (win c)) ;;
      emit (hook_property (win c) "maximized_vertical")
    else ret tt
  end

with client_setabove (fuel : nat) (s : bool) {struct fuel}
    : M cstate unit :=
  match fuel with
  | O => throw OutOfFuel
  | S fuel =>
    let* c := self in
    if negb (eqb (isabove c) s)
    then
      (* You can only be part of one of the special layers. *)
      (if s
       then
         client_setbelow fuel false ;;
         client_setontop fuel false ;;
         client_setfullscreen fuel false
       else ret tt) ;;
      assign (set_isabove s) ;;
      client_stack ;;
      emit (ewmh_client_update_hints (win c)) ;;
      (* execute hook *)
      emit (hook_property (win c) "above")
    else ret tt
  end

with client_setbelow (fuel : nat) (s : bool) {struct fuel}
    : M cstate unit :=
  match fuel with
  | O => throw OutOfFuel
  | S fuel =>
    let* c := self in
    if negb (eqb (isbelow c) s)
    then
      (* You can only be part of one of the special layers. *)
      (if s
       then
         client_setabove fuel false ;;
         client_setontop fuel false ;;
         client_setfullscreen fuel false
       else ret tt) ;;
      assign (set_isbelow s) ;;
      client_stack ;;
      emit (ewmh_client_update_hints (win c)) ;;
      (* execute hook *)
      emit (hook_property (win c) "below")
    else ret tt
  end

with client_setontop (fuel : nat) (s : bool) {struct fuel}
    : M cstate unit :=
  match fuel with
  | O => throw OutOfFuel
  | S fuel =>
    let* c := self in
    if negb (eqb (isontop c) s)
    then
      (* You can only be part of one of the special layers. *)
      (if s
       then
         client_setabove fuel false ;;
         client_setbelow fuel false ;;
         client_setfullscreen fuel false
       else ret tt) ;;
      assign (set_isontop s) ;;
      client_stack ;;
      (* execute hook *)
      emit (hook_property (win c) "ontop")
    else ret tt
  end.


(** *** Functions of the whole configuration *)

(** [*c] for a client pointer. *)
Definition deref (c : client_p) : M globalconf_t client_t :=
  fun g => match heap g !! c with
           | Some cl => inr (cl, g)
           | None => inl DanglingPointer
           end.

(** Runs a function of one client on the object at [c] and stores the
    object back. *)
Definition on_client {A : Type} (c : client_p) (m : M cstate A)
    : M globalconf_t A :=
  fun g => match heap g !! c with
           | None => inl DanglingPointer
           | Some cl =>
               match m (cl, g) with
               | inl f => inl f
               | inr (a, (cl', g')) =>
                   inr (a, set_heap (<[c := cl']> (heap g')) g')
               end
           end.

(** [globalconf.screens.tab[i]], read and written. *)
Definition screen_at (i : nat) : M globalconf_t screen_t :=
  fun g => match screens g !! i with
           | Some s => inr (s, g)
           | None => inl OutOfBounds
           end.

Definition update_screen (i : nat) (f : screen_t -> screen_t)
    : M globalconf_t unit :=
  fun g => match screens g !! i with
           | Some s => inr (tt, set_screens (<[i := f s]> (screens g)) g)
           | None => inl OutOfBounds
           end.

Definition emitg (e : event) : M globalconf_t unit := modify (record e).

(** [p == q] on client pointers, the right one possibly [NULL]. *)
Definition points_to (p : option client_p) (q : client_p) : bool :=
  match p with
  | Some p' => Nat.eqb p' q
  | None => false
  end.

(** Modelled from the spec: [is_client_tagged] and [untag_client] of
    [tag.c] are not among the sources.  A tag tags the clients of its
    sequence (section 6); untagging takes the client out of it. *)
Definition is_client_tagged (c : client_p) (t : tag_t) : bool :=
  existsb (Nat.eqb c) (tag_clients t).

(** Removes the first entry equal to [c], as the loop of
    [client_unmanage] that ends in [break] does. *)
Fixpoint remove_first (c : client_p) (l : list client_p) : list client_p :=
  match l with
  | [] => []
  | e :: l' => if Nat.eqb e c then l' else e :: remove_first c l'
  end.

Definition untag_client (c : client_p) (t : tag_t) : tag_t :=
  set_tag_clients (remove_first c (tag_clients t)) t.

(** Modelled from the spec: [stack_client_remove] of [stack.c] is not
    among the sources.  Unmanaging removes the client from the stack as
    it removes it from the membership sequence (section 4.1). *)
Definition stack_client_remove (c : client_p) : M globalconf_t unit :=
  modify (fun g => set_stack (remove_first c (stack g)) g).

Definition client_maybevisible (c : client_p) (scr : nat)
    : M globalconf_t bool :=
  let* cl := deref c in
  if Nat.eqb (screen cl) scr
  then
    if issticky cl || window_type_eqb (type cl) WINDOW_TYPE_DESKTOP
    then ret true
    else
      let* s := screen_at scr in
      ret (existsb (fun tag => selected tag && is_client_tagged c tag)
             (tags s))
  else ret false.

(** Record that a client lost focus. *)
Definition client_unfocus_update (c : client_p) : M globalconf_t unit :=
  let* cl := deref c in
  update_screen (phys_screen cl) (set_scr_client_focus None) ;;
  emitg (ewmh_update_net_active_window (phys_screen cl)) ;;
  (* Call hook *)
  let* g := get in
  if hooks_unfocus (hooks g) then emitg (hook_unfocus (win cl)) else ret tt.

Definition client_unfocus (c : client_p) : M globalconf_t unit :=
  let* cl := deref c in
  (* Set focus on root window, so no events leak to the current window. *)
  emitg (xcb_set_input_focus_root (phys_screen cl)) ;;
  client_unfocus_update c.

Definition client_hasproto (cl : client_t) (atom : Z) : bool :=
  existsb (Z.eqb atom) (protocols cl).

(** The atom [WM_TAKE_FOCUS], interned at start-up. *)
Variable WM_TAKE_FOCUS : Z.

Definition client_setfocus (c : client_p) (set_input_focus : bool)
    : M globalconf_t unit :=
  let* cl := deref c in
  let takefocus := client_hasproto cl WM_TAKE_FOCUS in
  (if set_input_focus then emitg (xcb_set_input_focus (win cl)) else ret tt) ;;
  if takefocus then emitg (window_takefocus (win cl)) else ret tt.

(** [client_focus] and [client_focus_update] call each other, so they
    take fuel.  [client_focus_update] falls back to [client_focus] only
    for a client that is not visible, and [client_focus] calls it only
    for one that is, so the calls do not nest deeper than three.

    The entries of [globalconf.clients] are never [NULL], so the third
    conjunct of the first test of [client_focus], which loads the first
    entry into [c], never makes it return.  With [c] still [NULL] after
    that test, [c->screen] is a null dereference. *)
Fixpoint client_focus (fuel : nat) (c : option client_p) {struct fuel}
    : M globalconf_t unit :=
  match fuel with
  | O => throw OutOfFuel
  | S fuel =>
    let* g := get in
    (* We have to set focus on first client *)
    let c := match c, clients g with
             | None, c0 :: _ => Some c0
             | _, _ => c
             end in
    match c with
    | None => throw NullPointer
    | Some c =>
      let* cl := deref c in
      let* visible := client_maybevisible c (screen cl) in
      if negb visible
      then ret tt
      else
        (if negb (nofocus cl) then client_focus_update fuel c else ret tt) ;;
        let* cl := deref c in
        client_setfocus c (negb (nofocus cl))
    end
  end

with client_focus_update (fuel : nat) (c : client_p) {struct fuel}
    : M globalconf_t unit :=
  match fuel with
  | O => throw OutOfFuel
  | S fuel =>
    let* cl := deref c in
    let* visible := client_maybevisible c (screen cl) in
    if negb visible
    then
      (* Focus previously focused client *)
      let* g := get in
      match screen_focus g with
      | None => throw NullPointer
      | Some sf =>
          let* s := screen_at sf in
          client_focus fuel (scr_prev_client_focus s)
      end
    else
      let* g := get in
      let* already :=
        match screen_focus g with
        | None => ret false
        | Some sf =>
            let* s := screen_at sf in
            match scr_client_focus s with
            | None => ret false
            | Some f =>
                if negb (Nat.eqb f c)
                then client_unfocus_update f ;; ret false
                else (* Already focused *) ret true
            end
        end in
      if already
      then ret tt
      else
        (* stop hiding client *)
        on_client c (assign (set_ishidden false)) ;;
        on_client c (client_setminimized false) ;;
        (* unban the client before focusing for consistency *)
        on_client c client_unban ;;
        modify (set_screen_focus (Some (phys_screen cl))) ;;
        update_screen (phys_screen cl) (set_scr_prev_client_focus (Some c)) ;;
        update_screen (phys_screen cl) (set_scr_client_focus (Some c)) ;;
        (* according to EWMH, we have to remove the urgent state from a client *)
        on_client c (client_seturgent false) ;;
        emitg (ewmh_update_net_active_window (phys_screen cl)) ;;
        (* execute hook *)
        let* g := get in
        if hooks_focus (hooks g) then emitg (hook_focus (win cl)) else ret tt
  end.

(** Stacking layout layers *)
Inductive layer_t :=
| LAYER_IGNORE | LAYER_DESKTOP | LAYER_BELOW | LAYER_NORMAL | LAYER_ABOVE
| LAYER_FULLSCREEN | LAYER_ONTOP | LAYER_COUNT.

Definition layer_val (l : layer_t) : nat :=
  match l with
  | LAYER_IGNORE => 0 | LAYER_DESKTOP => 1 | LAYER_BELOW => 2
  | LAYER_NORMAL => 3 | LAYER_ABOVE => 4 | LAYER_FULLSCREEN => 5
  | LAYER_ONTOP => 6 | LAYER_COUNT => 7
  end%nat.

(** [for(layer = lo; layer < hi; layer++)] *)
Definition layers_from_below (lo hi : layer_t) : list layer_t :=
  List.filter (fun l => Nat.leb (layer_val lo) (layer_val l)
                   && Nat.ltb (layer_val l) (layer_val hi))
    [LAYER_IGNORE; LAYER_DESKTOP; LAYER_BELOW; LAYER_NORMAL; LAYER_ABOVE;
     LAYER_FULLSCREEN; LAYER_ONTOP; LAYER_COUNT].

(** Get the real layer of a client according to its attribute. *)
Definition client_layer_translator (c : client_t) : layer_t :=
  (* first deal with user set attributes *)
  if isontop c then LAYER_ONTOP
  else if isfullscreen c then LAYER_FULLSCREEN
  else if isabove c then LAYER_ABOVE
  else if isbelow c then LAYER_BELOW
  else
    (* check for transient attr *)
    match transient_for c with
    | Some _ => LAYER_IGNORE
    | None =>
        (* then deal with windows type *)
        match type c with
        | WINDOW_TYPE_DESKTOP => LAYER_DESKTOP
        | _ => LAYER_NORMAL
        end
    end.

(** Stacks a client above [previous], then its titlebar, then the
    clients of the stack that are transient for it; returns the new
    [previous].  Nothing in the code stops a cycle of transients, hence
    the fuel. *)
Fixpoint client_stack_above (fuel : nat) (c : client_p)
    (previous : xcb_window_t) {struct fuel} : M globalconf_t xcb_window_t :=
  match fuel with
  | O => throw OutOfFuel
  | S fuel =>
    let* cl := deref c in
    emitg (xcb_configure_window_stack (win cl) previous) ;;
    let* previous :=
      match titlebar cl with
      | Some tb => emitg (xcb_configure_window_stack tb (win cl)) ;; ret tb
      | None => ret (win cl)
      end in
    (* stack transient window on top of their parents *)
    let* g := get in
    foreach (stack g) previous
      (fun node previous =>
         let* n := deref node in
         if points_to (transient_for n) c
         then client_stack_above fuel node previous
         else ret previous)
  end.

(** One sweep of [client_stack_refresh] over the stack, for one layer. *)
Definition stack_layer (fuel : nat) (layer : layer_t)
    (previous : xcb_window_t) : M globalconf_t xcb_window_t :=
  let* g := get in
  foreach (stack g) previous
    (fun node previous =>
       let* n := deref node in
       if Nat.eqb (layer_val (client_layer_translator n)) (layer_val layer)
       then client_stack_above fuel node previous
       else ret previous).

(** One sweep over the wiboxes, for those whose [ontop] is [top]. *)
Definition stack_wiboxes (top : bool) (previous : xcb_window_t)
    : M globalconf_t xcb_window_t :=
  let* g := get in
  foreach (wiboxes g) previous
    (fun sb previous =>
       if eqb (ontop sb) top
       then emitg (xcb_configure_window_stack (sw_window sb) previous) ;;
            ret (sw_window sb)
       else ret previous).

(** Restack clients. *)
Definition client_stack_refresh (fuel : nat) : M globalconf_t unit :=
  let* g := get in
  if negb (client_need_stack_refresh g)
  then ret tt
  else
    modify (set_client_need_stack_refresh false) ;;
    let previous := XCB_NONE in
    (* stack desktop windows *)
    let* previous :=
      foreach (layers_from_below LAYER_DESKTOP LAYER_BELOW) previous
        (stack_layer fuel) in
    (* first stack not ontop wibox window *)
    let* previous := stack_wiboxes false previous in
    (* then stack clients *)
    let* previous :=
      foreach (layers_from_below LAYER_BELOW LAYER_COUNT) previous
        (stack_layer fuel) in
    (* then stack ontop wibox window *)
    let* previous := stack_wiboxes true previous in
    ret tt.

(** Unmanage a client. *)
Definition client_unmanage (c : client_p) : M globalconf_t unit :=
  let* cl := deref c in
  (* Reset transient_for attributes of widows that maybe refering to us *)
  let* g := get in
  foreach (clients g) tt
    (fun tc _ =>
       let* t := deref tc in
       if points_to (transient_for t) c
       then on_client tc (assign (set_transient_for None))
       else ret tt) ;;
  (let* s := screen_at (phys_screen cl) in
   if points_to (scr_prev_client_focus s) c
   then update_screen (phys_screen cl) (set_scr_prev_client_focus None)
   else ret tt) ;;
  (let* s := screen_at (phys_screen cl) in
   if points_to (scr_client_focus s) c then client_unfocus c else ret tt) ;;
  (* remove client from global list and everywhere else *)
  modify (fun g => set_clients (remove_first c (clients g)) g) ;;
  stack_client_remove c ;;
  update_screen (screen cl)
    (fun s => set_tags (map (untag_client c) (tags s)) s) ;;
  (* call hook *)
  let* g := get in
  (if hooks_unmanage (hooks g) then emitg (hook_unmanage (win cl)) else ret tt) ;;
  (* Call hook to notify list change *)
  (if hooks_clients (hooks g) then emitg hook_clients else ret tt) ;;
  emitg (xcb_ungrab_button (win cl)) ;;
  emitg (window_state_set (win cl) XCB_WM_STATE_WITHDRAWN) ;;
  emitg (titlebar_client_detach (win cl)) ;;
  emitg (ewmh_update_net_client_list (phys_screen cl)) ;;
  (* set client as invalid *)
  on_client c (assign (set_invalid true)).

(** The loop of [client_getbywin] over the registry. *)
Fixpoint client_getbywin_from (w : xcb_window_t) (l : list client_p)
    : M globalconf_t (option client_p) :=
  match l with
  | [] => ret None
  | c :: l' =>
      let* cl := deref c in
      if win cl =? w then ret (Some c) else client_getbywin_from w l'
  end.

(** Get a client by its window. *)
Definition client_getbywin (w : xcb_window_t)
    : M globalconf_t (option client_p) :=
  let* g := get in
  client_getbywin_from w (clients g).

(** Ban client and move it out of the viewport. *)
Definition client_ban (c : client_p) : M globalconf_t unit :=
  let* cl := deref c in
  if negb (isbanned cl)
  then
    emitg (xcb_unmap_window (win cl)) ;;
    on_client c (assign (set_isbanned true)) ;;
    (let* s := screen_at (phys_screen cl) in
     if points_to (scr_prev_client_focus s) c
     then update_screen (phys_screen cl) (set_scr_prev_client_focus None)
     else ret tt) ;;
    (* Wait until the last moment to take away the focus from the window. *)
    (let* s := screen_at (phys_screen cl) in
     if points_to (scr_client_focus s) c then client_unfocus c else ret tt)
  else ret tt.

(** *** Functions called from Lua

    A function called from Lua returns the number of its results, or
    leaves through [luaL_error] with a message. *)
Inductive lua_t (A : Type) :=
| lua_return (a : A)
| lua_error (msg : string).

#[global] Arguments lua_return {A} a.
#[global] Arguments lua_error {A} msg.

Definition lua_bind {A B : Type} (m : M globalconf_t (lua_t A))
    (k : A -> M globalconf_t (lua_t B)) : M globalconf_t (lua_t B) :=
  let* r := m in
  match r with
  | lua_return a => k a
  | lua_error msg => ret (lua_error msg)
  end.

(** The message of [luaA_client_checkudata], with its newline. *)
Definition client_is_invalid : string :=
  String.append "client is invalid" (String (Ascii.ascii_of_nat 10) EmptyString).

(** The argument is a client object; that check of [luaL_checkudata] is
    taken as passed. *)
Definition luaA_client_checkudata (c : client_p)
    : M globalconf_t (lua_t client_p) :=
  let* cl := deref c in
  if invalid cl
  then ret (lua_error client_is_invalid)
  else ret (lua_return c).

(** The loop of [luaA_client_swap]: the slots of the registry that hold
    [c] and [swap]; it stops once both are known. *)
Fixpoint swap_slots (c swap : client_p) (l : list client_p) (i : nat)
    (ref_c ref_swap : option nat) {struct l} : option nat * option nat :=
  match l with
  | [] => (ref_c, ref_swap)
  | item :: l' =>
      let ref_c' := if Nat.eqb item c then Some i else ref_c in
      let ref_swap' :=
        if Nat.eqb item c then ref_swap
        else if Nat.eqb item swap then Some i else ref_swap in
      match ref_c', ref_swap' with
      | Some _, Some _ => (ref_c', ref_swap')
      | _, _ => swap_slots c swap l' (S i) ref_c' ref_swap'
      end
  end.

(** Swap a client with another one. *)
Definition luaA_client_swap (c swap : client_p) : M globalconf_t (lua_t Z) :=
  lua_bind (luaA_client_checkudata c) (fun c =>
  lua_bind (luaA_client_checkudata swap) (fun swap =>
    (if negb (Nat.eqb c swap)
     then
       let* g := get in
       let refs := swap_slots c swap (clients g) 0 None None in
       (* swap ! *)
       match fst refs with
       | None => throw NullPointer
       | Some ref_c =>
           modify (fun g => set_clients (<[ref_c := swap]> (clients g)) g) ;;
           match snd refs with
           | None => throw NullPointer
           | Some ref_swap =>
               modify (fun g =>
                         set_clients (<[ref_swap := c]> (clients g)) g) ;;
               (* Call hook to notify list change *)
               let* g := get in
               if hooks_clients (hooks g) then emitg hook_clients else ret tt
           end
       end
     else ret tt) ;;
    ret (lua_return 0))).

(** Redraw a client by unmapping and mapping it quickly. *)
Definition luaA_client_redraw (fuel : nat) (c : client_p)
    : M globalconf_t (lua_t Z) :=
  lua_bind (luaA_client_checkudata c) (fun c =>
    let* cl := deref c in
    emitg (xcb_unmap_window (win cl)) ;;
    emitg (xcb_map_window (win cl)) ;;
    (* Set the focus on the current window if the redraw has been
       performed on the window where the pointer is currently on
       because after the unmapping/mapping, the focus is lost *)
    let* g := get in
    match screen_focus g with
    | None => throw NullPointer
    | Some sf =>
        let* s := screen_at sf in
        (if points_to (scr_client_focus s) c
         then client_unfocus c ;; client_focus fuel (Some c)
         else ret tt) ;;
        ret (lua_return 0)
    end).

(** Stop managing a client. *)
Definition luaA_client_unmanage (c : client_p) : M globalconf_t (lua_t Z) :=
  lua_bind (luaA_client_checkudata c) (fun c =>
    client_unmanage c ;;
    ret (lua_return 0)).

(** ** Vocabulary of the properties *)

(** [wp m s Q]: from [s], [m] ends without fault in a result and a state
    that satisfy [Q]. *)
Definition wp {S A : Type} (m : M S A) (s : S) (Q : A -> S -> Prop) : Prop :=
  match m s with
  | inr (a, s') => Q a s'
  | inl _ => False
  end.

(** The six flags that the mutually recursive setters write. *)
Definition flags_are (c : client_t) (fs mh mv ab be ot : bool) : Prop :=
  isfullscreen c = fs /\ ismaxhoriz c = mh /\ ismaxvert c = mv
  /\ isabove c = ab /\ isbelow c = be /\ isontop c = ot.

Definition same_flags (c c' : client_t) : Prop :=
  flags_are c' (isfullscreen c) (ismaxhoriz c) (ismaxvert c)
    (isabove c) (isbelow c) (isontop c).

(** The flag is alone among the four special layers whenever it is set. *)
Definition alone_if_set (x a b d : bool) : Prop :=
  x = true -> a = false /\ b = false /\ d = false.

(** The ten boolean setters and the flag that each one writes. *)
Inductive setter :=
| SET_FULLSCREEN | SET_MAXIMIZED_HORIZONTAL | SET_MAXIMIZED_VERTICAL
| SET_ABOVE | SET_BELOW | SET_ONTOP | SET_STICKY | SET_MINIMIZED
| SET_MODAL | SET_URGENT.

Definition run_setter (fuel : nat) (x : setter) (v : bool) : M cstate unit :=
  match x with
  | SET_FULLSCREEN => client_setfullscreen fuel v
  | SET_MAXIMIZED_HORIZONTAL => client_setmaxhoriz fuel v
  | SET_MAXIMIZED_VERTICAL => client_setmaxvert fuel v
  | SET_ABOVE => client_setabove fuel v
  | SET_BELOW => client_setbelow fuel v
  | SET_ONTOP => client_setontop fuel v
  | SET_STICKY => client_setsticky v
  | SET_MINIMIZED => client_setminimized v
  | SET_MODAL => client_setmodal v
  | SET_URGENT => client_seturgent v
  end.

Definition flag_of (x : setter) (c : client_t) : bool :=
  match x with
  | SET_FULLSCREEN => isfullscreen c
  | SET_MAXIMIZED_HORIZONTAL => ismaxhoriz c
  | SET_MAXIMIZED_VERTICAL => ismaxvert c
  | SET_ABOVE => isabove c
  | SET_BELOW => isbelow c
  | SET_ONTOP => isontop c
  | SET_STICKY => issticky c
  | SET_MINIMIZED => isminimized c
  | SET_MODAL => ismodal c
  | SET_URGENT => isurgent c
  end.

(** A client that is not maybe-visible on its own screen. *)
Definition not_visible (c : client_p) (g : globalconf_t) : Prop :=
  exists cl, heap g !! c = Some cl
             /\ client_maybevisible c (screen cl) g = inr (false, g).

(** What [client_stack_above] asks for a client without transients, the
    oldest request first, and the window that is on top afterwards. *)
Definition placed (cl : client_t) (previous : xcb_window_t) : list event :=
  xcb_configure_window_stack (win cl) previous
  :: match titlebar cl with
     | Some tb => [xcb_configure_window_stack tb (win cl)]
     | None => []
     end.

Definition top_of (cl : client_t) : xcb_window_t :=
  match titlebar cl with
  | Some tb => tb
  | None => win cl
  end.

(** What a sweep over the wiboxes asks, the oldest request first, and
    the window that is on top afterwards. *)
Fixpoint wiboxes_placed (top : bool) (l : list wibox_t)
    (previous : xcb_window_t) : list event * xcb_window_t :=
  match l with
  | [] => ([], previous)
  | sb :: l' =>
      if eqb (ontop sb) top
      then
        let r := wiboxes_placed top l' (sw_window sb) in
        (xcb_configure_window_stack (sw_window sb) previous :: fst r, snd r)
      else wiboxes_placed top l' previous
  end.

(** What the first loop of [client_unmanage] does to one client. *)
Definition clear_tf (q : client_p) (t : client_t) : client_t :=
  if points_to (transient_for t) q then set_transient_for None t else t.

(** Whether a selected tag of the screen tags the client. *)
Definition tagged_on (p : client_p) (s : screen_t) : bool :=
  existsb (fun tag => selected tag && is_client_tagged p tag) (tags s).

(** The result of a computation without its final state. *)
Definition outcome {A S : Type} (r : result (A * S)) : result A :=
  match r with
  | inl f => inl f
  | inr (a, _) => inr a
  end.

(** The globals that the focus bookkeeping leaves alone. *)
Definition same_registry (g g' : globalconf_t) : Prop :=
  heap g' = heap g /\ clients g' = clients g /\ stack g' = stack g
  /\ hooks g' = hooks g.

(** The border, the saved border and the window type of a client. *)
Definition keeps_border (c c' : client_t) : Prop :=
  border c' = border c /\ border_fs c' = border_fs c /\ type c' = type c.

(** The name under which a setter fires its notification. *)
Definition property_name (x : setter) : string :=
  match x with
  | SET_FULLSCREEN => "fullscreen"
  | SET_MAXIMIZED_HORIZONTAL => "maximized_horizontal"
  | SET_MAXIMIZED_VERTICAL => "maximized_vertical"
  | SET_ABOVE => "above"
  | SET_BELOW => "below"
  | SET_ONTOP => "ontop"
  | SET_STICKY => "sticky"
  | SET_MINIMIZED => "minimized"
  | SET_MODAL => "modal"
  | SET_URGENT => "urgent"
  end.

(** The setters that call [client_stack]. *)
Definition marks_stack (x : setter) : bool :=
  match x with
  | SET_STICKY | SET_MINIMIZED | SET_URGENT => false
  | _ => true
  end.

(** A request to restack a window. *)
Definition is_restack (e : event) : Prop :=
  match e with
  | xcb_configure_window_stack _ _ => True
  | _ => False
  end.

(** [g'] is [g] with more events, all of them requests to restack. *)
Definition restacked (g g' : globalconf_t) : Prop :=
  exists ev, g' = set_trace (ev ++ trace g) g /\ Forall is_restack ev.

(** What [client_stack_above] asks for a sequence of clients without
    transients, one above the other, the oldest request first, and the
    window that is on top afterwards. *)
Fixpoint clients_placed (l : list client_t) (previous : xcb_window_t)
    : list event * xcb_window_t :=
  match l with
  | [] => ([], previous)
  | cl :: l' =>
      let r := clients_placed l' (top_of cl) in
      (placed cl previous ++ fst r, snd r)
  end.

(** The test of the sweep of [client_stack_refresh] for one layer. *)
Definition in_layer (layer : layer_t) (cl : client_t) : bool :=
  Nat.eqb (layer_val (client_layer_translator cl)) (layer_val layer).

(** The clients of [cls] layer by layer, in the order of [cls] within a
    layer. *)
Definition by_layer (layers : list layer_t) (cls : list client_t)
    : list client_t :=
  flat_map (fun layer => List.filter (in_layer layer) cls) layers.

(** The stack holds the clients [cls], none of which is transient. *)
Definition stack_holds (g : globalconf_t) (cls : list client_t) : Prop :=
  Forall2 (fun p cl => heap g !! p = Some cl) (stack g) cls
  /\ Forall (fun cl => transient_for cl = None) cls.

(** The transposition of two clients. *)
Definition transpose (a b x : client_p) : client_p :=
  if Nat.eqb x a then b else if Nat.eqb x b then a else x.

(** The hook that notifies a change of the registry, when registered. *)
Definition clients_changed (g : globalconf_t) : globalconf_t :=
  if hooks_clients (hooks g) then record hook_clients g else g.

(** The client object after the bookkeeping of [client_focus_update]:
    shown, restored, mapped and no longer urgent. *)
Definition focus_shown (cl : client_t) : client_t :=
  set_isurgent false
    (set_isbanned false (set_isminimized false (set_ishidden false cl))).

(** The screen after [c] got its focus. *)
Definition focus_given (c : client_p) (s : screen_t) : screen_t :=
  set_scr_client_focus (Some c) (set_scr_prev_client_focus (Some c) s).

(** The globals but for the trace and the dirty flags. *)
Definition same_but_trace (g g' : globalconf_t) : Prop :=
  clients g' = clients g /\ stack g' = stack g /\ screens g' = screens g
  /\ screen_focus g' = screen_focus g /\ wiboxes g' = wiboxes g
  /\ hooks g' = hooks g /\ heap g' = heap g.

(** The globals after [client_unfocus_update] on the client with window
    [w] that had the focus of the screen [sf]. *)
Definition focus_lost (w : xcb_window_t) (sf : nat) (s : screen_t)
    (g : globalconf_t) : globalconf_t :=
  let g1 := record (ewmh_update_net_active_window sf)
              (set_screens (<[sf := set_scr_client_focus None s]> (screens g))
                 g) in
  if hooks_unfocus (hooks g) then record (hook_unfocus w) g1 else g1.

(** The requests of [client_setfocus]. *)
Definition focus_requested (cl : client_t) (set_input_focus takefocus : bool)
    (g : globalconf_t) : globalconf_t :=
  let g1 := if set_input_focus then record (xcb_set_input_focus (win cl)) g
            else g in
  if takefocus then record (window_takefocus (win cl)) g1 else g1.

(** The rectangles that the setters save. *)
Definition keeps_saved (c c' : client_t) : Prop :=
  geometries_fullscreen c' = geometries_fullscreen c
  /\ geometries_max c' = geometries_max c.


(** ** Clients and configurations of the examples *)

(** Collaborators for the examples: a display and screens of 1280 x 800,
    no move between screens. *)
Definition ex_display_area_get (phys : nat) : area_t := mk_area 0 0 1280 800.
Definition ex_screen_area_get (scr : nat) (strut : bool) : area_t :=
  mk_area 0 0 1280 800.
Definition ex_screen_getbycoord (scr : nat) (px py : Z) : nat := scr.

(** Modelled from the spec: [titlebar_geometry_remove] and
    [titlebar_geometry_add] of [titlebar.h] are not among the sources.
    For a client without titlebar the internal rectangle is the outer one
    less the border on every side (section 8, border example). *)
Definition ex_titlebar_geometry_remove (t : option xcb_window_t) (bw : Z)
    (geom : area_t) : area_t :=
  grow (- (2 * bw)) geom.
Definition ex_titlebar_geometry_add (t : option xcb_window_t) (bw : Z)
    (geom : area_t) : area_t :=
  grow (2 * bw) geom.

Definition ex_WM_TAKE_FOCUS : Z := 300.

Definition hooks_none : hooks_t := mk_hooks false false false false false.

Definition globalconf_zero : globalconf_t :=
  mk_globalconf [] [] [] None [] hooks_none false false ∅ [].

Definition aspect_hints : xcb_size_hints_t :=
  mk_size_hints XCB_SIZE_HINT_P_ASPECT 0 0 0 0 0 0 4 3 4 3 0 0.

Definition increment_hints : xcb_size_hints_t :=
  mk_size_hints XCB_SIZE_HINT_P_RESIZE_INC 0 0 0 0 10 10 0 0 0 0 0 0.

(** A dock with a border of 2. *)
Definition dock_client : client_t :=
  set_geometry (mk_area 0 0 104 104)
    (set_border 2 (set_type WINDOW_TYPE_DOCK (set_win 20 client_zero))).

(** A client whose stored rectangles are 100 x 100 and that asks for
    increments of 10. *)
Definition snapped_client : client_t :=
  set_geometries_internal (mk_area 0 0 100 100)
    (set_geometry (mk_area 0 0 100 100)
       (set_size_hints increment_hints (set_win 21 client_zero))).

(** A client on top that is also above: one of the prior combinations
    of the four flags. *)
Definition ontop_above_client : client_t :=
  set_isabove true (set_isontop true (set_win 22 client_zero)).

Definition above_client : client_t := set_isabove true (set_win 23 client_zero).

(** The focus example of the specification: X, tagged by the selected
    tag, and Y, tagged by the other tag, on one screen. *)
Definition focus_X : client_t := set_win 10 client_zero.
Definition focus_Y : client_t := set_win 11 client_zero.

Definition focus_screen (focus prev : option client_p) : screen_t :=
  mk_screen [mk_tag true [0%nat]; mk_tag false [1%nat]] focus prev.

Definition focus_world (focus prev : option client_p) : globalconf_t :=
  mk_globalconf [0%nat; 1%nat] [0%nat; 1%nat] [focus_screen focus prev]
    (Some 0%nat) [] hooks_none false false
    (<[0%nat := focus_X]> (<[1%nat := focus_Y]> ∅)) [].

(** The stacking example of the specification, with the stack in the
    order C, B, A and one wibox of each kind. *)
Definition stack_A : client_t := set_win 10 client_zero.
Definition stack_B : client_t :=
  set_transient_for (Some 0%nat) (set_win 11 client_zero).
Definition stack_C : client_t := set_isabove true (set_win 12 client_zero).

Definition stack_world : globalconf_t :=
  mk_globalconf [0%nat; 1%nat; 2%nat] [2%nat; 1%nat; 0%nat] [] None
    [mk_wibox 50 false; mk_wibox 60 true] hooks_none true false
    (<[0%nat := stack_A]> (<[1%nat := stack_B]> (<[2%nat := stack_C]> ∅)))
    [].

(** The unmanage example of the specification: P is transient for Q,
    which has the focus. *)
Definition unmanage_P : client_t :=
  set_transient_for (Some 1%nat) (set_win 10 client_zero).
Definition unmanage_Q : client_t := set_win 11 client_zero.

Definition unmanage_world : globalconf_t :=
  mk_globalconf [0%nat; 1%nat] [0%nat; 1%nat]
    [mk_screen [mk_tag true [0%nat; 1%nat]] (Some 1%nat) (Some 1%nat)]
    (Some 0%nat) [] hooks_none false false
    (<[0%nat := unmanage_P]> (<[1%nat := unmanage_Q]> ∅)) [].

(** Hints with a maximum size of 100 x 80 and a minimum size of 200 x
    200. *)
Definition max_hints : xcb_size_hints_t :=
  mk_size_hints (Z.lor XCB_SIZE_HINT_P_MAX_SIZE XCB_SIZE_HINT_P_MIN_SIZE)
    200 200 100 80 0 0 0 0 0 0 0 0.

(** A client with a border of 1 around a window of 100 x 100. *)
Definition bordered_client : client_t :=
  set_geometry (mk_area 0 0 102 102)
    (set_geometries_internal (mk_area 1 1 100 100)
       (set_border 1 (set_win 24 client_zero))).

(** A stack without transients: a desktop window, a normal client and a
    client above, with one wibox of each kind. *)
Definition layer_D : client_t :=
  set_type WINDOW_TYPE_DESKTOP (set_win 13 client_zero).

Definition layer_world : globalconf_t :=
  mk_globalconf [0%nat; 1%nat; 2%nat] [2%nat; 0%nat; 1%nat] [] None
    [mk_wibox 50 false; mk_wibox 60 true] hooks_none true false
    (<[0%nat := stack_A]> (<[1%nat := layer_D]> (<[2%nat := stack_C]> ∅)))
    [].

(** A client above that names itself as the client it is transient
    for. *)
Definition loop_client : client_t :=
  set_transient_for (Some 0%nat) (set_isabove true (set_win 10 client_zero)).

Definition loop_world : globalconf_t :=
  mk_globalconf [0%nat] [0%nat] [] None [] hooks_none true false
    (<[0%nat := loop_client]> ∅) [].



(** ** Reasoning about monadic programs *)

Lemma wp_ret {S A : Type} (a : A) (s : S) (Q : A -> S -> Prop) :
  Q a s -> wp (ret a) s Q.
Proof using Type. intros H. exact H. Qed.

Lemma wp_bind {S A B : Type} (m : M S A) (k : A -> M S B) (s : S)
    (Q : B -> S -> Prop) :
  wp m s (fun a s' => wp (k a) s' Q) -> wp (bind m k) s Q.
Proof using Type.
  unfold wp, bind. destruct (m s) as [f | [a s']]; intros H; exact H.
Qed.

Lemma wp_mono {S A : Type} (m : M S A) (s : S) (Q Q' : A -> S -> Prop) :
  wp m s Q -> (forall a s', Q a s' -> Q' a s') -> wp m s Q'.
Proof using Type.
  unfold wp. destruct (m s) as [f | [a s']]; intros H HQ; [exact H | auto].
Qed.

Lemma wp_run {S A : Type} (m : M S A) (s : S) (Q : A -> S -> Prop) :
  wp m s Q <-> exists a s', m s = inr (a, s') /\ Q a s'.
Proof using Type.
  unfold wp. split.
  - destruct (m s) as [f | [a s']]; intros H; [contradiction | eauto].
  - intros (a & s' & E & H). rewrite E. exact H.
Qed.

Lemma wp_eq {S A : Type} (m : M S A) (s : S) (a : A) (s' : S)
    (Q : A -> S -> Prop) :
  m s = inr (a, s') -> Q a s' -> wp m s Q.
Proof using Type. intros E H. unfold wp. rewrite E. exact H. Qed.

(** ** The border-width setter *)

(** C8, as the code has it: on a dock, a splash window, a desktop window
    or a fullscreen client, a call of the border-width setter with a
    width other than 0 changes nothing: not the border width, not the
    geometry, and no notification fires. *)
Theorem client_setborder_refuses (c : client_t) (g : globalconf_t)
    (bwidth : Z) :
  borderless_type (type c) = true \/ isfullscreen c = true ->
  bwidth <> 0 ->
  client_setborder bwidth (c, g) = inr (tt, (c, g)).
Proof using Type.
  intros Hc Hw. unfold client_setborder, bind, self, ret. cbn [fst snd].
  assert (Hb : borderless_type (type c) || isfullscreen c = true).
  { destruct Hc as [-> | ->]; [reflexivity | apply orb_true_r]. }
  rewrite Hb, andb_true_r.
  destruct (Z.gtb_spec bwidth 0) as [Hpos | Hneg]; [reflexivity|].
  destruct (Z.ltb_spec bwidth 0) as [Hlt | Hge]; [|lia].
  rewrite orb_true_r. reflexivity.
Qed.

(** ** Resizing *)

(** C10: when the internal rectangle that [client_resize] computes is the
    stored one, the call answers "unchanged" and the client and the
    globals, trace included, are what they were, whatever the proposed
    outer rectangle is. *)
Theorem client_resize_unchanged (c : client_t) (g : globalconf_t)
    (geom : area_t) (hints : bool) :
  resize_geometry_internal c geom hints = geometries_internal c ->
  client_resize geom hints (c, g) = inr (false, (c, g)).
Proof using Type.
  intros H. unfold client_resize, bind, self. cbn [fst snd]. rewrite H.
  destruct ((width (geometries_internal c) =? 0)
            || (height (geometries_internal c) =? 0)); [reflexivity|].
  unfold area_differs. rewrite !Z.eqb_refl. reflexivity.
Qed.

(** ** The setters keep the special layers exclusive *)

Lemma wp_self (s : cstate) (Q : client_t -> cstate -> Prop) :
  Q (fst s) s -> wp self s Q.
Proof using Type. intros H. exact H. Qed.

Lemma wp_assign (f : client_t -> client_t) (s : cstate)
    (Q : unit -> cstate -> Prop) :
  Q tt (f (fst s), snd s) -> wp (assign f) s Q.
Proof using Type. intros H. exact H. Qed.

Lemma wp_emit (e : event) (s : cstate) (Q : unit -> cstate -> Prop) :
  Q tt (fst s, record e (snd s)) -> wp (emit e) s Q.
Proof using Type. intros H. exact H. Qed.

Lemma wp_client_stack (s : cstate) (Q : unit -> cstate -> Prop) :
  Q tt (fst s, set_client_need_stack_refresh true (snd s)) ->
  wp client_stack s Q.
Proof using Type. intros H. exact H. Qed.

Lemma wp_client_need_reban (s : cstate) (Q : unit -> cstate -> Prop) :
  Q tt (fst s, set_need_reban true (snd s)) -> wp client_need_reban s Q.
Proof using Type. intros H. exact H. Qed.

Ltac wp_step :=
  lazymatch goal with
  | |- wp (ret _) _ _ => apply wp_ret
  | |- wp (bind _ _) _ _ => apply wp_bind
  | |- wp self _ _ => apply wp_self
  | |- wp (assign _) _ _ => apply wp_assign
  | |- wp (emit _) _ _ => apply wp_emit
  | |- wp client_stack _ _ => apply wp_client_stack
  | |- wp client_need_reban _ _ => apply wp_client_need_reban
  | |- wp (if ?b then _ else _) _ _ => destruct b eqn:?
  end; cbn [fst snd].

Ltac wp_steps := repeat wp_step.

(** A call of a function whose specification is the lemma [L]. *)
Ltac wp_call L :=
  eapply wp_mono; [apply L | intros ? [? ?] ?; cbn [fst snd] in *].

Ltac flags_solve :=
  unfold same_flags, flags_are in *; cbn in *;
  repeat match goal with
         | H : _ /\ _ |- _ => destruct H
         end;
  repeat match goal with
         | H : negb (eqb ?a ?b) = _ |- _ =>
             destruct a eqn:?; cbn in H; try discriminate H; clear H
         end;
  repeat split; congruence.

Lemma client_setborder_flags (bwidth : Z) (c : client_t) (g : globalconf_t) :
  wp (client_setborder bwidth) (c, g) (fun _ s' => same_flags c (fst s')).
Proof using Type.
  unfold client_setborder. wp_steps; repeat split.
Qed.

Lemma client_resize_flags (geom : area_t) (hints : bool) (c : client_t)
    (g : globalconf_t) :
  wp (client_resize geom hints) (c, g) (fun _ s' => same_flags c (fst s')).
Proof using Type.
  unfold client_resize, do_screen_client_moveto. wp_steps; repeat split.
Qed.

Lemma client_setfullscreen_off (n : nat) (c : client_t) (g : globalconf_t) :
  wp (client_setfullscreen (S n) false) (c, g)
    (fun _ s' => flags_are (fst s') false (ismaxhoriz c) (ismaxvert c)
                   (isabove c) (isbelow c) (isontop c)).
Proof using Type.
  cbn [client_setfullscreen]. wp_steps; [|flags_solve].
  wp_call client_setborder_flags. wp_steps.
  wp_call client_resize_flags. wp_steps. flags_solve.
Qed.

Lemma client_setmaxhoriz_off (n : nat) (c : client_t) (g : globalconf_t) :
  wp (client_setmaxhoriz (S n) false) (c, g)
    (fun _ s' => flags_are (fst s') (isfullscreen c) false (ismaxvert c)
                   (isabove c) (isbelow c) (isontop c)).
Proof using Type.
  cbn [client_setmaxhoriz]. wp_steps; [|flags_solve].
  wp_call client_resize_flags. wp_steps. flags_solve.
Qed.

Lemma client_setmaxvert_off (n : nat) (c : client_t) (g : globalconf_t) :
  wp (client_setmaxvert (S n) false) (c, g)
    (fun _ s' => flags_are (fst s') (isfullscreen c) (ismaxhoriz c) false
                   (isabove c) (isbelow c) (isontop c)).
Proof using Type.
  cbn [client_setmaxvert]. wp_steps; [|flags_solve].
  wp_call client_resize_flags. wp_steps. flags_solve.
Qed.

Lemma client_setabove_off (n : nat) (c : client_t) (g : globalconf_t) :
  wp (client_setabove (S n) false) (c, g)
    (fun _ s' => flags_are (fst s') (isfullscreen c) (ismaxhoriz c)
                   (ismaxvert c) false (isbelow c) (isontop c)).
Proof using Type. cbn [client_setabove]. wp_steps; flags_solve. Qed.

Lemma client_setbelow_off (n : nat) (c : client_t) (g : globalconf_t) :
  wp (client_setbelow (S n) false) (c, g)
    (fun _ s' => flags_are (fst s') (isfullscreen c) (ismaxhoriz c)
                   (ismaxvert c) (isabove c) false (isontop c)).
Proof using Type. cbn [client_setbelow]. wp_steps; flags_solve. Qed.

Lemma client_setontop_off (n : nat) (c : client_t) (g : globalconf_t) :
  wp (client_setontop (S n) false) (c, g)
    (fun _ s' => flags_are (fst s') (isfullscreen c) (ismaxhoriz c)
                   (ismaxvert c) (isabove c) (isbelow c) false).
Proof using Type. cbn [client_setontop]. wp_steps; flags_solve. Qed.

(** Setting a flag that is clear: the flag is set, and the flags that
    the code clears on the way are clear. *)
Lemma client_setontop_on (n : nat) (c : client_t) (g : globalconf_t) :
  isontop c = false ->
  wp (client_setontop (S (S n)) true) (c, g)
    (fun _ s' => flags_are (fst s') false (ismaxhoriz c) (ismaxvert c)
                   false false true).
Proof using Type.
  intros Hc. cbn [client_setontop]. wp_step. wp_step. rewrite Hc. cbn [eqb negb].
  wp_steps.
  wp_call client_setabove_off. wp_steps.
  wp_call client_setbelow_off. wp_steps.
  wp_call client_setfullscreen_off. wp_steps. flags_solve.
Qed.

Lemma client_setabove_on (n : nat) (c : client_t) (g : globalconf_t) :
  isabove c = false ->
  wp (client_setabove (S (S n)) true) (c, g)
    (fun _ s' => flags_are (fst s') false (ismaxhoriz c) (ismaxvert c)
                   true false false).
Proof using Type.
  intros Hc. cbn [client_setabove]. wp_step. wp_step. rewrite Hc. cbn [eqb negb].
  wp_steps.
  wp_call client_setbelow_off. wp_steps.
  wp_call client_setontop_off. wp_steps.
  wp_call client_setfullscreen_off. wp_steps. flags_solve.
Qed.

Lemma client_setbelow_on (n : nat) (c : client_t) (g : globalconf_t) :
  isbelow c = false ->
  wp (client_setbelow (S (S n)) true) (c, g)
    (fun _ s' => flags_are (fst s') false (ismaxhoriz c) (ismaxvert c)
                   false true false).
Proof using Type.
  intros Hc. cbn [client_setbelow]. wp_step. wp_step. rewrite Hc. cbn [eqb negb].
  wp_steps.
  wp_call client_setabove_off. wp_steps.
  wp_call client_setontop_off. wp_steps.
  wp_call client_setfullscreen_off. wp_steps. flags_solve.
Qed.

Lemma client_setfullscreen_on (n : nat) (c : client_t) (g : globalconf_t) :
  isfullscreen c = false ->
  wp (client_setfullscreen (S (S n)) true) (c, g)
    (fun _ s' => flags_are (fst s') true false false false false false).
Proof using Type.
  intros Hc. cbn [client_setfullscreen]. wp_step. wp_step. rewrite Hc. cbn [eqb negb].
  wp_steps.
  wp_call client_setmaxhoriz_off. wp_steps.
  wp_call client_setmaxvert_off. wp_steps.
  wp_call client_setbelow_off. wp_steps.
  wp_call client_setabove_off. wp_steps.
  wp_call client_setontop_off. wp_steps.
  wp_call client_setborder_flags. wp_steps.
  wp_call client_resize_flags. wp_steps. flags_solve.
Qed.

Lemma client_setmaxhoriz_on (n : nat) (c : client_t) (g : globalconf_t) :
  ismaxhoriz c = false ->
  wp (client_setmaxhoriz (S (S n)) true) (c, g)
    (fun _ s' => flags_are (fst s') false true (ismaxvert c)
                   (isabove c) (isbelow c) (isontop c)).
Proof using Type.
  intros Hc. cbn [client_setmaxhoriz]. wp_step. wp_step. rewrite Hc. cbn [eqb negb].
  wp_steps.
  wp_call client_setfullscreen_off. wp_steps.
  wp_call client_resize_flags. wp_steps. flags_solve.
Qed.

Lemma client_setmaxvert_on (n : nat) (c : client_t) (g : globalconf_t) :
  ismaxvert c = false ->
  wp (client_setmaxvert (S (S n)) true) (c, g)
    (fun _ s' => flags_are (fst s') false (ismaxhoriz c) true
                   (isabove c) (isbelow c) (isontop c)).
Proof using Type.
  intros Hc. cbn [client_setmaxvert]. wp_step. wp_step. rewrite Hc. cbn [eqb negb].
  wp_steps.
  wp_call client_setfullscreen_off. wp_steps.
  wp_call client_resize_flags. wp_steps. flags_solve.
Qed.

(** C1, as the code has it: a setter called with [true] on a client whose
    flag is clear, or already alone, leaves the flag set and the three
    other special layers clear.  (A setter whose flag is already set does
    nothing at all, so it clears nothing.) *)
Theorem special_layers_exclusive (n : nat) (c : client_t) (g : globalconf_t) :
  (alone_if_set (isontop c) (isabove c) (isbelow c) (isfullscreen c) ->
   exists c' g', client_setontop (S (S n)) true (c, g) = inr (tt, (c', g'))
     /\ isontop c' = true /\ isabove c' = false /\ isbelow c' = false
     /\ isfullscreen c' = false)
  /\ (alone_if_set (isabove c) (isontop c) (isbelow c) (isfullscreen c) ->
      exists c' g', client_setabove (S (S n)) true (c, g) = inr (tt, (c', g'))
        /\ isabove c' = true /\ isontop c' = false /\ isbelow c' = false
        /\ isfullscreen c' = false)
  /\ (alone_if_set (isbelow c) (isontop c) (isabove c) (isfullscreen c) ->
      exists c' g', client_setbelow (S (S n)) true (c, g) = inr (tt, (c', g'))
        /\ isbelow c' = true /\ isontop c' = false /\ isabove c' = false
        /\ isfullscreen c' = false)
  /\ (alone_if_set (isfullscreen c) (isontop c) (isabove c) (isbelow c) ->
      exists c' g',
        client_setfullscreen (S (S n)) true (c, g) = inr (tt, (c', g'))
        /\ isfullscreen c' = true /\ isontop c' = false /\ isabove c' = false
        /\ isbelow c' = false).
Proof using Type.
  clear WM_TAKE_FOCUS.
  unfold alone_if_set. repeat split; intros H.
  - destruct (isontop c) eqn:E.
    + exists c, g. cbn [client_setontop]. unfold bind, self. cbn [fst snd].
      rewrite E. cbn. tauto.
    + destruct (proj1 (wp_run _ _ _) (client_setontop_on n c g E))
        as ([] & [c' g'] & Hr & Hf).
      exists c', g'. split; [exact Hr|]. flags_solve.
  - destruct (isabove c) eqn:E.
    + exists c, g. cbn [client_setabove]. unfold bind, self. cbn [fst snd].
      rewrite E. cbn. tauto.
    + destruct (proj1 (wp_run _ _ _) (client_setabove_on n c g E))
        as ([] & [c' g'] & Hr & Hf).
      exists c', g'. split; [exact Hr|]. flags_solve.
  - destruct (isbelow c) eqn:E.
    + exists c, g. cbn [client_setbelow]. unfold bind, self. cbn [fst snd].
      rewrite E. cbn. tauto.
    + destruct (proj1 (wp_run _ _ _) (client_setbelow_on n c g E))
        as ([] & [c' g'] & Hr & Hf).
      exists c', g'. split; [exact Hr|]. flags_solve.
  - destruct (isfullscreen c) eqn:E.
    + exists c, g. cbn [client_setfullscreen]. unfold bind, self.
      cbn [fst snd]. rewrite E. cbn. tauto.
    + destruct (proj1 (wp_run _ _ _) (client_setfullscreen_on n c g E))
        as ([] & [c' g'] & Hr & Hf).
      exists c', g'. split; [exact Hr|]. flags_solve.
Qed.

(** ** Idempotence of the setters *)

Lemma setter_noop (n : nat) (x : setter) (v : bool) (c : client_t)
    (g : globalconf_t) :
  flag_of x c = v -> run_setter (S n) x v (c, g) = inr (tt, (c, g)).
Proof using Type.
  intros H. destruct x; cbn in H;
    cbn [run_setter client_setfullscreen client_setmaxhoriz client_setmaxvert
         client_setabove client_setbelow client_setontop];
    unfold client_setsticky, client_setminimized, client_setmodal,
      client_seturgent, bind, self; cbn [fst snd];
    rewrite H, eqb_reflx; reflexivity.
Qed.

Lemma setter_sets_flag (n : nat) (x : setter) (v : bool) (c : client_t)
    (g : globalconf_t) :
  wp (run_setter (S (S n)) x v) (c, g) (fun _ s' => flag_of x (fst s') = v).
Proof using Type.
  destruct (bool_dec (flag_of x c) v) as [E | E].
  { eapply wp_eq; [apply setter_noop, E | exact E]. }
  destruct x, v; cbn [run_setter flag_of] in *;
    try apply not_false_is_true in E; try apply not_true_is_false in E.
  - wp_call client_setfullscreen_on; [exact E | flags_solve].
  - wp_call client_setfullscreen_off. flags_solve.
  - wp_call client_setmaxhoriz_on; [exact E | flags_solve].
  - wp_call client_setmaxhoriz_off. flags_solve.
  - wp_call client_setmaxvert_on; [exact E | flags_solve].
  - wp_call client_setmaxvert_off. flags_solve.
  - wp_call client_setabove_on; [exact E | flags_solve].
  - wp_call client_setabove_off. flags_solve.
  - wp_call client_setbelow_on; [exact E | flags_solve].
  - wp_call client_setbelow_off. flags_solve.
  - wp_call client_setontop_on; [exact E | flags_solve].
  - wp_call client_setontop_off. flags_solve.
  - unfold client_setsticky. wp_steps; flags_solve.
  - unfold client_setsticky. wp_steps; flags_solve.
  - unfold client_setminimized. wp_steps; flags_solve.
  - unfold client_setminimized. wp_steps; flags_solve.
  - unfold client_setmodal. wp_steps; flags_solve.
  - unfold client_setmodal. wp_steps; flags_solve.
  - unfold client_seturgent. wp_steps; flags_solve.
  - unfold client_seturgent. wp_steps; flags_solve.
Qed.

(** Two units of fuel are always enough for a setter. *)
Lemma setters_total (n : nat) (x : setter) (v : bool) (s : cstate) :
  exists s', run_setter (S (S n)) x v s = inr (tt, s').
Proof using Type.
  destruct s as [c g].
  destruct (proj1 (wp_run _ _ _) (setter_sets_flag n x v c g))
    as ([] & s' & Hr & _).
  exists s'. exact Hr.
Qed.

(** C6: a setter called with the value that the flag already has returns
    the state as it was, the trace of notifications included; and after
    any call of a setter, the same call again changes nothing and fires
    nothing. *)
Theorem setters_idempotent (n : nat) (x : setter) (v : bool) (c : client_t)
    (g : globalconf_t) :
  (flag_of x c = v -> run_setter (S (S n)) x v (c, g) = inr (tt, (c, g)))
  /\ exists c' g',
       run_setter (S (S n)) x v (c, g) = inr (tt, (c', g'))
       /\ run_setter (S (S n)) x v (c', g') = inr (tt, (c', g')).
Proof using Type.
  split; [apply setter_noop|].
  destruct (proj1 (wp_run _ _ _) (setter_sets_flag n x v c g))
    as ([] & [c' g'] & Hr & Hf).
  exists c', g'. split; [exact Hr|]. apply setter_noop. exact Hf.
Qed.

(** ** Properties of the geometry resolver *)


Lemma unsigned_subtract_floor (a b : Z) :
  a < b -> unsigned_subtract a b = 0.
Proof using Type.
  intros Hab. unfold unsigned_subtract.
  destruct (Z.gtb_spec b a); [reflexivity|lia].
Qed.

Lemma unsigned_subtract_exact (a b : Z) :
  0 <= a < 65536 -> 0 <= b <= a -> unsigned_subtract a b = a - b.
Proof using Type.
  intros Ha Hb. unfold unsigned_subtract, wrap_u16.
  destruct (Z.gtb_spec b a); [lia|]. apply Z.mod_small. lia.
Qed.

(** The remainder of C's [%] on a dividend that is not negative. *)
Lemma rem_nonneg_le (a b : Z) : 0 <= a -> 0 <= Z.rem a b <= a.
Proof using Type.
  intros Ha. destruct (Z.eq_dec b 0) as [-> | Hb].
  - rewrite Z.rem_0_r_ext by reflexivity. lia.
  - split; [apply Z.rem_nonneg; assumption|].
    destruct (Z_lt_le_dec 0 b) as [Hpos | Hneg].
    + apply Z.rem_le; assumption.
    + rewrite <- (Z.opp_involutive b), Z.rem_opp_r by lia.
      apply Z.rem_le; lia.
Qed.

(** The snapped side stays between 0 and the side it comes from when the
    base is not negative: nothing wraps around. *)
Lemma snap_no_wrap (side base inc : Z) :
  0 <= side < 65536 -> 0 <= base ->
  0 <= wrap_u16 (side - Z.rem (unsigned_subtract (wrap_u16 side) base) inc)
    <= side.
Proof using Type.
  intros Hs Hb.
  replace (wrap_u16 side) with side
    by (unfold wrap_u16; rewrite Z.mod_small; lia).
  assert (Ht : 0 <= unsigned_subtract side base <= side).
  { destruct (Z_lt_le_dec side base) as [Hlt | Hle].
    - rewrite unsigned_subtract_floor by assumption. lia.
    - rewrite unsigned_subtract_exact by lia. lia. }
  pose proof (rem_nonneg_le (unsigned_subtract side base) inc (proj1 Ht)).
  unfold wrap_u16. rewrite Z.mod_small by lia. lia.
Qed.

(** C5, as the code has it: with aspect bounds 4/3 and base (0,0), the
    proposed 100 x 100 is projected onto the line width = 4/3 height,
    which gives 112 x 84 (both sides change); x and y are kept. *)
Theorem aspect_example_projects (c : client_t) (gx gy : Z) :
  flags (size_hints c) = XCB_SIZE_HINT_P_ASPECT ->
  min_aspect_num (size_hints c) = 4 -> min_aspect_den (size_hints c) = 3 ->
  max_aspect_num (size_hints c) = 4 ->
  let r := client_geometry_hints c (mk_area gx gy 100 100) in
  r = mk_area gx gy 112 84 /\ width r * 3 = height r * 4.
Proof using Type.
  intros Hf Hn Hd Hm.
  assert (E : client_geometry_hints c (mk_area gx gy 100 100)
              = mk_area gx gy 112 84).
  { unfold client_geometry_hints, hints_base, hints_min, hints_aspect,
      hints_clamp, hints_increment, hints_increment_enabled.
    rewrite Hf, Hn, Hd, Hm. vm_compute. reflexivity. }
  cbv zeta. rewrite E. split; reflexivity.
Qed.

Lemma wrap_u16_small (a : Z) : 0 <= a < 65536 -> wrap_u16 a = a.
Proof using Type. intros H. unfold wrap_u16. apply Z.mod_small. exact H. Qed.

Lemma wrap_u16_range (z : Z) : 0 <= wrap_u16 z < 65536.
Proof using Type. unfold wrap_u16. apply Z.mod_pos_bound. lia. Qed.

Lemma hints_aspect_range (h : xcb_size_hints_t) (basew baseh : Z)
    (geometry : area_t) :
  0 <= width geometry < 65536 -> 0 <= height geometry < 65536 ->
  0 <= width (hints_aspect h basew baseh geometry) < 65536
  /\ 0 <= height (hints_aspect h basew baseh geometry) < 65536.
Proof using Type.
  intros Hw Hh. unfold hints_aspect.
  repeat match goal with
         | |- context [if ?b then _ else _] => destruct b
         end;
    cbn [width height set_width set_height];
    split; first [assumption | apply wrap_u16_range].
Qed.






(** ** The focus controller *)

Lemma wp_get {S : Type} (s : S) (Q : S -> S -> Prop) :
  Q s s -> wp get s Q.
Proof using Type. intros H. exact H. Qed.

Lemma wp_modify {S : Type} (f : S -> S) (s : S) (Q : unit -> S -> Prop) :
  Q tt (f s) -> wp (modify f) s Q.
Proof using Type. intros H. exact H. Qed.

Lemma wp_emitg (e : event) (g : globalconf_t)
    (Q : unit -> globalconf_t -> Prop) :
  Q tt (record e g) -> wp (emitg e) g Q.
Proof using Type. intros H. exact H. Qed.

Lemma wp_deref (c : client_p) (cl : client_t) (g : globalconf_t)
    (Q : client_t -> globalconf_t -> Prop) :
  heap g !! c = Some cl -> Q cl g -> wp (deref c) g Q.
Proof using Type. intros E H. unfold wp, deref. rewrite E. exact H. Qed.

Lemma wp_screen_at (i : nat) (s : screen_t) (g : globalconf_t)
    (Q : screen_t -> globalconf_t -> Prop) :
  screens g !! i = Some s -> Q s g -> wp (screen_at i) g Q.
Proof using Type. intros E H. unfold wp, screen_at. rewrite E. exact H. Qed.

Lemma wp_update_screen (i : nat) (f : screen_t -> screen_t) (s : screen_t)
    (g : globalconf_t) (Q : unit -> globalconf_t -> Prop) :
  screens g !! i = Some s ->
  Q tt (set_screens (<[i := f s]> (screens g)) g) ->
  wp (update_screen i f) g Q.
Proof using Type. intros E H. unfold wp, update_screen. rewrite E. exact H. Qed.

Lemma wp_on_client {A : Type} (c : client_p) (m : M cstate A)
    (cl : client_t) (g : globalconf_t) (Q : A -> globalconf_t -> Prop) :
  heap g !! c = Some cl ->
  wp m (cl, g)
    (fun a s' => Q a (set_heap (<[c := fst s']> (heap (snd s'))) (snd s'))) ->
  wp (on_client c m) g Q.
Proof using Type.
  intros E. unfold wp, on_client. rewrite E.
  destruct (m (cl, g)) as [f | [a [cl' g']]]; intros H; exact H.
Qed.

Lemma client_focus_not_visible (n : nat) (c : client_p) (g : globalconf_t) :
  not_visible c g -> client_focus (S n) (Some c) g = inr (tt, g).
Proof using Type.
  intros (cl & Hc & Hv). cbn [client_focus]. unfold bind at 1, get.
  unfold bind at 1, deref. rewrite Hc.
  unfold bind at 1. rewrite Hv. reflexivity.
Qed.

Lemma client_focus_update_not_visible (n : nat) (c : client_p)
    (g : globalconf_t) (sf : nat) (s : screen_t) :
  not_visible c g ->
  screen_focus g = Some sf -> screens g !! sf = Some s ->
  client_focus_update (S n) c g = client_focus n (scr_prev_client_focus s) g.
Proof using Type.
  intros (cl & Hc & Hv) Hsf Hs. cbn [client_focus_update].
  unfold bind at 1, deref. rewrite Hc.
  unfold bind at 1. rewrite Hv. cbn [negb].
  unfold bind at 1, get. rewrite Hsf.
  unfold bind at 1, screen_at. rewrite Hs. reflexivity.
Qed.

Lemma client_focus_null (n : nat) (g : globalconf_t) :
  client_focus (S n) None g
  = match clients g with
    | [] => inl NullPointer
    | c0 :: _ => client_focus (S n) (Some c0) g
    end.
Proof using Type.
  destruct (clients g) as [| c0 l] eqn:E;
    cbn [client_focus]; unfold bind, get; cbn beta iota; rewrite E;
    reflexivity.
Qed.

(** The bookkeeping for a client that is maybe-visible, when no client
    has the focus: the client is shown, gets the focus of its screen and
    loses its urgency. *)
Lemma client_focus_update_focuses (n : nat) (c : client_p) (g : globalconf_t)
    (cl : client_t) (sf : nat) (s sc : screen_t) :
  heap g !! c = Some cl ->
  client_maybevisible c (screen cl) g = inr (true, g) ->
  screen_focus g = Some sf -> screens g !! sf = Some s ->
  scr_client_focus s = None ->
  screens g !! phys_screen cl = Some sc ->
  wp (client_focus_update (S n) c) g
    (fun _ g' =>
       screen_focus g' = Some (phys_screen cl)
       /\ exists s' cl',
            screens g' !! phys_screen cl = Some s'
            /\ scr_client_focus s' = Some c
            /\ scr_prev_client_focus s' = Some c
            /\ heap g' !! c = Some cl'
            /\ ishidden cl' = false /\ isminimized cl' = false
            /\ isbanned cl' = false /\ isurgent cl' = false).
Proof using Type.
  intros Hc Hv Hsf Hs Hf Hsc. cbn [client_focus_update].
  apply wp_bind. eapply wp_deref; [exact Hc|].
  apply wp_bind. eapply wp_eq; [exact Hv|]. cbn [negb].
  apply wp_bind, wp_get. apply wp_bind. rewrite Hsf.
  apply wp_bind. eapply wp_screen_at; [exact Hs|]. rewrite Hf.
  apply wp_ret.
  assert (Hlt : (phys_screen cl < length (screens g))%nat)
    by (eapply lookup_lt_Some; exact Hsc).
  repeat
    (lazymatch goal with
     | |- wp (ret _) _ _ => apply wp_ret
     | |- wp (bind _ _) _ _ => apply wp_bind
     | |- wp get _ _ => apply wp_get
     | |- wp (modify _) _ _ => apply wp_modify
     | |- wp (emitg _) _ _ => apply wp_emitg
     | |- wp (client_setminimized _) _ _ => unfold client_setminimized
     | |- wp (client_seturgent _) _ _ => unfold client_seturgent
     | |- wp client_unban _ _ => unfold client_unban
     | |- wp (on_client _ _) _ _ =>
         eapply wp_on_client;
         [cbn [heap set_screens set_screen_focus set_heap record set_trace
               set_need_reban];
          first [exact Hc | apply lookup_insert_eq] |]
     | |- wp (update_screen _ _) _ _ =>
         eapply wp_update_screen;
         [cbn [screens set_screens set_screen_focus set_heap record
               set_trace set_need_reban];
          first [exact Hsc | apply list_lookup_insert_eq; exact Hlt] |]
     | |- wp _ (_, _) _ => wp_step
     | |- wp (if ?b then _ else _) _ _ => destruct b
     end; cbn [fst snd]);
    (split; [reflexivity|]);
    eexists; eexists;
    (split;
     [cbn [screens set_screens set_screen_focus set_heap record set_trace
           set_need_reban];
      apply list_lookup_insert_eq; rewrite !length_insert; exact Hlt|]);
    (split; [reflexivity|]); (split; [reflexivity|]);
    (split;
     [cbn [heap set_screens set_screen_focus set_heap record set_trace
           set_need_reban];
      apply lookup_insert_eq|]);
    repeat match goal with
           | H : context [set_ishidden] |- _ => progress cbn in H
           end;
    cbn;
    repeat match goal with
           | H : negb (eqb ?a false) = false |- _ =>
               destruct a; [discriminate H|]; clear H
           end;
    repeat split; assumption.
Qed.

(** [client_focus] on a client that is maybe-visible and accepts the
    focus, when no client has the focus. *)
Lemma client_focus_focuses (n : nat) (c : client_p) (g : globalconf_t)
    (cl : client_t) (sf : nat) (s sc : screen_t) :
  heap g !! c = Some cl ->
  client_maybevisible c (screen cl) g = inr (true, g) ->
  nofocus cl = false ->
  screen_focus g = Some sf -> screens g !! sf = Some s ->
  scr_client_focus s = None ->
  screens g !! phys_screen cl = Some sc ->
  wp (client_focus (S (S n)) (Some c)) g
    (fun _ g' =>
       screen_focus g' = Some (phys_screen cl)
       /\ exists s', screens g' !! phys_screen cl = Some s'
                     /\ scr_client_focus s' = Some c
                     /\ scr_prev_client_focus s' = Some c).
Proof using Type.
  intros Hc Hv Hn Hsf Hs Hf Hsc. cbn [client_focus].
  apply wp_bind, wp_get.
  apply wp_bind. eapply wp_deref; [exact Hc|].
  apply wp_bind. eapply wp_eq; [exact Hv|]. cbn [negb]. rewrite Hn.
  cbn [negb]. apply wp_bind. eapply wp_mono.
  { apply (client_focus_update_focuses n c g cl sf s sc); assumption. }
  intros [] g' (Hsf' & s' & cl' & Hs' & Hf' & Hp' & Hc' & _).
  apply wp_bind. eapply wp_deref; [exact Hc'|].
  unfold client_setfocus. apply wp_bind. eapply wp_deref; [exact Hc'|].
  destruct (negb (nofocus cl')), (client_hasproto cl' WM_TAKE_FOCUS);
    repeat first [apply wp_bind | apply wp_emitg | apply wp_ret];
    (split; [exact Hsf'|]); exists s'; repeat split; assumption.
Qed.

(** C4: [client_focus] called with no client takes the first member of
    a registry that is not empty; on the empty registry it goes on with
    the null pointer and dereferences it. *)
Theorem client_focus_none (n : nat) (g : globalconf_t) (c0 : client_p)
    (rest : list client_p) :
  client_focus (S n) None (set_clients [] g) = inl NullPointer
  /\ client_focus (S n) None (set_clients (c0 :: rest) g)
     = client_focus (S n) (Some c0) (set_clients (c0 :: rest) g).
Proof using Type.
  split; rewrite client_focus_null; reflexivity.
Qed.

(** C3, as the code has it.  For a client [c] that is not maybe-visible:
    [client_focus] returns at once and changes nothing, without any
    fallback; [client_focus_update] does none of the bookkeeping for [c]
    and is instead [client_focus] on the previously focused client of
    the screen that [globalconf.screen_focus] points to.  When that
    client is itself not maybe-visible nothing changes; when it is
    maybe-visible and accepts the focus, and no client has the focus, it
    gets the focus; and when there is none, the first member of the
    registry is taken. *)
Theorem focus_not_visible_falls_back (n : nat) (c : client_p)
    (g : globalconf_t) (sf : nat) (s : screen_t) :
  not_visible c g ->
  screen_focus g = Some sf -> screens g !! sf = Some s ->
  client_focus (S (S n)) (Some c) g = inr (tt, g)
  /\ client_focus_update (S (S (S n))) c g
     = client_focus (S (S n)) (scr_prev_client_focus s) g
  /\ (forall p : client_p,
        scr_prev_client_focus s = Some p -> not_visible p g ->
        client_focus_update (S (S (S n))) c g = inr (tt, g))
  /\ (forall (p : client_p) (clp : client_t) (sc : screen_t),
        scr_prev_client_focus s = Some p -> heap g !! p = Some clp ->
        client_maybevisible p (screen clp) g = inr (true, g) ->
        nofocus clp = false -> scr_client_focus s = None ->
        screens g !! phys_screen clp = Some sc ->
        exists g' s',
          client_focus_update (S (S (S n))) c g = inr (tt, g')
          /\ screens g' !! phys_screen clp = Some s'
          /\ scr_client_focus s' = Some p)
  /\ (forall (c0 : client_p) (rest : list client_p),
        scr_prev_client_focus s = None -> clients g = c0 :: rest ->
        client_focus_update (S (S (S n))) c g
        = client_focus (S (S n)) (Some c0) g).
Proof using Type.
  intros Hc Hsf Hs.
  pose proof (client_focus_update_not_visible (S (S n)) c g sf s Hc Hsf Hs)
    as Hu.
  repeat apply conj.
  - apply client_focus_not_visible. exact Hc.
  - exact Hu.
  - intros p Hp Hv. rewrite Hu, Hp. apply client_focus_not_visible. exact Hv.
  - intros p clp sc Hp Hh Hv Hn Hf Hsc. rewrite Hu, Hp.
    destruct (proj1 (wp_run _ _ _)
                (client_focus_focuses n p g clp sf s sc Hh Hv Hn Hsf Hs Hf Hsc))
      as ([] & g' & Hr & _ & s' & Hs' & Hf' & _).
    exists g', s'. repeat split; assumption.
  - intros c0 rest Hp Hl. rewrite Hu, Hp, client_focus_null, Hl. reflexivity.
Qed.

(** ** The stacking engine *)

Lemma set_trace_same (g : globalconf_t) : set_trace (trace g) g = g.
Proof using Type. destruct g. reflexivity. Qed.

Lemma wp_stack_wiboxes (top : bool) (previous : xcb_window_t)
    (g : globalconf_t) (Q : xcb_window_t -> globalconf_t -> Prop) :
  Q (snd (wiboxes_placed top (wiboxes g) previous))
    (set_trace (rev (fst (wiboxes_placed top (wiboxes g) previous)) ++ trace g)
       g) ->
  wp (stack_wiboxes top previous) g Q.
Proof using Type.
  unfold stack_wiboxes. intros H. apply wp_bind, wp_get.
  revert H. generalize (wiboxes g) as l. intros l. revert previous.
  assert (G : forall (l : list wibox_t) (previous : xcb_window_t)
                (ev : list event),
             Q (snd (wiboxes_placed top l previous))
               (set_trace (rev (fst (wiboxes_placed top l previous))
                           ++ ev ++ trace g) g) ->
             wp (foreach l previous
                   (fun sb previous =>
                      if eqb (ontop sb) top
                      then emitg (xcb_configure_window_stack (sw_window sb)
                                    previous) ;;
                           ret (sw_window sb)
                      else ret previous))
               (set_trace (ev ++ trace g) g) Q).
  { clear l. intros l.
    induction l as [| sb l IH]; intros previous ev H; cbn [foreach].
    - apply wp_ret. exact H.
    - apply wp_bind. cbn [wiboxes_placed] in H.
      destruct (eqb (ontop sb) top).
      + apply wp_bind, wp_emitg, wp_ret.
        specialize (IH (sw_window sb)
                      (xcb_configure_window_stack (sw_window sb) previous
                       :: ev)).
        cbn [fst snd rev] in H. rewrite <- app_assoc in H.
        unfold record. destruct g. apply IH. exact H.
      + apply wp_ret, IH. exact H. }
  intros previous H. specialize (G l previous []).
  cbn [app] in G. rewrite set_trace_same in G. apply G. exact H.
Qed.

Ltac wpg_step :=
  lazymatch goal with
  | |- wp (ret _) _ _ => apply wp_ret
  | |- wp (bind _ _) _ _ => apply wp_bind
  | |- wp get _ _ => apply wp_get
  | |- wp (modify _) _ _ => apply wp_modify
  | |- wp (emitg _) _ _ => apply wp_emitg
  | |- wp (stack_wiboxes _ _) _ _ => apply wp_stack_wiboxes
  | |- wp (deref _) _ _ => eapply wp_deref; [eassumption|]
  end.

(** C2: a stack that holds, in any order, a normal client A, a client B
    transient for A and a client C with the above flag is restacked, when
    the dirty flag is set, as A, B, C from bottom to top: B is placed
    directly above A and C above B.  (The wiboxes that are not on top
    come first and the others last.) *)
Theorem transient_stacked_above_parent (n : nat) (g : globalconf_t)
    (a b c : client_p) (A B C : client_t) :
  client_need_stack_refresh g = true ->
  stack g ≡ₚ [a; b; c] -> a <> b -> a <> c -> b <> c ->
  heap g !! a = Some A -> heap g !! b = Some B -> heap g !! c = Some C ->
  client_layer_translator A = LAYER_NORMAL -> transient_for A = None ->
  client_layer_translator B = LAYER_IGNORE -> transient_for B = Some a ->
  client_layer_translator C = LAYER_ABOVE -> transient_for C = None ->
  let low := wiboxes_placed false (wiboxes g) XCB_NONE in
  let high := wiboxes_placed true (wiboxes g) (top_of C) in
  exists g',
    client_stack_refresh (S (S n)) g = inr (tt, g')
    /\ rev (trace g')
       = rev (trace g) ++ fst low ++ placed A (snd low)
         ++ placed B (top_of A) ++ placed C (top_of B) ++ fst high
    /\ client_need_stack_refresh g' = false.
Proof using Type.
  clear screen_getbycoord screen_area_get display_area_get WM_TAKE_FOCUS.
  intros Hd Hp Hab Hac Hbc Ha Hb Hc HlA HtA HlB HtB HlC HtC low high.
  assert (Eab : Nat.eqb a b = false) by (apply Nat.eqb_neq; assumption).
  assert (Eac : Nat.eqb a c = false) by (apply Nat.eqb_neq; assumption).
  assert (Ebc : Nat.eqb b c = false) by (apply Nat.eqb_neq; assumption).
  assert (Eba : Nat.eqb b a = false) by (apply Nat.eqb_neq; auto).
  assert (Eca : Nat.eqb c a = false) by (apply Nat.eqb_neq; auto).
  assert (Ecb : Nat.eqb c b = false) by (apply Nat.eqb_neq; auto).
  enough (W : wp (client_stack_refresh (S (S n))) g
                (fun _ g' =>
                   rev (trace g')
                   = rev (trace g) ++ fst low ++ placed A (snd low)
                     ++ placed B (top_of A) ++ placed C (top_of B)
                     ++ fst high
                   /\ client_need_stack_refresh g' = false)).
  { apply wp_run in W as ([] & g' & Hr & HQ). exists g'. tauto. }
  symmetry in Hp. apply permutations_Permutation in Hp. cbn in Hp.
  unfold high, low, placed, top_of. clear high low.
  destruct (titlebar A) as [tA |] eqn:HbA; destruct (titlebar B) as [tB |] eqn:HbB;
    destruct (titlebar C) as [tC |] eqn:HbC;
    repeat (apply elem_of_cons in Hp as [Hs | Hp]);
    try (apply elem_of_nil in Hp; contradiction);
    unfold client_stack_refresh; apply wp_bind, wp_get; rewrite Hd;
    repeat first
      [ wpg_step
      | progress unfold stack_layer
      | eapply wp_deref;
        [ cbn [heap record set_trace set_client_need_stack_refresh];
          eassumption |]
      | progress cbn [foreach layers_from_below List.filter layer_val Nat.leb
                      Nat.ltb andb negb stack_layer client_stack_above
                      points_to heap stack wiboxes trace
                      client_need_stack_refresh record set_trace
                      set_client_need_stack_refresh fst snd Nat.eqb]
      | progress rewrite ?Hs, ?HlA, ?HlB, ?HlC, ?HtA, ?HtB, ?HtC, ?HbA, ?HbB,
          ?HbC, ?Eab, ?Eac, ?Ebc, ?Eba, ?Eca, ?Ecb, ?Nat.eqb_refl ];
    (split; [|reflexivity]);
    repeat (progress (rewrite ?rev_app_distr, ?rev_involutive, <- ?app_assoc;
                      cbn [rev app]));
    reflexivity.
Qed.

(** ** Unmanaging a client *)

Lemma clear_tf_idem (q : client_p) (t : client_t) :
  clear_tf q (clear_tf q t) = clear_tf q t.
Proof using Type.
  unfold clear_tf. destruct (points_to (transient_for t) q) eqn:E.
  - reflexivity.
  - rewrite E. reflexivity.
Qed.

Lemma set_heap_same (g : globalconf_t) : set_heap (heap g) g = g.
Proof using Type. destruct g. reflexivity. Qed.

Lemma set_heap_twice (h h' : gmap nat client_t) (g : globalconf_t) :
  set_heap h' (set_heap h g) = set_heap h' g.
Proof using Type. reflexivity. Qed.

Lemma unmanage_loop (q : client_p) (l : list client_p) (g : globalconf_t)
    (Q : unit -> globalconf_t -> Prop) :
  (forall c : client_p, c ∈ l -> is_Some (heap g !! c)) ->
  (forall h' : gmap nat client_t,
     (forall k : client_p,
        h' !! k = if bool_decide (k ∈ l)
                  then clear_tf q <$> heap g !! k
                  else heap g !! k) ->
     Q tt (set_heap h' g)) ->
  wp (foreach l tt
        (fun tc _ =>
           let* t := deref tc in
           if points_to (transient_for t) q
           then on_client tc (assign (set_transient_for None))
           else ret tt)) g Q.
Proof using Type.
  revert g Q. induction l as [| tc l IH]; intros g Q Hin HQ; cbn [foreach].
  - apply wp_ret. rewrite <- (set_heap_same g). apply HQ. intros k.
    rewrite bool_decide_eq_false_2 by apply not_elem_of_nil. reflexivity.
  - destruct (Hin tc) as [t Ht]; [left|].
    apply wp_bind, wp_bind. eapply wp_deref; [exact Ht|].
    assert (Hstep : forall g1 : globalconf_t,
               g1 = set_heap (<[tc := clear_tf q t]> (heap g)) g ->
               wp (foreach l tt
                     (fun tc _ =>
                        let* t := deref tc in
                        if points_to (transient_for t) q
                        then on_client tc (assign (set_transient_for None))
                        else ret tt)) g1 Q).
    { intros g1 ->. apply IH.
      - intros c Hc. cbn [heap set_heap]. apply lookup_insert_is_Some'.
        right. apply Hin. right. exact Hc.
      - intros h' Hh'. rewrite set_heap_twice. apply HQ. intros k.
        rewrite Hh'. cbn [heap set_heap].
        destruct (decide (k = tc)) as [-> | Hne].
        + rewrite lookup_insert_eq, Ht, (bool_decide_eq_true_2 (tc ∈ tc :: l))
            by left.
          cbn. rewrite clear_tf_idem. destruct (bool_decide (tc ∈ l)); reflexivity.
        + rewrite lookup_insert_ne by auto.
          destruct (bool_decide (k ∈ l)) eqn:E.
          * apply bool_decide_eq_true_1 in E.
            rewrite bool_decide_eq_true_2 by (right; exact E). reflexivity.
          * apply bool_decide_eq_false_1 in E.
            rewrite bool_decide_eq_false_2; [reflexivity|].
            intros [? | ?]%elem_of_cons; auto. }
    unfold clear_tf in Hstep.
    destruct (points_to (transient_for t) q).
    + eapply wp_on_client; [exact Ht|]. apply wp_assign. cbn [fst snd].
      apply Hstep. reflexivity.
    + apply wp_ret, Hstep. rewrite insert_id by exact Ht.
      symmetry. apply set_heap_same.
Qed.

Lemma remove_first_not_in (q : client_p) (l : list client_p) :
  NoDup l -> q ∉ remove_first q l.
Proof using Type.
  induction l as [| e l IH]; intros Hnd; cbn [remove_first].
  - apply not_elem_of_nil.
  - apply NoDup_cons in Hnd as [Hne Hnd].
    destruct (Nat.eqb_spec e q) as [-> | Hq]; [exact Hne|].
    intros [-> | Hin]%elem_of_cons; [congruence | exact (IH Hnd Hin)].
Qed.

Lemma remove_first_other (p q : client_p) (l : list client_p) :
  p <> q -> p ∈ l -> p ∈ remove_first q l.
Proof using Type.
  intros Hpq. induction l as [| e l IH]; intros Hin; cbn [remove_first].
  - exact Hin.
  - apply elem_of_cons in Hin as [-> | Hin].
    + destruct (Nat.eqb_spec e q) as [-> | Hq]; [congruence | left].
    + destruct (Nat.eqb e q); [exact Hin | right; exact (IH Hin)].
Qed.

Lemma existsb_remove_first_other (p q : client_p) (l : list client_p) :
  p <> q ->
  existsb (Nat.eqb p) (remove_first q l) = existsb (Nat.eqb p) l.
Proof using Type.
  intros Hpq. induction l as [| e l IH]; cbn [remove_first existsb].
  - reflexivity.
  - destruct (Nat.eqb_spec e q) as [-> | Hq].
    + destruct (Nat.eqb_spec p q); [congruence | reflexivity].
    + cbn [existsb]. rewrite IH. reflexivity.
Qed.

Lemma tagged_on_untag (p q : client_p) (s : screen_t) :
  p <> q ->
  tagged_on p (set_tags (map (untag_client q) (tags s)) s) = tagged_on p s.
Proof using Type.
  intros Hpq. unfold tagged_on. cbn [tags set_tags].
  induction (tags s) as [| t l IH]; cbn [map existsb]; [reflexivity|].
  rewrite IH. unfold is_client_tagged, untag_client at 1 2.
  cbn [selected tag_clients set_tag_clients].
  rewrite existsb_remove_first_other by exact Hpq. reflexivity.
Qed.

Lemma lookup_insert_preserve {A B : Type} (phi : A -> B) (l : list A)
    (j : nat) (s v : A) (i : nat) :
  l !! j = Some s -> phi v = phi s ->
  phi <$> (<[j := v]> l !! i) = phi <$> (l !! i).
Proof using Type.
  intros Hj Hphi. destruct (decide (i = j)) as [-> | Hne].
  - rewrite list_lookup_insert_eq by (eapply lookup_lt_Some; exact Hj).
    rewrite Hj. cbn. congruence.
  - rewrite list_lookup_insert_ne by auto. reflexivity.
Qed.

Lemma client_maybevisible_same (p : client_p) (scr : nat)
    (g g' : globalconf_t) (P P' : client_t) :
  heap g !! p = Some P -> heap g' !! p = Some P' ->
  screen P' = screen P -> issticky P' = issticky P -> type P' = type P ->
  (forall i : nat,
     tagged_on p <$> (screens g' !! i) = tagged_on p <$> (screens g !! i)) ->
  outcome (client_maybevisible p scr g')
  = outcome (client_maybevisible p scr g).
Proof using Type.
  intros Hp Hp' Hs Hst Hty Hscr.
  unfold client_maybevisible, bind, deref, screen_at, ret.
  rewrite Hp, Hp', Hs, Hst, Hty.
  destruct (Nat.eqb (screen P) scr); [|reflexivity].
  destruct (issticky P || window_type_eqb (type P) WINDOW_TYPE_DESKTOP);
    [reflexivity|].
  specialize (Hscr scr). unfold tagged_on in Hscr.
  destruct (screens g' !! scr), (screens g !! scr); cbn in Hscr |- *;
    congruence.
Qed.

Lemma set_screens_same (g : globalconf_t) : set_screens (screens g) g = g.
Proof using Type. destruct g. reflexivity. Qed.

Lemma unmanage_clear_prev (q : client_p) (ph : nat) (g : globalconf_t)
    (s : screen_t) :
  screens g !! ph = Some s ->
  wp (let* s := screen_at ph in
      if points_to (scr_prev_client_focus s) q
      then update_screen ph (set_scr_prev_client_focus None)
      else ret tt) g
    (fun _ g' =>
       same_registry g g'
       /\ exists s', screens g' = <[ph := s']> (screens g)
                     /\ tags s' = tags s
                     /\ scr_client_focus s' = scr_client_focus s
                     /\ scr_prev_client_focus s' <> Some q).
Proof using Type.
  intros Hs. apply wp_bind. eapply wp_screen_at; [exact Hs|].
  destruct (points_to (scr_prev_client_focus s) q) eqn:E.
  - eapply wp_update_screen; [exact Hs|].
    split; [repeat split|]. eexists. split; [reflexivity|].
    repeat split. discriminate.
  - apply wp_ret. split; [repeat split|]. exists s.
    rewrite list_insert_id by exact Hs. repeat split.
    intros Hq. rewrite Hq in E. cbn in E. rewrite Nat.eqb_refl in E.
    discriminate.
Qed.

Lemma unmanage_clear_focus (q : client_p) (Q1 : client_t) (g : globalconf_t)
    (s : screen_t) :
  heap g !! q = Some Q1 ->
  screens g !! phys_screen Q1 = Some s ->
  wp (let* s := screen_at (phys_screen Q1) in
      if points_to (scr_client_focus s) q then client_unfocus q else ret tt) g
    (fun _ g' =>
       same_registry g g'
       /\ exists s', screens g' = <[phys_screen Q1 := s']> (screens g)
                     /\ tags s' = tags s
                     /\ scr_prev_client_focus s' = scr_prev_client_focus s
                     /\ scr_client_focus s' <> Some q).
Proof using Type.
  intros Hq Hs. apply wp_bind. eapply wp_screen_at; [exact Hs|].
  destruct (points_to (scr_client_focus s) q) eqn:E.
  - unfold client_unfocus, client_unfocus_update.
    apply wp_bind. eapply wp_deref; [exact Hq|].
    apply wp_bind, wp_emitg.
    apply wp_bind. eapply wp_deref; [exact Hq|].
    apply wp_bind. eapply wp_update_screen; [exact Hs|].
    apply wp_bind, wp_emitg, wp_bind, wp_get.
    assert (G : forall g' : globalconf_t,
               same_registry g g' ->
               screens g'
               = <[phys_screen Q1 := set_scr_client_focus None s]> (screens g) ->
               same_registry g g'
               /\ exists s', screens g' = <[phys_screen Q1 := s']> (screens g)
                             /\ tags s' = tags s
                             /\ scr_prev_client_focus s'
                                = scr_prev_client_focus s
                             /\ scr_client_focus s' <> Some q).
    { intros g' Hr Hg'. split; [exact Hr|]. eexists. split; [exact Hg'|].
      repeat split. discriminate. }
    cbn [hooks record set_trace set_screens].
    destruct (hooks_unfocus (hooks g)).
    + apply wp_emitg, G; repeat split.
    + apply wp_ret, G; repeat split.
  - apply wp_ret. split; [repeat split|]. exists s.
    rewrite list_insert_id by exact Hs. repeat split.
    intros Hf. rewrite Hf in E. cbn in E. rewrite Nat.eqb_refl in E.
    discriminate.
Qed.

(** C9: unmanaging Q, for which P is transient, clears the reference of
    P, keeps P in the registry as it was (as valid and as visible as
    before), takes Q out of the membership sequence and of the stack,
    clears Q from the focus fields of its screen and marks Q invalid. *)
Theorem unmanage_clears_transient (g : globalconf_t) (p q : client_p)
    (P Q : client_t) :
  p <> q ->
  heap g !! p = Some P -> heap g !! q = Some Q ->
  transient_for P = Some q ->
  p ∈ clients g -> q ∈ clients g ->
  NoDup (clients g) -> NoDup (stack g) ->
  (forall c : client_p, c ∈ clients g -> is_Some (heap g !! c)) ->
  is_Some (screens g !! phys_screen Q) -> is_Some (screens g !! screen Q) ->
  exists g',
    client_unmanage q g = inr (tt, g')
    /\ (exists P', heap g' !! p = Some P'
                   /\ P' = set_transient_for None P
                   /\ transient_for P' = None /\ invalid P' = invalid P)
    /\ p ∈ clients g'
    /\ (forall scr : nat,
          outcome (client_maybevisible p scr g')
          = outcome (client_maybevisible p scr g))
    /\ (q ∉ clients g') /\ (q ∉ stack g')
    /\ (exists s, screens g' !! phys_screen Q = Some s
                  /\ scr_client_focus s <> Some q
                  /\ scr_prev_client_focus s <> Some q)
    /\ (exists Q', heap g' !! q = Some Q' /\ invalid Q' = true).
Proof using Type.
  clear screen_getbycoord screen_area_get display_area_get WM_TAKE_FOCUS.
  intros Hpq Hp Hq HtP Hpin Hqin Hnd Hnds Hheap [sph Hph] [ssq Hsq].
  enough (W : wp (client_unmanage q) g
                (fun _ g' =>
                   (exists P', heap g' !! p = Some P'
                               /\ P' = set_transient_for None P
                               /\ transient_for P' = None
                               /\ invalid P' = invalid P)
                   /\ p ∈ clients g'
                   /\ (forall scr : nat,
                         outcome (client_maybevisible p scr g')
                         = outcome (client_maybevisible p scr g))
                   /\ (q ∉ clients g') /\ (q ∉ stack g')
                   /\ (exists s, screens g' !! phys_screen Q = Some s
                                 /\ scr_client_focus s <> Some q
                                 /\ scr_prev_client_focus s <> Some q)
                   /\ (exists Q', heap g' !! q = Some Q'
                                  /\ invalid Q' = true))).
  { apply wp_run in W as ([] & g' & Hr & HQ). exists g'. tauto. }
  unfold client_unmanage.
  apply wp_bind. eapply wp_deref; [exact Hq|].
  apply wp_bind, wp_get. apply wp_bind.
  apply unmanage_loop; [exact Hheap|]. intros h1 Hh1.
  assert (Hp1 : h1 !! p = Some (set_transient_for None P)).
  { rewrite Hh1, bool_decide_eq_true_2, Hp by exact Hpin.
    cbn. unfold clear_tf. rewrite HtP. cbn [points_to].
    rewrite Nat.eqb_refl. reflexivity. }
  assert (Hq1 : exists Q1, h1 !! q = Some Q1 /\ win Q1 = win Q
                           /\ phys_screen Q1 = phys_screen Q).
  { exists (clear_tf q Q). rewrite Hh1, bool_decide_eq_true_2, Hq by exact Hqin.
    split; [reflexivity|]. unfold clear_tf.
    destruct (points_to (transient_for Q) q); split; reflexivity. }
  destruct Hq1 as (Q1 & Hq1 & Hw1 & Hph1).
  (* the previously focused client *)
  apply wp_bind. eapply wp_mono;
    [apply (unmanage_clear_prev q (phys_screen Q) (set_heap h1 g) sph);
     exact Hph|].
  intros [] g2 ((Hh2 & Hc2 & Hs2 & Hk2) & s2 & Hscr2 & Htag2 & Hfoc2 & Hprev2).
  cbn [heap clients stack hooks screens set_heap] in Hh2, Hc2, Hs2, Hk2, Hscr2.
  assert (Hlt : (phys_screen Q < length (screens g))%nat)
    by (eapply lookup_lt_Some; exact Hph).
  assert (Hph2 : screens g2 !! phys_screen Q = Some s2)
    by (rewrite Hscr2; apply list_lookup_insert_eq; exact Hlt).
  (* the focused client *)
  apply wp_bind. rewrite <- Hph1. eapply wp_mono;
    [apply (unmanage_clear_focus q Q1 g2 s2);
     [rewrite Hh2; exact Hq1 | rewrite Hph1; exact Hph2]|].
  rewrite Hph1.
  intros [] g3 ((Hh3 & Hc3 & Hs3 & Hk3) & s3 & Hscr3 & Htag3 & Hprev3 & Hfoc3).
  rewrite Hscr2, list_insert_insert_eq in Hscr3.
  assert (Hph3 : screens g3 !! phys_screen Q = Some s3)
    by (rewrite Hscr3; apply list_lookup_insert_eq; exact Hlt).
  assert (Hsq3 : exists s4, screens g3 !! screen Q = Some s4).
  { destruct (decide (screen Q = phys_screen Q)) as [E | E].
    - exists s3. rewrite E. exact Hph3.
    - exists ssq. rewrite Hscr3, list_lookup_insert_ne by auto. exact Hsq. }
  destruct Hsq3 as (s4 & Hsq3).
  assert (Htagged : forall i : nat,
             tagged_on p <$> (screens g3 !! i)
             = tagged_on p <$> (screens g !! i)).
  { intros i. rewrite Hscr3.
    apply (lookup_insert_preserve (tagged_on p) (screens g) (phys_screen Q)
             sph s3 i Hph).
    unfold tagged_on. rewrite Htag3, Htag2. reflexivity. }
  (* the registry, the stack and the tags *)
  apply wp_bind, wp_modify. unfold stack_client_remove.
  apply wp_bind, wp_modify.
  apply wp_bind. eapply wp_update_screen; [exact Hsq3|].
  apply wp_bind, wp_get.
  cbn [hooks record set_trace set_screens set_stack set_clients].
  assert (G : forall g4 : globalconf_t,
             heap g4 = h1 ->
             clients g4 = remove_first q (clients g) ->
             stack g4 = remove_first q (stack g) ->
             screens g4
             = <[screen Q := set_tags (map (untag_client q) (tags s4)) s4]>
                 (screens g3) ->
             wp (on_client q (assign (set_invalid true))) g4
               (fun _ g' =>
                  (exists P', heap g' !! p = Some P'
                              /\ P' = set_transient_for None P
                              /\ transient_for P' = None
                              /\ invalid P' = invalid P)
                  /\ p ∈ clients g'
                  /\ (forall scr : nat,
                        outcome (client_maybevisible p scr g')
                        = outcome (client_maybevisible p scr g))
                  /\ (q ∉ clients g') /\ (q ∉ stack g')
                  /\ (exists s, screens g' !! phys_screen Q = Some s
                                /\ scr_client_focus s <> Some q
                                /\ scr_prev_client_focus s <> Some q)
                  /\ (exists Q', heap g' !! q = Some Q'
                                 /\ invalid Q' = true))).
  { intros g4 Hh4 Hc4 Hs4 Hscr4. eapply wp_on_client.
    { rewrite Hh4. exact Hq1. }
    apply wp_assign.
    cbn [fst snd heap clients stack screens set_heap].
    rewrite Hh4, Hc4, Hs4, Hscr4.
    assert (Hp' : <[q := set_invalid true Q1]> h1 !! p
                  = Some (set_transient_for None P))
      by (rewrite lookup_insert_ne by auto; exact Hp1).
    repeat apply conj.
    - eexists. split; [exact Hp'|]. repeat split.
    - apply remove_first_other; assumption.
    - intros scr.
      apply (client_maybevisible_same p scr g _ P (set_transient_for None P));
        [exact Hp | exact Hp' | reflexivity | reflexivity | reflexivity |].
      intros i. cbn [screens set_heap]. rewrite Hscr4, <- Htagged.
      apply (lookup_insert_preserve (tagged_on p) (screens g3) (screen Q) s4
               _ i Hsq3).
      apply tagged_on_untag. exact Hpq.
    - apply remove_first_not_in. exact Hnd.
    - apply remove_first_not_in. exact Hnds.
    - destruct (decide (screen Q = phys_screen Q)) as [E | E].
      + rewrite E in Hsq3 |- *. rewrite Hph3 in Hsq3.
        injection Hsq3 as <-. eexists. split.
        * apply list_lookup_insert_eq. rewrite Hscr3, length_insert.
          exact Hlt.
        * cbn [scr_client_focus scr_prev_client_focus set_tags].
          split; [exact Hfoc3 | rewrite Hprev3; exact Hprev2].
      + exists s3. rewrite list_lookup_insert_ne by exact E.
        split; [exact Hph3|].
        split; [exact Hfoc3 | rewrite Hprev3; exact Hprev2].
    - eexists. split; [apply lookup_insert_eq | reflexivity]. }
  rewrite Hk3, Hk2.
  destruct (hooks_unmanage (hooks g)), (hooks_clients (hooks g));
    unfold emitg, record;
    repeat first [ apply wp_bind | apply wp_modify | apply wp_ret ];
    apply G;
    cbn [heap clients stack screens set_trace set_screens set_stack
         set_clients];
    congruence.
Qed.

(** ** Further properties of resizing and of the border *)

Lemma area_differs_refl (a : area_t) : area_differs a a = false.
Proof using Type. unfold area_differs. rewrite !Z.eqb_refl. reflexivity. Qed.

Lemma area_differs_neq (a b : area_t) : area_differs a b = true -> a <> b.
Proof using Type.
  intros H E. rewrite E, area_differs_refl in H. discriminate H.
Qed.

(** X1: [client_resize] answers "changed" exactly when the stored
    internal rectangle is another one afterwards; an answer "unchanged"
    leaves the client and the globals as they were, and an answer
    "changed" fires the geometry notification last. *)
Theorem client_resize_reports_change (c : client_t) (g : globalconf_t)
    (geom : area_t) (hints : bool) :
  exists b c' g',
    client_resize geom hints (c, g) = inr (b, (c', g'))
    /\ (b = true <-> geometries_internal c' <> geometries_internal c)
    /\ (b = false -> c' = c /\ g' = g)
    /\ (b = true ->
        geometries_internal c' = resize_geometry_internal c geom hints
        /\ geometry c'
           = titlebar_geometry_add (titlebar c) (border c)
               (resize_geometry_internal c geom hints)
        /\ hd_error (trace g') = Some (hook_property (win c) "geometry")).
Proof using Type.
  unfold client_resize, bind, self. cbn [fst snd].
  destruct ((width (resize_geometry_internal c geom hints) =? 0)
            || (height (resize_geometry_internal c geom hints) =? 0)).
  { exists false, c, g. repeat split; try discriminate; congruence. }
  destruct (area_differs (geometries_internal c)
              (resize_geometry_internal c geom hints)) eqn:E.
  - eexists. eexists. eexists. split; [reflexivity|].
    cbn. repeat split; try discriminate; try reflexivity.
    intros _ H. apply area_differs_neq in E. congruence.
  - exists false, c, g. repeat split; try discriminate; congruence.
Qed.

(** X2: a resize that is applied a second time, with the same rectangle
    and the same choice about the hints, answers "unchanged" and changes
    nothing. *)
Theorem client_resize_twice (c : client_t) (g : globalconf_t)
    (geom : area_t) (hints : bool) :
  exists b c' g',
    client_resize geom hints (c, g) = inr (b, (c', g'))
    /\ client_resize geom hints (c', g') = inr (false, (c', g')).
Proof using Type.
  unfold client_resize, bind, self. cbn [fst snd].
  destruct ((width (resize_geometry_internal c geom hints) =? 0)
            || (height (resize_geometry_internal c geom hints) =? 0)) eqn:Z0.
  { exists false, c, g. split; [reflexivity|]. rewrite Z0. reflexivity. }
  destruct (area_differs (geometries_internal c)
              (resize_geometry_internal c geom hints)) eqn:E.
  - eexists. eexists. eexists. split; [reflexivity|].
    cbn [fst snd].
    match goal with
    | |- context [resize_geometry_internal ?c' geom hints] =>
        change (resize_geometry_internal c' geom hints)
          with (resize_geometry_internal c geom hints)
    end.
    rewrite Z0. cbn [geometries_internal set_screen set_geometry
                     set_geometries_internal].
    rewrite area_differs_refl. reflexivity.
  - exists false, c, g. split; [reflexivity|]. rewrite Z0, E. reflexivity.
Qed.

Lemma wrap_u16_add_l (a b : Z) : wrap_u16 (wrap_u16 a + b) = wrap_u16 (a + b).
Proof using Type. unfold wrap_u16. apply Z.add_mod_idemp_l. lia. Qed.

(** X3: on a client on which the border is not refused, a call of the
    border-width setter with a new width that is not negative sets the
    border, widens or narrows the outer rectangle by twice the
    difference on both sides (modulo 2^16), keeps its corner and the
    internal rectangle, and fires the notification last. *)
Theorem client_setborder_effect (c : client_t) (g : globalconf_t)
    (bwidth : Z) :
  0 <= bwidth -> bwidth <> border c ->
  (0 < bwidth -> borderless_type (type c) || isfullscreen c = false) ->
  exists c' g',
    client_setborder bwidth (c, g) = inr (tt, (c', g'))
    /\ border c' = bwidth
    /\ geometry c'
       = mk_area (x (geometry c)) (y (geometry c))
           (wrap_u16 (width (geometry c) + 2 * (bwidth - border c)))
           (wrap_u16 (height (geometry c) + 2 * (bwidth - border c)))
    /\ geometries_internal c' = geometries_internal c
    /\ hd_error (trace g') = Some (hook_property (win c) "border_width").
Proof using Type.
  intros Hpos Hne Hok. unfold client_setborder, bind, self. cbn [fst snd].
  assert (E1 : (bwidth >? 0) && (borderless_type (type c) || isfullscreen c)
               = false).
  { destruct (Z.gtb_spec bwidth 0) as [Hgt | Hle]; [|reflexivity].
    rewrite Hok by lia. reflexivity. }
  assert (E2 : (bwidth =? border c) || (bwidth <? 0) = false).
  { destruct (Z.eqb_spec bwidth (border c)); [contradiction|].
    destruct (Z.ltb_spec bwidth 0); [lia | reflexivity]. }
  rewrite E1, E2. eexists. eexists. split; [reflexivity|].
  cbn -[Z.mul Z.add Z.sub Z.opp wrap_u16 grow]. repeat split. unfold grow.
  cbn [x y width height set_width set_height].
  rewrite !wrap_u16_add_l. unfold set_height, set_width.
  cbn [x y width height]. f_equal; f_equal; lia.
Qed.

(** What a call of the border-width setter that is not refused and
    changes the width leaves of the client. *)
Lemma client_setborder_changes (c : client_t) (g : globalconf_t)
    (bwidth : Z) :
  0 <= bwidth -> bwidth <> border c ->
  (0 < bwidth -> borderless_type (type c) || isfullscreen c = false) ->
  exists c' g',
    client_setborder bwidth (c, g) = inr (tt, (c', g'))
    /\ border c' = bwidth
    /\ geometry c'
       = mk_area (x (geometry c)) (y (geometry c))
           (wrap_u16 (width (geometry c) + 2 * (bwidth - border c)))
           (wrap_u16 (height (geometry c) + 2 * (bwidth - border c)))
    /\ type c' = type c /\ isfullscreen c' = isfullscreen c.
Proof using Type.
  intros Hpos Hne Hok. unfold client_setborder, bind, self. cbn [fst snd].
  assert (E1 : (bwidth >? 0) && (borderless_type (type c) || isfullscreen c)
               = false).
  { destruct (Z.gtb_spec bwidth 0) as [Hgt | Hle]; [|reflexivity].
    rewrite Hok by lia. reflexivity. }
  assert (E2 : (bwidth =? border c) || (bwidth <? 0) = false).
  { destruct (Z.eqb_spec bwidth (border c)); [contradiction|].
    destruct (Z.ltb_spec bwidth 0); [lia | reflexivity]. }
  rewrite E1, E2. eexists. eexists. split; [reflexivity|].
  cbn -[Z.mul Z.add Z.sub Z.opp wrap_u16 grow]. repeat split. unfold grow.
  cbn [x y width height set_width set_height].
  rewrite !wrap_u16_add_l. unfold set_height, set_width.
  cbn [x y width height]. f_equal; f_equal; lia.
Qed.

(** X4: changing the border and changing it back restores the border and
    the outer rectangle, for a client whose rectangle holds 16-bit
    sizes. *)
Theorem client_setborder_round_trip (c : client_t) (g : globalconf_t)
    (bwidth : Z) :
  0 <= border c -> 0 <= bwidth ->
  borderless_type (type c) || isfullscreen c = false ->
  0 <= width (geometry c) < 65536 -> 0 <= height (geometry c) < 65536 ->
  exists c1 g1 c2 g2,
    client_setborder bwidth (c, g) = inr (tt, (c1, g1))
    /\ client_setborder (border c) (c1, g1) = inr (tt, (c2, g2))
    /\ border c2 = border c /\ geometry c2 = geometry c.
Proof using Type.
  intros Hb Hw Hok Hgw Hgh.
  destruct (Z.eq_dec bwidth (border c)) as [-> | Hne].
  { exists c, g, c, g.
    assert (E : client_setborder (border c) (c, g) = inr (tt, (c, g))).
    { unfold client_setborder, bind, self. cbn [fst snd].
      rewrite Hok, andb_false_r, Z.eqb_refl. reflexivity. }
    repeat split; exact E. }
  destruct (client_setborder_changes c g bwidth Hw Hne (fun _ => Hok))
    as (c1 & g1 & Hr1 & Hb1 & Hg1 & Hty & Hfs).
  destruct (client_setborder_changes c1 g1 (border c)) as
    (c2 & g2 & Hr2 & Hb2 & Hg2 & _ & _).
  { exact Hb. }
  { rewrite Hb1. auto. }
  { intros _. rewrite Hty, Hfs. exact Hok. }
  exists c1, g1, c2, g2. repeat split; try assumption.
  rewrite Hg2, Hg1, Hb1. cbn [x y width height].
  rewrite !wrap_u16_add_l.
  replace (width (geometry c) + 2 * (bwidth - border c)
           + 2 * (border c - bwidth)) with (width (geometry c)) by lia.
  replace (height (geometry c) + 2 * (bwidth - border c)
           + 2 * (border c - bwidth)) with (height (geometry c)) by lia.
  rewrite !wrap_u16_small by assumption.
  destruct (geometry c). reflexivity.
Qed.

(** ** Further properties of the setters *)

Lemma wp_conj {S A : Type} (m : M S A) (s : S) (Q1 Q2 : A -> S -> Prop) :
  wp m s Q1 -> wp m s Q2 -> wp m s (fun a s' => Q1 a s' /\ Q2 a s').
Proof using Type.
  unfold wp. destruct (m s) as [f | [a s']]; intros H1 H2; [exact H1 | auto].
Qed.

Ltac border_solve :=
  unfold keeps_border in *;
  repeat match goal with
         | H : _ /\ _ |- _ => destruct H
         end;
  cbn [border border_fs type fst snd set_isfullscreen set_ismaxhoriz
       set_ismaxvert set_isabove set_isbelow set_isontop set_geometry
       set_geometries_internal set_geometries_max set_geometries_fullscreen
       set_screen set_border set_border_fs] in *;
  repeat split; congruence.

Lemma client_resize_border (geom : area_t) (hints : bool) (c : client_t)
    (g : globalconf_t) :
  wp (client_resize geom hints) (c, g) (fun _ s' => keeps_border c (fst s')).
Proof using Type.
  unfold client_resize, do_screen_client_moveto. wp_steps; repeat split.
Qed.

Lemma client_setmaxhoriz_off_border (n : nat) (c : client_t)
    (g : globalconf_t) :
  wp (client_setmaxhoriz (S n) false) (c, g)
    (fun _ s' => keeps_border c (fst s')).
Proof using Type.
  cbn [client_setmaxhoriz]. wp_steps; [|repeat split].
  wp_call client_resize_border. wp_steps. border_solve.
Qed.

Lemma client_setmaxvert_off_border (n : nat) (c : client_t)
    (g : globalconf_t) :
  wp (client_setmaxvert (S n) false) (c, g)
    (fun _ s' => keeps_border c (fst s')).
Proof using Type.
  cbn [client_setmaxvert]. wp_steps; [|repeat split].
  wp_call client_resize_border. wp_steps. border_solve.
Qed.

Lemma client_setabove_off_border (n : nat) (c : client_t) (g : globalconf_t) :
  wp (client_setabove (S n) false) (c, g)
    (fun _ s' => keeps_border c (fst s')).
Proof using Type. cbn [client_setabove]. wp_steps; repeat split. Qed.

Lemma client_setbelow_off_border (n : nat) (c : client_t) (g : globalconf_t) :
  wp (client_setbelow (S n) false) (c, g)
    (fun _ s' => keeps_border c (fst s')).
Proof using Type. cbn [client_setbelow]. wp_steps; repeat split. Qed.

Lemma client_setontop_off_border (n : nat) (c : client_t) (g : globalconf_t) :
  wp (client_setontop (S n) false) (c, g)
    (fun _ s' => keeps_border c (fst s')).
Proof using Type. cbn [client_setontop]. wp_steps; repeat split. Qed.

(** The border-width setter with a width that it does not refuse. *)
Lemma client_setborder_sets (bwidth : Z) (c : client_t) (g : globalconf_t) :
  0 <= bwidth ->
  (0 < bwidth -> borderless_type (type c) || isfullscreen c = false) ->
  wp (client_setborder bwidth) (c, g)
    (fun _ s' => border (fst s') = bwidth
                 /\ border_fs (fst s') = border_fs c
                 /\ type (fst s') = type c
                 /\ same_flags c (fst s')).
Proof using Type.
  intros Hpos Hok. unfold client_setborder.
  wp_step. wp_step.
  destruct ((bwidth >? 0) && (borderless_type (type c) || isfullscreen c))
    eqn:E1.
  { exfalso. apply andb_true_iff in E1 as [E1 E2].
    apply Z.gtb_lt in E1. rewrite Hok in E2 by lia. discriminate E2. }
  destruct ((bwidth =? border c) || (bwidth <? 0)) eqn:E2.
  - apply wp_ret. cbn [fst]. apply orb_true_iff in E2 as [E2 | E2].
    + apply Z.eqb_eq in E2. repeat split. congruence.
    + apply Z.ltb_lt in E2. lia.
  - wp_steps. repeat split.
Qed.

(** X5: going fullscreen takes the border away and saves it; leaving
    fullscreen puts it back, on a client whose type allows a border. *)
Theorem fullscreen_border_round_trip (n : nat) (c : client_t)
    (g : globalconf_t) :
  isfullscreen c = false -> 0 <= border c ->
  borderless_type (type c) = false ->
  exists c1 g1 c2 g2,
    client_setfullscreen (S (S n)) true (c, g) = inr (tt, (c1, g1))
    /\ isfullscreen c1 = true /\ border c1 = 0 /\ border_fs c1 = border c
    /\ client_setfullscreen (S (S n)) false (c1, g1) = inr (tt, (c2, g2))
    /\ isfullscreen c2 = false /\ border c2 = border c.
Proof using Type.
  intros Hfs Hb Hty.
  assert (W1 : wp (client_setfullscreen (S (S n)) true) (c, g)
                 (fun _ s' => isfullscreen (fst s') = true
                              /\ border (fst s') = 0
                              /\ border_fs (fst s') = border c
                              /\ type (fst s') = type c)).
  { cbn [client_setfullscreen]. wp_step. wp_step. rewrite Hfs.
    cbn [eqb negb]. wp_steps.
    eapply wp_mono;
      [apply wp_conj;
       [apply client_setmaxhoriz_off | apply client_setmaxhoriz_off_border]|].
    intros ? [c1 g1] [F1 B1]. cbn [fst snd] in *. wp_steps.
    eapply wp_mono;
      [apply wp_conj;
       [apply client_setmaxvert_off | apply client_setmaxvert_off_border]|].
    intros ? [c2 g2] [F2 B2]. cbn [fst snd] in *. wp_steps.
    eapply wp_mono;
      [apply wp_conj;
       [apply client_setbelow_off | apply client_setbelow_off_border]|].
    intros ? [c3 g3] [F3 B3]. cbn [fst snd] in *. wp_steps.
    eapply wp_mono;
      [apply wp_conj;
       [apply client_setabove_off | apply client_setabove_off_border]|].
    intros ? [c4 g4] [F4 B4]. cbn [fst snd] in *. wp_steps.
    eapply wp_mono;
      [apply wp_conj;
       [apply client_setontop_off | apply client_setontop_off_border]|].
    intros ? [c5 g5] [F5 B5]. cbn [fst snd] in *. wp_steps.
    eapply wp_mono; [apply client_setborder_sets; [lia | lia]|].
    intros ? [c6 g6] (B6 & S6 & T6 & F6). cbn [fst snd] in *. wp_steps.
    eapply wp_mono;
      [apply wp_conj; [apply client_resize_flags | apply client_resize_border]|].
    intros ? [c7 g7] [F7 B7]. cbn [fst snd] in *. wp_steps.
    unfold keeps_border, same_flags, flags_are in *.
    cbn [border border_fs type isfullscreen fst snd set_isfullscreen
         set_geometries_fullscreen set_border_fs] in *.
    repeat match goal with
           | H : _ /\ _ |- _ => destruct H
           end.
    repeat split; congruence. }
  apply wp_run in W1 as ([] & [c1 g1] & Hr1 & Hf1 & Hb1 & Hs1 & Ht1).
  cbn [fst] in *.
  assert (W2 : wp (client_setfullscreen (S (S n)) false) (c1, g1)
                 (fun _ s' => isfullscreen (fst s') = false
                              /\ border (fst s') = border c)).
  { cbn [client_setfullscreen]. wp_step. wp_step. rewrite Hf1.
    cbn [eqb negb]. wp_steps.
    eapply wp_mono.
    { apply client_setborder_sets.
      - cbn [border_fs set_isfullscreen]. lia.
      - intros _. cbn [type isfullscreen set_isfullscreen].
        rewrite Ht1, Hty. reflexivity. }
    intros ? [c6 g6] (B6 & S6 & T6 & F6). cbn [fst snd] in *. wp_steps.
    eapply wp_mono;
      [apply wp_conj; [apply client_resize_flags | apply client_resize_border]|].
    intros ? [c7 g7] [F7 B7]. cbn [fst snd] in *. wp_steps.
    unfold keeps_border, same_flags, flags_are in *.
    cbn [border border_fs type isfullscreen fst snd set_isfullscreen] in *.
    repeat match goal with
           | H : _ /\ _ |- _ => destruct H
           end.
    repeat split; congruence. }
  apply wp_run in W2 as ([] & [c2 g2] & Hr2 & Hf2 & Hb2).
  exists c1, g1, c2, g2. repeat split; assumption.
Qed.

(** X6: a setter of a special layer, called with [true] on a client whose
    flag is clear, leaves the client in that layer for the stacking
    engine. *)
Theorem setter_then_layer (n : nat) (c : client_t) (g : globalconf_t) :
  (isontop c = false ->
   exists c' g', client_setontop (S (S n)) true (c, g) = inr (tt, (c', g'))
                 /\ client_layer_translator c' = LAYER_ONTOP)
  /\ (isfullscreen c = false ->
      exists c' g',
        client_setfullscreen (S (S n)) true (c, g) = inr (tt, (c', g'))
        /\ client_layer_translator c' = LAYER_FULLSCREEN)
  /\ (isabove c = false ->
      exists c' g', client_setabove (S (S n)) true (c, g) = inr (tt, (c', g'))
                    /\ client_layer_translator c' = LAYER_ABOVE)
  /\ (isbelow c = false ->
      exists c' g', client_setbelow (S (S n)) true (c, g) = inr (tt, (c', g'))
                    /\ client_layer_translator c' = LAYER_BELOW).
Proof using Type.
  repeat apply conj; intros E.
  - destruct (proj1 (wp_run _ _ _) (client_setontop_on n c g E))
      as ([] & [c' g'] & Hr & H1 & H2 & H3 & H4 & H5 & H6).
    exists c', g'. split; [exact Hr|]. cbn [fst] in *.
    unfold client_layer_translator. rewrite H6. reflexivity.
  - destruct (proj1 (wp_run _ _ _) (client_setfullscreen_on n c g E))
      as ([] & [c' g'] & Hr & H1 & H2 & H3 & H4 & H5 & H6).
    exists c', g'. split; [exact Hr|]. cbn [fst] in *.
    unfold client_layer_translator. rewrite H6, H1. reflexivity.
  - destruct (proj1 (wp_run _ _ _) (client_setabove_on n c g E))
      as ([] & [c' g'] & Hr & H1 & H2 & H3 & H4 & H5 & H6).
    exists c', g'. split; [exact Hr|]. cbn [fst] in *.
    unfold client_layer_translator. rewrite H6, H1, H4. reflexivity.
  - destruct (proj1 (wp_run _ _ _) (client_setbelow_on n c g E))
      as ([] & [c' g'] & Hr & H1 & H2 & H3 & H4 & H5 & H6).
    exists c', g'. split; [exact Hr|]. cbn [fst] in *.
    unfold client_layer_translator. rewrite H6, H1, H4, H5. reflexivity.
Qed.

(** X7: fullscreen and maximized exclude each other.  Going fullscreen
    clears both maximized flags; maximizing along one axis clears
    fullscreen and leaves the other axis and the special layers as they
    were. *)
Theorem fullscreen_excludes_maximized (n : nat) (c : client_t)
    (g : globalconf_t) :
  (isfullscreen c = false ->
   exists c' g',
     client_setfullscreen (S (S n)) true (c, g) = inr (tt, (c', g'))
     /\ isfullscreen c' = true /\ ismaxhoriz c' = false
     /\ ismaxvert c' = false)
  /\ (ismaxhoriz c = false ->
      exists c' g',
        client_setmaxhoriz (S (S n)) true (c, g) = inr (tt, (c', g'))
        /\ ismaxhoriz c' = true /\ isfullscreen c' = false
        /\ ismaxvert c' = ismaxvert c /\ isabove c' = isabove c
        /\ isbelow c' = isbelow c /\ isontop c' = isontop c)
  /\ (ismaxvert c = false ->
      exists c' g',
        client_setmaxvert (S (S n)) true (c, g) = inr (tt, (c', g'))
        /\ ismaxvert c' = true /\ isfullscreen c' = false
        /\ ismaxhoriz c' = ismaxhoriz c /\ isabove c' = isabove c
        /\ isbelow c' = isbelow c /\ isontop c' = isontop c).
Proof using Type.
  repeat apply conj; intros E.
  - destruct (proj1 (wp_run _ _ _) (client_setfullscreen_on n c g E))
      as ([] & [c' g'] & Hr & H1 & H2 & H3 & H4 & H5 & H6).
    exists c', g'. cbn [fst] in *. repeat split; assumption.
  - destruct (proj1 (wp_run _ _ _) (client_setmaxhoriz_on n c g E))
      as ([] & [c' g'] & Hr & H1 & H2 & H3 & H4 & H5 & H6).
    exists c', g'. cbn [fst] in *. repeat split; assumption.
  - destruct (proj1 (wp_run _ _ _) (client_setmaxvert_on n c g E))
      as ([] & [c' g'] & Hr & H1 & H2 & H3 & H4 & H5 & H6).
    exists c', g'. cbn [fst] in *. repeat split; assumption.
Qed.

(** What a setter that changes its flag leaves in the globals. *)
Ltac notify_solve :=
  cbn [fst snd trace hd_error client_need_stack_refresh record set_trace
       set_client_need_stack_refresh set_need_reban];
  split; [reflexivity | intros Hm; try discriminate Hm; reflexivity].

Ltac through L := wp_call L; wp_steps.

(** X8: a setter called with a value other than the one its flag has
    gives the flag that value and fires the notification of its own
    property last; and every setter but those of sticky, minimized and
    urgent has called [client_stack] by then, which leaves the stacking
    engine dirty. *)
Theorem setter_change_notifies (n : nat) (x : setter) (v : bool)
    (c : client_t) (g : globalconf_t) :
  flag_of x c <> v ->
  exists c' g',
    run_setter (S (S n)) x v (c, g) = inr (tt, (c', g'))
    /\ flag_of x c' = v
    /\ hd_error (trace g') = Some (hook_property (win c) (property_name x))
    /\ (marks_stack x = true -> client_need_stack_refresh g' = true).
Proof using Type.
  intros E.
  enough (W : wp (run_setter (S (S n)) x v) (c, g)
                (fun _ s' =>
                   hd_error (trace (snd s'))
                   = Some (hook_property (win c) (property_name x))
                   /\ (marks_stack x = true ->
                       client_need_stack_refresh (snd s') = true))).
  { pose proof (wp_conj _ _ _ _ (setter_sets_flag n x v c g) W) as W2.
    apply wp_run in W2 as ([] & [c' g'] & Hr & HQ). exists c', g'.
    cbn [fst snd] in HQ. tauto. }
  assert (Ev : eqb (flag_of x c) v = false)
    by (apply eqb_false_iff; exact E).
  destruct x; destruct v;
    cbn [flag_of run_setter property_name marks_stack] in *;
    [ cbn [client_setfullscreen] | cbn [client_setfullscreen]
    | cbn [client_setmaxhoriz] | cbn [client_setmaxhoriz]
    | cbn [client_setmaxvert] | cbn [client_setmaxvert]
    | cbn [client_setabove] | cbn [client_setabove]
    | cbn [client_setbelow] | cbn [client_setbelow]
    | cbn [client_setontop] | cbn [client_setontop]
    | unfold client_setsticky | unfold client_setsticky
    | unfold client_setminimized | unfold client_setminimized
    | unfold client_setmodal | unfold client_setmodal
    | unfold client_seturgent | unfold client_seturgent ];
    wp_step; wp_step; rewrite Ev; cbn [negb]; wp_steps.
  - through client_setmaxhoriz_off. through client_setmaxvert_off.
    through client_setbelow_off. through client_setabove_off.
    through client_setontop_off. through client_setborder_flags.
    through client_resize_flags. notify_solve.
  - through client_setborder_flags. through client_resize_flags.
    notify_solve.
  - through client_setfullscreen_off. through client_resize_flags.
    notify_solve.
  - through client_resize_flags. notify_solve.
  - through client_setfullscreen_off. through client_resize_flags.
    notify_solve.
  - through client_resize_flags. notify_solve.
  - through client_setbelow_off. through client_setontop_off.
    through client_setfullscreen_off. notify_solve.
  - notify_solve.
  - through client_setabove_off. through client_setontop_off.
    through client_setfullscreen_off. notify_solve.
  - notify_solve.
  - through client_setabove_off. through client_setbelow_off.
    through client_setfullscreen_off. notify_solve.
  - notify_solve.
  - notify_solve.
  - notify_solve.
  - notify_solve.
  - notify_solve.
  - notify_solve.
  - notify_solve.
  - notify_solve.
  - notify_solve.
Qed.

(** ** Further properties of the stacking engine *)

Lemma bind_inr {S A B : Type} (m : M S A) (k : A -> M S B) (s : S) (b : B)
    (s' : S) :
  bind m k s = inr (b, s') ->
  exists a s1, m s = inr (a, s1) /\ k a s1 = inr (b, s').
Proof using Type.
  unfold bind. destruct (m s) as [f | [a s1]]; intros H; [discriminate H|].
  exists a, s1. split; [reflexivity | exact H].
Qed.

Lemma restacked_refl (g : globalconf_t) : restacked g g.
Proof using Type.
  exists []. split; [symmetry; apply set_trace_same | constructor].
Qed.

Lemma restacked_trans (g1 g2 g3 : globalconf_t) :
  restacked g1 g2 -> restacked g2 g3 -> restacked g1 g3.
Proof using Type.
  intros (e1 & -> & F1) (e2 & -> & F2). exists (e2 ++ e1). split.
  - cbn [trace set_trace]. rewrite app_assoc. reflexivity.
  - apply Forall_app. split; assumption.
Qed.

Lemma restacked_record (w sibling : xcb_window_t) (g : globalconf_t) :
  restacked g (record (xcb_configure_window_stack w sibling) g).
Proof using Type.
  exists [xcb_configure_window_stack w sibling]. split; [reflexivity|].
  repeat constructor.
Qed.

Lemma foreach_restacked {A B : Type} (body : A -> B -> M globalconf_t B)
    (l : list A) :
  (forall (a : A) (acc : B) (g : globalconf_t) (r : B) (g' : globalconf_t),
     body a acc g = inr (r, g') -> restacked g g') ->
  forall (acc : B) (g : globalconf_t) (r : B) (g' : globalconf_t),
    foreach l acc body g = inr (r, g') -> restacked g g'.
Proof using Type.
  intros Hb. induction l as [| a l IH]; intros acc g r g' H; cbn [foreach] in H.
  - injection H as <- <-. apply restacked_refl.
  - apply bind_inr in H as (acc' & g1 & H1 & H2).
    eapply restacked_trans; [eapply Hb, H1 | eapply IH, H2].
Qed.

Lemma client_stack_above_restacked (fuel : nat) (c : client_p)
    (previous : xcb_window_t) (g : globalconf_t) (r : xcb_window_t)
    (g' : globalconf_t) :
  client_stack_above fuel c previous g = inr (r, g') -> restacked g g'.
Proof using Type.
  revert c previous g r g'.
  induction fuel as [| fuel IH]; intros c previous g r g' H;
    cbn [client_stack_above] in H; [discriminate H|].
  apply bind_inr in H as (cl & g1 & H1 & H).
  unfold deref in H1. destruct (heap g !! c); [|discriminate H1].
  injection H1 as <- <-.
  apply bind_inr in H as ([] & g1 & H1 & H). injection H1 as <-.
  apply bind_inr in H as (p & g2 & H2 & H).
  apply bind_inr in H as (g3 & g4 & H3 & H). injection H3 as <- <-.
  assert (R2 : restacked g g2).
  { eapply restacked_trans; [apply restacked_record|].
    destruct (titlebar c0).
    - apply bind_inr in H2 as ([] & g5 & H5 & H2).
      injection H5 as <-. injection H2 as <- <-. apply restacked_record.
    - injection H2 as <- <-. apply restacked_refl. }
  eapply restacked_trans; [exact R2|].
  eapply foreach_restacked; [|exact H].
  intros node acc ga ra ga' Hn.
  apply bind_inr in Hn as (n & gb & Hd & Hn).
  unfold deref in Hd. destruct (heap ga !! node); [|discriminate Hd].
  injection Hd as <- <-.
  destruct (points_to (transient_for c1) c).
  - eapply IH, Hn.
  - injection Hn as <- <-. apply restacked_refl.
Qed.

Lemma stack_layer_restacked (fuel : nat) (layer : layer_t)
    (previous : xcb_window_t) (g : globalconf_t) (r : xcb_window_t)
    (g' : globalconf_t) :
  stack_layer fuel layer previous g = inr (r, g') -> restacked g g'.
Proof using Type.
  unfold stack_layer. intros H.
  apply bind_inr in H as (g1 & g2 & H1 & H). injection H1 as <- <-.
  eapply foreach_restacked; [|exact H].
  intros node acc ga ra ga' Hn.
  apply bind_inr in Hn as (n & gb & Hd & Hn).
  unfold deref in Hd. destruct (heap ga !! node); [|discriminate Hd].
  injection Hd as <- <-.
  destruct (Nat.eqb _ _).
  - eapply client_stack_above_restacked, Hn.
  - injection Hn as <- <-. apply restacked_refl.
Qed.

Lemma stack_wiboxes_restacked (top : bool) (previous : xcb_window_t)
    (g : globalconf_t) (r : xcb_window_t) (g' : globalconf_t) :
  stack_wiboxes top previous g = inr (r, g') -> restacked g g'.
Proof using Type.
  unfold stack_wiboxes. intros H.
  apply bind_inr in H as (g1 & g2 & H1 & H). injection H1 as <- <-.
  eapply foreach_restacked; [|exact H].
  intros sb acc ga ra ga' Hn. cbn beta in Hn.
  destruct (eqb (ontop sb) top).
  - apply bind_inr in Hn as ([] & gb & Hd & Hn).
    injection Hd as <-. injection Hn as <- <-. apply restacked_record.
  - injection Hn as <- <-. apply restacked_refl.
Qed.

(** X9: whenever [client_stack_refresh] returns, it has only cleared the
    dirty flag and added requests to restack windows to the trace: the
    registry, the stack, the screens, the wiboxes and every client
    object are as before; and a second refresh changes nothing. *)
Theorem client_stack_refresh_frame (fuel : nat) (g g' : globalconf_t) :
  client_stack_refresh fuel g = inr (tt, g') ->
  (exists ev,
     g' = set_trace (ev ++ trace g) (set_client_need_stack_refresh false g)
     /\ Forall is_restack ev)
  /\ forall fuel', client_stack_refresh fuel' g' = inr (tt, g').
Proof using Type.
  clear screen_getbycoord screen_area_get display_area_get WM_TAKE_FOCUS
    titlebar_geometry_remove titlebar_geometry_add.
  intros H.
  assert (G : exists ev,
             g' = set_trace (ev ++ trace g)
                    (set_client_need_stack_refresh false g)
             /\ Forall is_restack ev).
  { unfold client_stack_refresh in H.
    apply bind_inr in H as (g0 & g1 & H0 & H). injection H0 as <- <-.
    destruct (client_need_stack_refresh g) eqn:Hd; cbn [negb] in H.
    - apply bind_inr in H as ([] & g1 & H1 & H). injection H1 as <-.
      apply bind_inr in H as (p1 & g2 & H2 & H).
      apply bind_inr in H as (p2 & g3 & H3 & H).
      apply bind_inr in H as (p3 & g4 & H4 & H).
      apply bind_inr in H as (p4 & g5 & H5 & H). injection H as <-.
      assert (R : restacked (set_client_need_stack_refresh false g) g5).
      { eapply restacked_trans;
          [eapply foreach_restacked;
           [intros ? ? ? ? ?; apply stack_layer_restacked | exact H2]|].
        eapply restacked_trans; [eapply stack_wiboxes_restacked, H3|].
        eapply restacked_trans;
          [eapply foreach_restacked;
           [intros ? ? ? ? ?; apply stack_layer_restacked | exact H4]|].
        eapply stack_wiboxes_restacked, H5. }
      exact R.
    - injection H as <-. exists []. split; [|constructor].
      destruct g. cbn in Hd |- *. rewrite Hd. reflexivity. }
  split; [exact G|].
  destruct G as (ev & -> & _). intros fuel'. reflexivity.
Qed.

Lemma restacked_heap (g g' : globalconf_t) :
  restacked g g' -> heap g' = heap g /\ stack g' = stack g.
Proof using Type. intros (ev & -> & _). split; reflexivity. Qed.

(** [client_stack_above] on a client of the stack that is transient for
    itself calls itself on that client again. *)
Lemma client_stack_above_loops (c : client_p) (cl : client_t)
    (g : globalconf_t) :
  heap g !! c = Some cl -> transient_for cl = Some c -> c ∈ stack g ->
  forall (fuel : nat) (previous : xcb_window_t),
    exists f, client_stack_above fuel c previous g = inl f.
Proof using Type.
  clear screen_getbycoord screen_area_get display_area_get WM_TAKE_FOCUS
    titlebar_geometry_remove titlebar_geometry_add.
  intros Hc Ht Hin fuel. revert g Hc Hin.
  induction fuel as [| fuel IH]; intros g Hc Hin previous;
    cbn [client_stack_above]; [exists OutOfFuel; reflexivity|].
  unfold bind at 1, deref. rewrite Hc.
  unfold bind at 1, emitg, modify.
  set (g1 := record (xcb_configure_window_stack (win cl) previous) g).
  assert (Hloop : forall (l : list client_p) (acc : xcb_window_t)
                    (ga : globalconf_t),
             c ∈ l -> heap ga = heap g -> stack ga = stack g ->
             exists f,
               foreach l acc
                 (fun node previous =>
                    let* n := deref node in
                    if points_to (transient_for n) c
                    then client_stack_above fuel node previous
                    else ret previous) ga = inl f).
  { intros l. induction l as [| e l IHl]; intros acc ga Hl Hh Hs.
    - apply elem_of_nil in Hl. contradiction.
    - cbn [foreach]. unfold bind at 1.
      destruct (decide (e = c)) as [-> | Hne].
      + unfold bind at 1, deref. rewrite Hh, Hc, Ht. cbn [points_to].
        rewrite Nat.eqb_refl.
        destruct (IH ga) with (previous := acc) as (f & Hf).
        * rewrite Hh. exact Hc.
        * rewrite Hs. exact Hin.
        * rewrite Hf. exists f. reflexivity.
      + apply elem_of_cons in Hl as [-> | Hl]; [contradiction|].
        destruct ((let* n := deref e in
                   if points_to (transient_for n) c
                   then client_stack_above fuel e acc
                   else ret acc) ga) as [f | [acc' gb]] eqn:Hb;
          [exists f; reflexivity|].
        assert (R : restacked ga gb).
        { apply bind_inr in Hb as (n & gd & Hd & Hb).
          unfold deref in Hd. destruct (heap ga !! e); [|discriminate Hd].
          injection Hd as <- <-.
          destruct (points_to (transient_for c0) c).
          - eapply client_stack_above_restacked, Hb.
          - injection Hb as <- <-. apply restacked_refl. }
        apply restacked_heap in R as [Rh Rs].
        apply IHl; [exact Hl | congruence | congruence]. }
  assert (Htail : forall (p : xcb_window_t) (ga : globalconf_t),
             heap ga = heap g -> stack ga = stack g ->
             exists f,
               (let* g0 := get in
                foreach (stack g0) p
                  (fun node previous =>
                     let* n := deref node in
                     if points_to (transient_for n) c
                     then client_stack_above fuel node previous
                     else ret previous)) ga = inl f).
  { intros p ga Hh Hs. unfold bind at 1, get. apply Hloop.
    - rewrite Hs. exact Hin.
    - exact Hh.
    - exact Hs. }
  destruct (titlebar cl) as [tb |].
  - unfold bind at 1. unfold bind at 1, emitg, modify. cbn beta iota.
    unfold ret at 1. cbn beta iota. apply Htail; reflexivity.
  - unfold bind at 1, ret at 1. cbn beta iota. apply Htail; reflexivity.
Qed.

Lemma stack_layer_loops (c : client_p) (cl : client_t) (g : globalconf_t)
    (fuel : nat) (previous : xcb_window_t) :
  heap g !! c = Some cl -> transient_for cl = Some c -> c ∈ stack g ->
  exists f,
    stack_layer fuel (client_layer_translator cl) previous g = inl f.
Proof using Type.
  intros Hc Ht Hin. unfold stack_layer. unfold bind at 1, get.
  assert (Hloop : forall (l : list client_p) (acc : xcb_window_t)
                    (ga : globalconf_t),
             c ∈ l -> heap ga = heap g -> stack ga = stack g ->
             exists f,
               foreach l acc
                 (fun node previous =>
                    let* n := deref node in
                    if Nat.eqb (layer_val (client_layer_translator n))
                         (layer_val (client_layer_translator cl))
                    then client_stack_above fuel node previous
                    else ret previous) ga = inl f).
  { intros l. induction l as [| e l IHl]; intros acc ga Hl Hh Hs.
    - apply elem_of_nil in Hl. contradiction.
    - cbn [foreach]. unfold bind at 1.
      destruct (decide (e = c)) as [-> | Hne].
      + unfold bind at 1, deref. rewrite Hh, Hc, Nat.eqb_refl.
        destruct (client_stack_above_loops c cl ga) with
          (fuel := fuel) (previous := acc) as (f & Hf).
        * rewrite Hh. exact Hc.
        * exact Ht.
        * rewrite Hs. exact Hin.
        * rewrite Hf. exists f. reflexivity.
      + apply elem_of_cons in Hl as [-> | Hl]; [contradiction|].
        destruct ((let* n := deref e in
                   if Nat.eqb (layer_val (client_layer_translator n))
                        (layer_val (client_layer_translator cl))
                   then client_stack_above fuel e acc
                   else ret acc) ga) as [f | [acc' gb]] eqn:Hb;
          [exists f; reflexivity|].
        assert (R : restacked ga gb).
        { apply bind_inr in Hb as (n & gd & Hd & Hb).
          unfold deref in Hd. destruct (heap ga !! e); [|discriminate Hd].
          injection Hd as <- <-.
          destruct (Nat.eqb _ _).
          - eapply client_stack_above_restacked, Hb.
          - injection Hb as <- <-. apply restacked_refl. }
        apply restacked_heap in R as [Rh Rs].
        apply IHl; [exact Hl | congruence | congruence]. }
  apply Hloop; [exact Hin | reflexivity | reflexivity].
Qed.

Lemma layers_loop (c : client_p) (cl : client_t) (g : globalconf_t)
    (fuel : nat) (layers : list layer_t) :
  heap g !! c = Some cl -> transient_for cl = Some c -> c ∈ stack g ->
  In (client_layer_translator cl) layers ->
  forall (previous : xcb_window_t) (ga : globalconf_t),
    heap ga = heap g -> stack ga = stack g ->
    exists f, foreach layers previous (stack_layer fuel) ga = inl f.
Proof using Type.
  intros Hc Ht Hin. induction layers as [| layer layers IH];
    intros Hl previous ga Hh Hs; [destruct Hl|].
  cbn [foreach]. unfold bind at 1.
  destruct (stack_layer fuel layer previous ga) as [f | [p gb]] eqn:Hb;
    [exists f; reflexivity|].
  destruct Hl as [-> | Hl].
  - destruct (stack_layer_loops c cl ga fuel previous) as (f & Hf);
      [rewrite Hh; exact Hc | exact Ht | rewrite Hs; exact Hin |].
    rewrite Hf in Hb. discriminate Hb.
  - apply stack_layer_restacked, restacked_heap in Hb as [Rh Rs].
    apply IH; [exact Hl | congruence | congruence].
Qed.

(** X10: nothing stops [client_stack_above] on a client of the stack
    that is transient for itself: it calls itself on that client again
    and again, so it returns with no amount of fuel.  When one of the
    four layer flags of such a client is set, a refresh of the dirty
    stack calls [client_stack_above] on it and does not return either. *)
Theorem client_stack_above_self_transient (c : client_p) (cl : client_t)
    (g : globalconf_t) :
  heap g !! c = Some cl -> transient_for cl = Some c -> c ∈ stack g ->
  forall fuel : nat,
    (forall previous : xcb_window_t,
       exists f, client_stack_above fuel c previous g = inl f)
    /\ (client_need_stack_refresh g = true ->
        isontop cl || isfullscreen cl || isabove cl || isbelow cl = true ->
        exists f, client_stack_refresh fuel g = inl f).
Proof using Type.
  clear screen_getbycoord screen_area_get display_area_get WM_TAKE_FOCUS
    titlebar_geometry_remove titlebar_geometry_add.
  intros Hc Ht Hin fuel. split.
  { intros previous. apply (client_stack_above_loops c cl g Hc Ht Hin). }
  intros Hd Hf. unfold client_stack_refresh.
  unfold bind at 1, get. rewrite Hd. cbn [negb].
  unfold bind at 1, modify.
  set (g1 := set_client_need_stack_refresh false g).
  unfold bind at 1.
  destruct (foreach (layers_from_below LAYER_DESKTOP LAYER_BELOW) XCB_NONE
              (stack_layer fuel) g1) as [f | [p1 g2]] eqn:H1;
    [exists f; reflexivity|].
  assert (R1 : restacked g1 g2).
  { eapply foreach_restacked; [|exact H1].
    intros ? ? ? ? ?. apply stack_layer_restacked. }
  unfold bind at 1.
  destruct (stack_wiboxes false p1 g2) as [f | [p2 g3]] eqn:H2;
    [exists f; reflexivity|].
  apply stack_wiboxes_restacked in H2.
  apply restacked_heap in R1 as [Rh1 Rs1].
  apply restacked_heap in H2 as [Rh2 Rs2].
  unfold bind at 1.
  destruct (layers_loop c cl g fuel (layers_from_below LAYER_BELOW LAYER_COUNT)
              Hc Ht Hin) with (previous := p2) (ga := g3) as (f & Hl).
  - unfold client_layer_translator. rewrite Ht.
    destruct (isontop cl), (isfullscreen cl), (isabove cl), (isbelow cl);
      cbn in Hf |- *; try discriminate Hf; tauto.
  - rewrite Rh2, Rh1. reflexivity.
  - rewrite Rs2, Rs1. reflexivity.
  - rewrite Hl. exists f. reflexivity.
Qed.

Lemma clients_placed_app (l1 l2 : list client_t) (previous : xcb_window_t) :
  clients_placed (l1 ++ l2) previous
  = (fst (clients_placed l1 previous)
     ++ fst (clients_placed l2 (snd (clients_placed l1 previous))),
     snd (clients_placed l2 (snd (clients_placed l1 previous)))).
Proof using Type.
  revert previous. induction l1 as [| cl l1 IH]; intros previous;
    cbn [clients_placed app fst snd].
  - destruct (clients_placed l2 previous). reflexivity.
  - rewrite IH. cbn [fst snd]. rewrite <- app_assoc. reflexivity.
Qed.

Lemma set_trace_twice (t t' : list event) (g : globalconf_t) :
  set_trace t' (set_trace t g) = set_trace t' g.
Proof using Type. reflexivity. Qed.

(** The loop over the transients of [c] in a stack without transients. *)
Lemma no_transients_loop (fuel : nat) (c : client_p) (g : globalconf_t)
    (l : list client_p) (cls : list client_t) (acc : xcb_window_t) :
  Forall2 (fun p cl => heap g !! p = Some cl) l cls ->
  Forall (fun cl => transient_for cl = None) cls ->
  foreach l acc
    (fun node previous =>
       let* n := deref node in
       if points_to (transient_for n) c
       then client_stack_above fuel node previous
       else ret previous) g
  = inr (acc, g).
Proof using Type.
  intros H2. induction H2 as [| p cl l cls Hp H2 IH]; intros Hn;
    cbn [foreach]; [reflexivity|].
  apply Forall_cons in Hn as [Hcl Hn].
  unfold bind at 1. unfold bind at 1, deref. rewrite Hp, Hcl.
  cbn [points_to]. unfold ret at 1. apply IH, Hn.
Qed.

Lemma client_stack_above_leaf (n : nat) (c : client_p) (cl : client_t)
    (previous : xcb_window_t) (g : globalconf_t) (cls : list client_t) :
  heap g !! c = Some cl -> stack_holds g cls ->
  client_stack_above (S n) c previous g
  = inr (top_of cl, set_trace (rev (placed cl previous) ++ trace g) g).
Proof using Type.
  intros Hc [H2 Hn]. cbn [client_stack_above].
  unfold bind at 1, deref. rewrite Hc.
  unfold bind at 1, emitg, modify. unfold placed, top_of.
  destruct (titlebar cl) as [tb |].
  - unfold bind at 1. unfold bind at 1. unfold ret at 1.
    unfold bind at 1, get.
    apply (no_transients_loop n c _ _ cls); assumption.
  - unfold bind at 1, ret at 1. unfold bind at 1, get.
    apply (no_transients_loop n c _ _ cls); assumption.
Qed.

Lemma stack_layer_places (n : nat) (layer : layer_t)
    (previous : xcb_window_t) (g : globalconf_t) (cls : list client_t) :
  stack_holds g cls ->
  let r := clients_placed (List.filter (in_layer layer) cls) previous in
  stack_layer (S n) layer previous g
  = inr (snd r, set_trace (rev (fst r) ++ trace g) g).
Proof using Type.
  intros Hg. cbn zeta. unfold stack_layer. unfold bind at 1, get.
  assert (G : forall (l : list client_p) (cls' : list client_t),
             Forall2 (fun p cl => heap g !! p = Some cl) l cls' ->
             forall (acc : xcb_window_t) (ev : list event),
               foreach l acc
                 (fun node previous =>
                    let* n0 := deref node in
                    if Nat.eqb (layer_val (client_layer_translator n0))
                         (layer_val layer)
                    then client_stack_above (S n) node previous
                    else ret previous) (set_trace (ev ++ trace g) g)
               = inr (snd (clients_placed (List.filter (in_layer layer) cls')
                             acc),
                      set_trace
                        (rev (fst (clients_placed
                                     (List.filter (in_layer layer) cls') acc))
                         ++ ev ++ trace g) g)).
  { intros l cls' H2. induction H2 as [| p cl l cls' Hp H2 IH]; intros acc ev;
      cbn [foreach List.filter]; [reflexivity|].
    unfold bind at 1. unfold bind at 1, deref. cbn [heap set_trace].
    rewrite Hp.
    change (Nat.eqb (layer_val (client_layer_translator cl))
              (layer_val layer)) with (in_layer layer cl).
    destruct (in_layer layer cl).
    - rewrite (client_stack_above_leaf n p cl acc _ cls);
        [| exact Hp | exact Hg].
      cbn [trace set_trace clients_placed fst snd].
      rewrite set_trace_twice, app_assoc, IH, rev_app_distr, <- !app_assoc.
      reflexivity.
    - unfold ret at 1. apply IH. }
  destruct Hg as [H2 Hn].
  specialize (G (stack g) cls H2 previous []). cbn [app] in G.
  rewrite set_trace_same in G. exact G.
Qed.

Lemma stack_holds_trace (t : list event) (g : globalconf_t)
    (cls : list client_t) :
  stack_holds g cls -> stack_holds (set_trace t g) cls.
Proof using Type. intros H. exact H. Qed.

Lemma layers_place (n : nat) (layers : list layer_t) (g : globalconf_t)
    (cls : list client_t) :
  stack_holds g cls ->
  forall previous : xcb_window_t,
    let r := clients_placed (by_layer layers cls) previous in
    foreach layers previous (stack_layer (S n)) g
    = inr (snd r, set_trace (rev (fst r) ++ trace g) g).
Proof using Type.
  intros Hg. cbn zeta. revert g Hg.
  induction layers as [| layer layers IH]; intros g Hg previous;
    cbn [foreach by_layer flat_map].
  - cbn. rewrite set_trace_same. reflexivity.
  - unfold bind at 1. rewrite (stack_layer_places n layer previous g cls Hg).
    fold (by_layer layers cls).
    rewrite IH by (apply stack_holds_trace, Hg).
    rewrite clients_placed_app. cbn [fst snd trace set_trace].
    rewrite set_trace_twice, rev_app_distr, <- !app_assoc. reflexivity.
Qed.

Lemma stack_wiboxes_places (top : bool) (previous : xcb_window_t)
    (g : globalconf_t) :
  let r := wiboxes_placed top (wiboxes g) previous in
  stack_wiboxes top previous g
  = inr (snd r, set_trace (rev (fst r) ++ trace g) g).
Proof using Type.
  cbn zeta.
  assert (W : wp (stack_wiboxes top previous) g
                (fun r g' =>
                   r = snd (wiboxes_placed top (wiboxes g) previous)
                   /\ g' = set_trace
                             (rev (fst (wiboxes_placed top (wiboxes g)
                                          previous)) ++ trace g) g))
    by (apply wp_stack_wiboxes; split; reflexivity).
  apply wp_run in W as (r & g' & Hr & -> & ->). exact Hr.
Qed.

(** X11: a dirty stack without transients is restacked layer by layer:
    the desktop windows, the wiboxes that are not on top, then the
    clients below, normal, above, fullscreen and on top, and last the
    wiboxes on top; within a layer the clients keep the order of the
    stack, and each window is placed on the one before it. *)
Theorem restack_by_layer (n : nat) (g : globalconf_t) (cls : list client_t) :
  client_need_stack_refresh g = true ->
  stack_holds g cls ->
  let desk := clients_placed (by_layer [LAYER_DESKTOP] cls) XCB_NONE in
  let low := wiboxes_placed false (wiboxes g) (snd desk) in
  let mid :=
    clients_placed
      (by_layer [LAYER_BELOW; LAYER_NORMAL; LAYER_ABOVE; LAYER_FULLSCREEN;
                 LAYER_ONTOP] cls) (snd low) in
  let high := wiboxes_placed true (wiboxes g) (snd mid) in
  exists g',
    client_stack_refresh (S n) g = inr (tt, g')
    /\ rev (trace g')
       = rev (trace g) ++ fst desk ++ fst low ++ fst mid ++ fst high
    /\ g' = set_trace (trace g') (set_client_need_stack_refresh false g).
Proof using Type.
  clear screen_getbycoord screen_area_get display_area_get WM_TAKE_FOCUS
    titlebar_geometry_remove titlebar_geometry_add.
  intros Hd Hg desk low mid high.
  unfold client_stack_refresh. unfold bind at 1, get. rewrite Hd.
  cbn [negb]. unfold bind at 1, modify.
  change (layers_from_below LAYER_DESKTOP LAYER_BELOW) with [LAYER_DESKTOP].
  change (layers_from_below LAYER_BELOW LAYER_COUNT)
    with [LAYER_BELOW; LAYER_NORMAL; LAYER_ABOVE; LAYER_FULLSCREEN;
          LAYER_ONTOP].
  set (g1 := set_client_need_stack_refresh false g).
  assert (Hg1 : stack_holds g1 cls) by exact Hg.
  unfold bind at 1. rewrite (layers_place n _ g1 cls Hg1). fold desk.
  unfold bind at 1. rewrite stack_wiboxes_places.
  cbn [wiboxes set_trace]. change (wiboxes g1) with (wiboxes g). fold low.
  unfold bind at 1.
  rewrite set_trace_twice.
  rewrite (layers_place n _ _ cls (stack_holds_trace _ g1 cls Hg1)).
  fold mid. unfold bind at 1. rewrite stack_wiboxes_places.
  cbn [wiboxes set_trace]. change (wiboxes g1) with (wiboxes g). fold high.
  unfold ret. eexists. split; [reflexivity|].
  cbn [trace set_trace]. change (trace g1) with (trace g).
  split; [|reflexivity].
  rewrite !rev_app_distr, !rev_involutive, <- !app_assoc. reflexivity.
Qed.

(** ** Banning and looking up clients *)

(** X12: banning a client that is not banned marks it banned, leaves
    every other client object, the registry and the stack alone, and
    takes the client out of both focus fields of its physical screen; a
    second ban changes nothing. *)
Theorem client_ban_effect (c : client_p) (cl : client_t) (s : screen_t)
    (g : globalconf_t) :
  heap g !! c = Some cl -> isbanned cl = false ->
  screens g !! phys_screen cl = Some s ->
  exists g',
    client_ban c g = inr (tt, g')
    /\ heap g' = <[c := set_isbanned true cl]> (heap g)
    /\ clients g' = clients g /\ stack g' = stack g
    /\ (exists s', screens g' = <[phys_screen cl := s']> (screens g)
                   /\ tags s' = tags s
                   /\ scr_client_focus s' <> Some c
                   /\ scr_prev_client_focus s' <> Some c)
    /\ client_ban c g' = inr (tt, g').
Proof using Type.
  clear screen_getbycoord screen_area_get display_area_get WM_TAKE_FOCUS
    titlebar_geometry_remove titlebar_geometry_add.
  intros Hc Hb Hs.
  enough (W : wp (client_ban c) g
                (fun _ g' =>
                   heap g' = <[c := set_isbanned true cl]> (heap g)
                   /\ clients g' = clients g /\ stack g' = stack g
                   /\ exists s', screens g' = <[phys_screen cl := s']> (screens g)
                                 /\ tags s' = tags s
                                 /\ scr_client_focus s' <> Some c
                                 /\ scr_prev_client_focus s' <> Some c)).
  { apply wp_run in W as ([] & g' & Hr & Hh & Hcs & Hst & Hscr).
    exists g'. repeat (split; [assumption|]).
    unfold client_ban, bind at 1, deref. rewrite Hh, lookup_insert_eq.
    reflexivity. }
  unfold client_ban.
  apply wp_bind. eapply wp_deref; [exact Hc|]. rewrite Hb. cbn [negb].
  apply wp_bind, wp_emitg.
  apply wp_bind. eapply wp_on_client; [exact Hc|]. apply wp_assign.
  cbn [fst snd].
  set (g1 := set_heap _ _).
  assert (Hh1 : heap g1 = <[c := set_isbanned true cl]> (heap g))
    by reflexivity.
  assert (Hc1 : clients g1 = clients g) by reflexivity.
  assert (Hs1 : stack g1 = stack g) by reflexivity.
  assert (Hscr1 : screens g1 = screens g) by reflexivity.
  assert (Hlt : (phys_screen cl < length (screens g))%nat)
    by (eapply lookup_lt_Some; exact Hs).
  apply wp_bind. eapply wp_mono;
    [apply (unmanage_clear_prev c (phys_screen cl) g1 s); exact Hs|].
  intros [] g2 ((Hh2 & Hc2 & Hs2 & Hk2) & s2 & Hscr2 & Htag2 & Hfoc2 & Hprev2).
  assert (Hph2 : screens g2 !! phys_screen cl = Some s2)
    by (rewrite Hscr2; apply list_lookup_insert_eq; exact Hlt).
  eapply wp_mono;
    [apply (unmanage_clear_focus c (set_isbanned true cl) g2 s2);
     [rewrite Hh2, Hh1; apply lookup_insert_eq | exact Hph2]|].
  intros [] g3 ((Hh3 & Hc3 & Hs3 & Hk3) & s3 & Hscr3 & Htag3 & Hprev3 & Hfoc3).
  cbn [phys_screen set_isbanned] in Hscr3.
  rewrite Hscr2, list_insert_insert_eq, Hscr1 in Hscr3.
  split; [congruence|]. split; [congruence|]. split; [congruence|].
  exists s3. split; [exact Hscr3|]. split; [congruence|].
  split; [exact Hfoc3 | rewrite Hprev3; exact Hprev2].
Qed.

Lemma client_getbywin_from_spec (w : xcb_window_t) (g : globalconf_t)
    (l : list client_p) :
  (forall c : client_p, c ∈ l -> is_Some (heap g !! c)) ->
  exists r,
    client_getbywin_from w l g = inr (r, g)
    /\ match r with
       | Some c =>
           exists (before after : list client_p) (cl : client_t),
             l = before ++ c :: after
             /\ heap g !! c = Some cl /\ win cl = w
             /\ forall (b : client_p) (bl : client_t),
                  b ∈ before -> heap g !! b = Some bl -> win bl <> w
       | None =>
           forall (c : client_p) (cl : client_t),
             c ∈ l -> heap g !! c = Some cl -> win cl <> w
       end.
Proof using Type.
  induction l as [| c l IH]; intros Hh; cbn [client_getbywin_from].
  - exists None. split; [reflexivity|]. intros c cl Hin.
    apply elem_of_nil in Hin. contradiction.
  - destruct (Hh c) as [cl Hc]; [left|].
    unfold bind at 1, deref. rewrite Hc.
    destruct (Z.eqb_spec (win cl) w) as [E | E].
    + exists (Some c). split; [reflexivity|].
      exists [], l, cl. repeat split; try assumption.
      intros b bl Hin. apply elem_of_nil in Hin. contradiction.
    + destruct IH as (r & Hr & Hspec).
      { intros c' Hin. apply Hh. right. exact Hin. }
      exists r. split; [exact Hr|]. destruct r as [c' |].
      * destruct Hspec as (before & after & cl' & -> & Hc' & Hw & Hbefore).
        exists (c :: before), after, cl'. repeat split; try assumption.
        intros b bl [-> | Hin]%elem_of_cons Hb.
        -- rewrite Hc in Hb. injection Hb as <-. exact E.
        -- eapply Hbefore; eassumption.
      * intros c' cl' [-> | Hin]%elem_of_cons Hc'.
        -- rewrite Hc in Hc'. injection Hc' as <-. exact E.
        -- eapply Hspec; eassumption.
Qed.

(** X13: on a registry whose members are all live objects,
    [client_getbywin] changes nothing and returns the first member with
    the window asked for, or no client when no member has it. *)
Theorem client_getbywin_first (w : xcb_window_t) (g : globalconf_t) :
  (forall c : client_p, c ∈ clients g -> is_Some (heap g !! c)) ->
  exists r,
    client_getbywin w g = inr (r, g)
    /\ match r with
       | Some c =>
           exists (before after : list client_p) (cl : client_t),
             clients g = before ++ c :: after
             /\ heap g !! c = Some cl /\ win cl = w
             /\ forall (b : client_p) (bl : client_t),
                  b ∈ before -> heap g !! b = Some bl -> win bl <> w
       | None =>
           forall (c : client_p) (cl : client_t),
             c ∈ clients g -> heap g !! c = Some cl -> win cl <> w
       end.
Proof using Type.
  clear screen_getbycoord screen_area_get display_area_get WM_TAKE_FOCUS
    titlebar_geometry_remove titlebar_geometry_add.
  intros Hh. unfold client_getbywin, bind, get.
  apply client_getbywin_from_spec. exact Hh.
Qed.

(** ** Swapping two clients *)

Lemma swap_slots_found (c swap : client_p) (l : list client_p) :
  c <> swap -> NoDup l ->
  forall (k : nat) (rc rs : option nat),
    rc = None \/ rs = None ->
    match rc with Some _ => c ∉ l | None => c ∈ l end ->
    match rs with Some _ => swap ∉ l | None => swap ∈ l end ->
    exists i j,
      swap_slots c swap l k rc rs = (Some i, Some j)
      /\ match rc with
         | Some i0 => i = i0
         | None => exists d, i = (k + d)%nat /\ l !! d = Some c
         end
      /\ match rs with
         | Some j0 => j = j0
         | None => exists d, j = (k + d)%nat /\ l !! d = Some swap
         end.
Proof using Type.
  intros Hne. induction l as [| item l IH]; intros Hnd k rc rs Hnone Hc Hs.
  - destruct Hnone as [-> | ->];
      [apply elem_of_nil in Hc | apply elem_of_nil in Hs]; contradiction.
  - apply NoDup_cons in Hnd as [Hitem Hnd]. cbn [swap_slots].
    destruct (Nat.eqb_spec item c) as [-> | Hic].
    + destruct rc as [i0 |]; [exfalso; apply Hc; left|].
      destruct rs as [j0 |].
      * exists k, j0. repeat split. exists 0%nat. split; [lia | reflexivity].
      * destruct (IH Hnd (S k) (Some k) None) as (i & j & E & -> & d & -> & Hd).
        -- right. reflexivity.
        -- exact Hitem.
        -- apply elem_of_cons in Hs as [-> | Hs]; [contradiction | exact Hs].
        -- exists k, (S k + d)%nat. split; [exact E|]. split.
           ++ exists 0%nat. split; [lia | reflexivity].
           ++ exists (S d). split; [lia | exact Hd].
    + destruct (Nat.eqb_spec item swap) as [-> | His].
      * destruct rs as [j0 |]; [exfalso; apply Hs; left|].
        destruct rc as [i0 |].
        -- exists i0, k. repeat split. exists 0%nat.
           split; [lia | reflexivity].
        -- destruct (IH Hnd (S k) None (Some k))
             as (i & j & E & (d & -> & Hd) & ->).
           ++ left. reflexivity.
           ++ apply elem_of_cons in Hc as [-> | Hc];
                [contradiction | exact Hc].
           ++ exact Hitem.
           ++ exists (S k + d)%nat, k. split; [exact E|]. split.
              ** exists (S d). split; [lia | exact Hd].
              ** exists 0%nat. split; [lia | reflexivity].
      * assert (Hc' : match rc with Some _ => c ∉ l | None => c ∈ l end).
        { destruct rc.
          - intros Hin. apply Hc. right. exact Hin.
          - apply elem_of_cons in Hc as [-> | Hc];
              [contradiction | exact Hc]. }
        assert (Hs' : match rs with Some _ => swap ∉ l | None => swap ∈ l end).
        { destruct rs.
          - intros Hin. apply Hs. right. exact Hin.
          - apply elem_of_cons in Hs as [-> | Hs];
              [contradiction | exact Hs]. }
        destruct (IH Hnd (S k) rc rs Hnone Hc' Hs') as (i & j & E & Hi & Hj).
        exists i, j. split.
        -- destruct rc, rs; try exact E. destruct Hnone; discriminate.
        -- split.
           ++ destruct rc; [exact Hi|]. destruct Hi as (d & -> & Hd).
              exists (S d). split; [lia | exact Hd].
           ++ destruct rs; [exact Hj|]. destruct Hj as (d & -> & Hd).
              exists (S d). split; [lia | exact Hd].
Qed.

Lemma insert_transpose (c swap : client_p) (l : list client_p) (i j : nat) :
  c <> swap -> NoDup l -> l !! i = Some c -> l !! j = Some swap ->
  <[j := c]> (<[i := swap]> l) = transpose c swap <$> l.
Proof using Type.
  intros Hne Hnd Hi Hj.
  assert (Hij : i <> j) by (intros ->; congruence).
  assert (Hli : (i < length l)%nat) by (eapply lookup_lt_Some; exact Hi).
  assert (Hlj : (j < length l)%nat) by (eapply lookup_lt_Some; exact Hj).
  apply list_eq. intros k. rewrite list_lookup_fmap.
  destruct (decide (k = j)) as [-> | Hkj].
  - rewrite list_lookup_insert_eq by (rewrite length_insert; exact Hlj).
    rewrite Hj. cbn. unfold transpose.
    destruct (Nat.eqb_spec swap c); [congruence|].
    rewrite Nat.eqb_refl. reflexivity.
  - rewrite list_lookup_insert_ne by auto.
    destruct (decide (k = i)) as [-> | Hki].
    + rewrite list_lookup_insert_eq by exact Hli. rewrite Hi. cbn.
      unfold transpose. rewrite Nat.eqb_refl. reflexivity.
    + rewrite list_lookup_insert_ne by auto.
      destruct (l !! k) as [e |] eqn:Hk; [|reflexivity]. cbn.
      unfold transpose.
      destruct (Nat.eqb_spec e c) as [-> | _].
      { exfalso. apply Hki. eapply NoDup_lookup; eassumption. }
      destruct (Nat.eqb_spec e swap) as [-> | _]; [|reflexivity].
      exfalso. apply Hkj. eapply NoDup_lookup; eassumption.
Qed.

Lemma transpose_involutive (a b x : client_p) :
  transpose a b (transpose a b x) = x.
Proof using Type.
  unfold transpose.
  destruct (Nat.eqb_spec x a) as [-> | Hxa].
  - destruct (Nat.eqb_spec b a) as [-> | Hba]; [reflexivity|].
    rewrite Nat.eqb_refl. reflexivity.
  - destruct (Nat.eqb_spec x b) as [-> | Hxb].
    + rewrite Nat.eqb_refl. reflexivity.
    + destruct (Nat.eqb_spec x a); [contradiction|].
      destruct (Nat.eqb_spec x b); [contradiction | reflexivity].
Qed.

Lemma luaA_client_swap_result (c swap : client_p) (cl sl : client_t)
    (g : globalconf_t) :
  heap g !! c = Some cl -> invalid cl = false ->
  heap g !! swap = Some sl -> invalid sl = false ->
  c <> swap -> NoDup (clients g) -> c ∈ clients g -> swap ∈ clients g ->
  luaA_client_swap c swap g
  = inr (lua_return 0,
         clients_changed (set_clients (transpose c swap <$> clients g) g)).
Proof using Type.
  intros Hc Hvc Hs Hvs Hne Hnd Hcin Hsin.
  unfold luaA_client_swap, lua_bind, luaA_client_checkudata.
  unfold bind at 1. unfold bind at 1, deref. rewrite Hc, Hvc.
  unfold ret at 1. unfold bind at 1. unfold bind at 1. rewrite Hs, Hvs.
  unfold ret at 1.
  destruct (Nat.eqb_spec c swap) as [E | _]; [contradiction|]. cbn [negb].
  destruct (swap_slots_found c swap (clients g) Hne Hnd 0 None None)
    as (i & j & E & (di & -> & Hi) & (dj & -> & Hj));
    [left; reflexivity | exact Hcin | exact Hsin |].
  cbn [Nat.add] in E.
  unfold bind at 1. unfold bind at 1, get. rewrite E. cbn [fst snd].
  unfold bind at 1, modify. unfold bind at 1. cbn [clients set_clients].
  rewrite (insert_transpose c swap (clients g) di dj Hne Hnd Hi Hj).
  unfold bind at 1. cbn [hooks set_clients]. unfold clients_changed.
  cbn [hooks set_clients].
  destruct (hooks_clients (hooks g)); reflexivity.
Qed.

(** X14: swapping two different valid members of a registry without
    duplicates exchanges their places and leaves every other member
    where it is, runs the hook of the registry when one is registered
    and touches nothing else; swapping them again puts the registry back
    in its order. *)
Theorem luaA_client_swap_transposes (c swap : client_p) (cl sl : client_t)
    (g : globalconf_t) :
  heap g !! c = Some cl -> invalid cl = false ->
  heap g !! swap = Some sl -> invalid sl = false ->
  c <> swap -> NoDup (clients g) -> c ∈ clients g -> swap ∈ clients g ->
  let g' := clients_changed (set_clients (transpose c swap <$> clients g) g) in
  luaA_client_swap c swap g = inr (lua_return 0, g')
  /\ exists g'',
       luaA_client_swap c swap g' = inr (lua_return 0, g'')
       /\ clients g'' = clients g.
Proof using Type.
  clear screen_getbycoord screen_area_get display_area_get WM_TAKE_FOCUS
    titlebar_geometry_remove titlebar_geometry_add.
  intros Hc Hvc Hs Hvs Hne Hnd Hcin Hsin g'.
  split; [apply (luaA_client_swap_result c swap cl sl); assumption|].
  assert (Hcl' : clients g' = transpose c swap <$> clients g).
  { unfold g', clients_changed. destruct (hooks_clients _); reflexivity. }
  assert (Hh' : heap g' = heap g).
  { unfold g', clients_changed. destruct (hooks_clients _); reflexivity. }
  eexists. split.
  - apply (luaA_client_swap_result c swap cl sl); try assumption.
    + rewrite Hh'. exact Hc.
    + rewrite Hh'. exact Hs.
    + rewrite Hcl'. apply NoDup_fmap_2; [|exact Hnd].
      intros a b Hab.
      rewrite <- (transpose_involutive c swap a),
        <- (transpose_involutive c swap b), Hab.
      reflexivity.
    + rewrite Hcl'. apply list_elem_of_fmap. exists swap. split; [|exact Hsin].
      unfold transpose. destruct (Nat.eqb_spec swap c); [congruence|].
      rewrite Nat.eqb_refl. reflexivity.
    + rewrite Hcl'. apply list_elem_of_fmap. exists c. split; [|exact Hcin].
      unfold transpose. rewrite Nat.eqb_refl. reflexivity.
  - rewrite Hcl'. unfold clients_changed.
    assert (E : forall l : list client_p,
               transpose c swap <$> (transpose c swap <$> l) = l).
    { intros l. rewrite <- list_fmap_compose. rewrite <- (list_fmap_id l) at 2.
      apply list_fmap_ext. intros ? x _. apply transpose_involutive. }
    destruct (hooks_clients _); cbn [clients set_clients record set_trace];
      apply E.
Qed.

(** ** Further properties of unmanaging *)

(** What [client_unmanage] leaves of the registry, of the stack and of
    the client objects. *)
Lemma client_unmanage_result (g : globalconf_t) (q : client_p) (Q : client_t) :
  heap g !! q = Some Q ->
  (forall c : client_p, c ∈ clients g -> is_Some (heap g !! c)) ->
  is_Some (screens g !! phys_screen Q) -> is_Some (screens g !! screen Q) ->
  wp (client_unmanage q) g
    (fun _ g' =>
       clients g' = remove_first q (clients g)
       /\ stack g' = remove_first q (stack g)
       /\ exists (h1 : gmap nat client_t) (Q1 : client_t),
            (forall k : client_p,
               h1 !! k = if bool_decide (k ∈ clients g)
                         then clear_tf q <$> heap g !! k
                         else heap g !! k)
            /\ h1 !! q = Some Q1
            /\ heap g' = <[q := set_invalid true Q1]> h1).
Proof using Type.
  intros Hq Hheap [sph Hph] [ssq Hsq].
  unfold client_unmanage.
  apply wp_bind. eapply wp_deref; [exact Hq|].
  apply wp_bind, wp_get. apply wp_bind.
  apply unmanage_loop; [exact Hheap|]. intros h1 Hh1.
  assert (Hq1 : exists Q1, h1 !! q = Some Q1
                           /\ phys_screen Q1 = phys_screen Q).
  { rewrite Hh1, Hq. destruct (bool_decide (q ∈ clients g)); cbn.
    - eexists. split; [reflexivity|]. unfold clear_tf.
      destruct (points_to (transient_for Q) q); reflexivity.
    - eexists. split; reflexivity. }
  destruct Hq1 as (Q1 & Hq1 & Hph1).
  apply wp_bind. eapply wp_mono;
    [apply (unmanage_clear_prev q (phys_screen Q) (set_heap h1 g) sph);
     exact Hph|].
  intros [] g2 ((Hh2 & Hc2 & Hs2 & Hk2) & s2 & Hscr2 & _).
  cbn [heap clients stack hooks screens set_heap] in Hh2, Hc2, Hs2, Hk2, Hscr2.
  assert (Hlt : (phys_screen Q < length (screens g))%nat)
    by (eapply lookup_lt_Some; exact Hph).
  assert (Hph2 : screens g2 !! phys_screen Q = Some s2)
    by (rewrite Hscr2; apply list_lookup_insert_eq; exact Hlt).
  apply wp_bind. rewrite <- Hph1. eapply wp_mono;
    [apply (unmanage_clear_focus q Q1 g2 s2);
     [rewrite Hh2; exact Hq1 | rewrite Hph1; exact Hph2]|].
  rewrite Hph1.
  intros [] g3 ((Hh3 & Hc3 & Hs3 & Hk3) & s3 & Hscr3 & _).
  rewrite Hscr2, list_insert_insert_eq in Hscr3.
  assert (Hsq3 : exists s4, screens g3 !! screen Q = Some s4).
  { destruct (decide (screen Q = phys_screen Q)) as [E | E].
    - exists s3. rewrite E, Hscr3. apply list_lookup_insert_eq. exact Hlt.
    - exists ssq. rewrite Hscr3, list_lookup_insert_ne by auto. exact Hsq. }
  destruct Hsq3 as (s4 & Hsq3).
  apply wp_bind, wp_modify. unfold stack_client_remove.
  apply wp_bind, wp_modify.
  apply wp_bind. eapply wp_update_screen; [exact Hsq3|].
  apply wp_bind, wp_get.
  cbn [hooks record set_trace set_screens set_stack set_clients].
  assert (G : forall g4 : globalconf_t,
             heap g4 = h1 ->
             clients g4 = remove_first q (clients g) ->
             stack g4 = remove_first q (stack g) ->
             wp (on_client q (assign (set_invalid true))) g4
               (fun _ g' =>
                  clients g' = remove_first q (clients g)
                  /\ stack g' = remove_first q (stack g)
                  /\ exists (h1 : gmap nat client_t) (Q1 : client_t),
                       (forall k : client_p,
                          h1 !! k = if bool_decide (k ∈ clients g)
                                    then clear_tf q <$> heap g !! k
                                    else heap g !! k)
                       /\ h1 !! q = Some Q1
                       /\ heap g' = <[q := set_invalid true Q1]> h1)).
  { intros g4 Hh4 Hc4 Hs4. eapply wp_on_client.
    { rewrite Hh4. exact Hq1. }
    apply wp_assign. cbn [fst snd heap clients stack set_heap].
    split; [exact Hc4|]. split; [exact Hs4|].
    exists h1, Q1. rewrite Hh4. repeat split; assumption. }
  rewrite Hk3, Hk2.
  destruct (hooks_unmanage (hooks g)), (hooks_clients (hooks g));
    unfold emitg, record;
    repeat first [ apply wp_bind | apply wp_modify | apply wp_ret ];
    apply G;
    cbn [heap clients stack screens set_trace set_screens set_stack
         set_clients];
    congruence.
Qed.

Lemma clear_tf_not (q : client_p) (t : client_t) :
  transient_for (clear_tf q t) <> Some q.
Proof using Type.
  unfold clear_tf. destruct (points_to (transient_for t) q) eqn:E.
  - discriminate.
  - intros H. rewrite H in E. cbn in E. rewrite Nat.eqb_refl in E.
    discriminate E.
Qed.

Lemma remove_first_subset (p q : client_p) (l : list client_p) :
  p ∈ remove_first q l -> p ∈ l.
Proof using Type.
  induction l as [| e l IH]; cbn [remove_first]; [auto|].
  destruct (Nat.eqb e q).
  - intros H. right. exact H.
  - intros [-> | H]%elem_of_cons; [left | right; apply IH, H].
Qed.

(** X15: after unmanaging a client no member of the registry is
    transient for it any more; a member other than that client is the
    object it was but for that reference, and the client itself is
    marked invalid. *)
Theorem client_unmanage_sweeps (g : globalconf_t) (q : client_p)
    (Q : client_t) :
  heap g !! q = Some Q ->
  (forall c : client_p, c ∈ clients g -> is_Some (heap g !! c)) ->
  is_Some (screens g !! phys_screen Q) -> is_Some (screens g !! screen Q) ->
  exists g',
    client_unmanage q g = inr (tt, g')
    /\ (forall c : client_p,
          c ∈ clients g' ->
          exists cl', heap g' !! c = Some cl'
                      /\ transient_for cl' <> Some q)
    /\ (forall (c : client_p) (cl : client_t),
          c ∈ clients g -> c <> q -> heap g !! c = Some cl ->
          heap g' !! c = Some (clear_tf q cl))
    /\ (exists Q', heap g' !! q = Some Q' /\ invalid Q' = true).
Proof using Type.
  clear screen_getbycoord screen_area_get display_area_get WM_TAKE_FOCUS
    titlebar_geometry_remove titlebar_geometry_add.
  intros Hq Hheap Hph Hsq.
  destruct (proj1 (wp_run _ _ _) (client_unmanage_result g q Q Hq Hheap Hph Hsq))
    as ([] & g' & Hr & Hc & Hs & h1 & Q1 & Hh1 & Hq1 & Hh).
  exists g'. split; [exact Hr|].
  assert (Hother : forall (c : client_p) (cl : client_t),
             c ∈ clients g -> c <> q -> heap g !! c = Some cl ->
             heap g' !! c = Some (clear_tf q cl)).
  { intros c cl Hin Hne Hcl.
    rewrite Hh, lookup_insert_ne by auto.
    rewrite Hh1, bool_decide_eq_true_2, Hcl by exact Hin. reflexivity. }
  repeat apply conj.
  - intros c Hin. rewrite Hc in Hin. apply remove_first_subset in Hin.
    destruct (decide (c = q)) as [-> | Hne].
    + exists (set_invalid true Q1). rewrite Hh, lookup_insert_eq.
      split; [reflexivity|]. cbn [transient_for set_invalid].
      rewrite Hh1, bool_decide_eq_true_2, Hq in Hq1 by exact Hin.
      injection Hq1 as <-. apply clear_tf_not.
    + destruct (Hheap c Hin) as [cl Hcl]. exists (clear_tf q cl).
      split; [apply Hother; assumption | apply clear_tf_not].
  - exact Hother.
  - exists (set_invalid true Q1). rewrite Hh, lookup_insert_eq.
    split; reflexivity.
Qed.

(** X16: a client that was unmanaged is refused by every function
    called from Lua: [luaA_client_unmanage] on a valid client unmanages
    it and returns no result, and the same call again leaves through the
    error of [luaA_client_checkudata] and changes nothing. *)
Theorem luaA_client_unmanage_once (g : globalconf_t) (q : client_p)
    (Q : client_t) :
  heap g !! q = Some Q -> invalid Q = false ->
  (forall c : client_p, c ∈ clients g -> is_Some (heap g !! c)) ->
  is_Some (screens g !! phys_screen Q) -> is_Some (screens g !! screen Q) ->
  exists g',
    luaA_client_unmanage q g = inr (lua_return 0, g')
    /\ client_unmanage q g = inr (tt, g')
    /\ luaA_client_checkudata q g' = inr (lua_error client_is_invalid, g')
    /\ luaA_client_unmanage q g' = inr (lua_error client_is_invalid, g').
Proof using Type.
  clear screen_getbycoord screen_area_get display_area_get WM_TAKE_FOCUS
    titlebar_geometry_remove titlebar_geometry_add.
  intros Hq Hv Hheap Hph Hsq.
  destruct (proj1 (wp_run _ _ _) (client_unmanage_result g q Q Hq Hheap Hph Hsq))
    as ([] & g' & Hr & Hc & Hs & h1 & Q1 & Hh1 & Hq1 & Hh).
  exists g'.
  assert (Hchk : luaA_client_checkudata q g'
                 = inr (lua_error client_is_invalid, g')).
  { unfold luaA_client_checkudata, bind, deref.
    rewrite Hh, lookup_insert_eq. reflexivity. }
  repeat apply conj.
  - unfold luaA_client_unmanage, lua_bind, luaA_client_checkudata.
    unfold bind at 1. unfold bind at 1, deref. rewrite Hq, Hv.
    unfold ret at 1. unfold bind at 1. rewrite Hr. reflexivity.
  - exact Hr.
  - exact Hchk.
  - unfold luaA_client_unmanage, lua_bind. unfold bind at 1.
    rewrite Hchk. reflexivity.
Qed.

Lemma clear_tf_win (q : client_p) (t : client_t) :
  win (clear_tf q t) = win t.
Proof using Type.
  unfold clear_tf. destruct (points_to (transient_for t) q); reflexivity.
Qed.

Lemma client_getbywin_from_none (w : xcb_window_t) (g : globalconf_t)
    (l : list client_p) :
  (forall c : client_p,
     c ∈ l -> exists cl, heap g !! c = Some cl /\ win cl <> w) ->
  client_getbywin_from w l g = inr (None, g).
Proof using Type.
  induction l as [| c l IH]; intros H; cbn [client_getbywin_from];
    [reflexivity|].
  destruct (H c) as (cl & Hc & Hw); [left|].
  unfold bind, deref. rewrite Hc.
  destruct (Z.eqb_spec (win cl) w); [contradiction|].
  apply IH. intros c' Hin. apply H. right. exact Hin.
Qed.

(** X17: in a registry without duplicates whose members have windows of
    their own, no client is found any more under the window of a client
    that was unmanaged. *)
Theorem client_unmanage_then_getbywin (g : globalconf_t) (q : client_p)
    (Q : client_t) :
  heap g !! q = Some Q ->
  (forall c : client_p, c ∈ clients g -> is_Some (heap g !! c)) ->
  is_Some (screens g !! phys_screen Q) -> is_Some (screens g !! screen Q) ->
  NoDup (clients g) ->
  (forall (c : client_p) (cl : client_t),
     c ∈ clients g -> c <> q -> heap g !! c = Some cl -> win cl <> win Q) ->
  exists g',
    client_unmanage q g = inr (tt, g')
    /\ client_getbywin (win Q) g' = inr (None, g').
Proof using Type.
  clear screen_getbycoord screen_area_get display_area_get WM_TAKE_FOCUS
    titlebar_geometry_remove titlebar_geometry_add.
  intros Hq Hheap Hph Hsq Hnd Hwin.
  destruct (proj1 (wp_run _ _ _) (client_unmanage_result g q Q Hq Hheap Hph Hsq))
    as ([] & g' & Hr & Hc & Hs & h1 & Q1 & Hh1 & Hq1 & Hh).
  exists g'. split; [exact Hr|].
  unfold client_getbywin, bind, get.
  apply client_getbywin_from_none. intros c Hin. rewrite Hc in Hin.
  assert (Hne : c <> q).
  { intros ->. exact (remove_first_not_in q (clients g) Hnd Hin). }
  apply remove_first_subset in Hin.
  destruct (Hheap c Hin) as [cl Hcl]. exists (clear_tf q cl). split.
  - rewrite Hh, lookup_insert_ne by auto.
    rewrite Hh1, bool_decide_eq_true_2, Hcl by exact Hin. reflexivity.
  - rewrite clear_tf_win. eapply Hwin; eassumption.
Qed.

(** ** Further properties of the focus controller *)

Lemma set_flag_same (cl : client_t) :
  (ishidden cl = false -> set_ishidden false cl = cl)
  /\ (isminimized cl = false -> set_isminimized false cl = cl)
  /\ (isbanned cl = false -> set_isbanned false cl = cl)
  /\ (isurgent cl = false -> set_isurgent false cl = cl).
Proof using Type.
  destruct cl; cbn; repeat split; intros ->; reflexivity.
Qed.

(** A trace that has grown. *)
Ltac grows :=
  first
    [ exists []; reflexivity
    | lazymatch goal with
      | |- exists ev, ?e :: ?l = ev ++ ?t =>
          let H := fresh in
          let ev' := fresh in
          assert (H : exists ev, l = ev ++ t) by grows;
          destruct H as [ev' H]; exists (e :: ev'); cbn [app]; f_equal;
          exact H
      end ].

(** The events that a trace [l] has more than [t]. *)
Ltac prefix_of l t :=
  lazymatch l with
  | t => constr:(@nil event)
  | ?e :: ?l' => let p := prefix_of l' t in constr:(e :: p)
  end.

(** A trace that has grown by events one of which is the given one. *)
Ltac grows_with :=
  lazymatch goal with
  | |- exists ev, ?l = ev ++ ?t /\ In _ ev =>
      let p := prefix_of l t in
      exists p; split;
      [reflexivity | cbn [In]; repeat first [left; reflexivity | right]]
  end.

(** The bookkeeping of [client_focus_update] for a client that is
    maybe-visible, when no client has the focus, in full. *)
Lemma client_focus_update_exact (n : nat) (c : client_p) (g : globalconf_t)
    (cl : client_t) (sf : nat) (s sc : screen_t) :
  heap g !! c = Some cl ->
  client_maybevisible c (screen cl) g = inr (true, g) ->
  screen_focus g = Some sf -> screens g !! sf = Some s ->
  scr_client_focus s = None ->
  screens g !! phys_screen cl = Some sc ->
  wp (client_focus_update (S n) c) g
    (fun _ g' =>
       heap g' = <[c := focus_shown cl]> (heap g)
       /\ screens g' = <[phys_screen cl := focus_given c sc]> (screens g)
       /\ screen_focus g' = Some (phys_screen cl)
       /\ clients g' = clients g /\ stack g' = stack g
       /\ hooks g' = hooks g /\ wiboxes g' = wiboxes g
       /\ exists ev,
            trace g' = ev ++ trace g
            /\ In (ewmh_update_net_active_window (phys_screen cl)) ev).
Proof using Type.
  intros Hc Hv Hsf Hs Hf Hsc. cbn [client_focus_update].
  apply wp_bind. eapply wp_deref; [exact Hc|].
  apply wp_bind. eapply wp_eq; [exact Hv|]. cbn [negb].
  apply wp_bind, wp_get. apply wp_bind. rewrite Hsf.
  apply wp_bind. eapply wp_screen_at; [exact Hs|]. rewrite Hf.
  apply wp_ret.
  assert (Hlt : (phys_screen cl < length (screens g))%nat)
    by (eapply lookup_lt_Some; exact Hsc).
  destruct (set_flag_same cl) as (Fh & _).
  unfold focus_shown, focus_given.
  repeat
    (lazymatch goal with
     | |- wp (ret _) _ _ => apply wp_ret
     | |- wp (bind _ _) _ _ => apply wp_bind
     | |- wp get _ _ => apply wp_get
     | |- wp (modify _) _ _ => apply wp_modify
     | |- wp (emitg _) _ _ => apply wp_emitg
     | |- wp (client_setminimized _) _ _ => unfold client_setminimized
     | |- wp (client_seturgent _) _ _ => unfold client_seturgent
     | |- wp client_unban _ _ => unfold client_unban
     | |- wp (on_client _ _) _ _ =>
         eapply wp_on_client;
         [cbn [heap set_screens set_screen_focus set_heap record set_trace
               set_need_reban];
          first [exact Hc | apply lookup_insert_eq] |]
     | |- wp (update_screen _ _) _ _ =>
         eapply wp_update_screen;
         [cbn [screens set_screens set_screen_focus set_heap record
               set_trace set_need_reban];
          first [exact Hsc | apply list_lookup_insert_eq; exact Hlt] |]
     | |- wp _ (_, _) _ => wp_step
     | |- wp (if hooks_focus _ then _ else _) _ _ => destruct (hooks_focus _)
     | |- wp (if ?b then _ else _) _ _ => destruct b eqn:?
     end; cbn [fst snd]);
    cbn [heap screens screen_focus clients stack hooks wiboxes trace
         set_screens set_screen_focus set_heap record set_trace
         set_need_reban];
    rewrite ?insert_insert_eq, ?list_insert_insert_eq;
    repeat match goal with
           | H : negb (eqb ?a false) = false |- _ =>
               apply negb_false_iff, eqb_prop in H
           end;
    (split;
     [f_equal;
      repeat match goal with
             | H : _ = false |- _ =>
                 first [ rewrite (proj1 (proj2 (set_flag_same _)) H)
                       | rewrite (proj1 (proj2 (proj2 (set_flag_same _))) H)
                       | rewrite (proj2 (proj2 (proj2 (set_flag_same _))) H) ];
                 clear H
             end;
      try reflexivity |]).
  all: try (split; [reflexivity|]).
  all: try (split; [reflexivity|]).
  all: try (repeat (split; [reflexivity|])).
  all: grows_with.
Qed.

Lemma client_unfocus_update_eq (f : client_p) (fl : client_t) (s : screen_t)
    (g : globalconf_t) :
  heap g !! f = Some fl -> screens g !! phys_screen fl = Some s ->
  client_unfocus_update f g
  = inr (tt, focus_lost (win fl) (phys_screen fl) s g).
Proof using Type.
  intros Hf Hs. unfold client_unfocus_update, focus_lost.
  unfold bind at 1, deref. rewrite Hf.
  unfold bind at 1, update_screen. rewrite Hs.
  unfold bind at 1, emitg, modify. unfold bind at 1, get.
  cbn [hooks record set_trace set_screens].
  destruct (hooks_unfocus (hooks g)); reflexivity.
Qed.

(** Visibility depends on the client's screen, stickiness and type and
    on the tags of the screens only. *)
Lemma client_maybevisible_transfer (p : client_p) (scr : nat)
    (g g' : globalconf_t) (P P' : client_t) (b : bool) :
  heap g !! p = Some P -> heap g' !! p = Some P' ->
  screen P' = screen P -> issticky P' = issticky P -> type P' = type P ->
  (forall i : nat,
     tagged_on p <$> (screens g' !! i) = tagged_on p <$> (screens g !! i)) ->
  client_maybevisible p scr g = inr (b, g) ->
  client_maybevisible p scr g' = inr (b, g').
Proof using Type.
  intros Hp Hp' Hs Hst Hty Hscr.
  unfold client_maybevisible, bind, deref, screen_at, ret.
  rewrite Hp, Hp', Hs, Hst, Hty.
  destruct (Nat.eqb (screen P) scr); [|intros [= <-]; reflexivity].
  destruct (issticky P || window_type_eqb (type P) WINDOW_TYPE_DESKTOP);
    [intros [= <-]; reflexivity|].
  specialize (Hscr scr). unfold tagged_on in Hscr.
  destruct (screens g' !! scr), (screens g !! scr); cbn in Hscr |- *;
    try discriminate; intros [= <-]; congruence.
Qed.

Lemma tagged_on_insert (p : client_p) (l : list screen_t) (j : nat)
    (s v : screen_t) (i : nat) :
  l !! j = Some s -> tags v = tags s ->
  tagged_on p <$> (<[j := v]> l !! i) = tagged_on p <$> (l !! i).
Proof using Type.
  intros Hj Ht. apply (lookup_insert_preserve (tagged_on p) l j s v i Hj).
  unfold tagged_on. rewrite Ht. reflexivity.
Qed.

(** [client_focus_update] on the client that has the focus already. *)
Lemma client_focus_update_already (n : nat) (c : client_p) (g : globalconf_t)
    (cl : client_t) (sf : nat) (s : screen_t) :
  heap g !! c = Some cl ->
  client_maybevisible c (screen cl) g = inr (true, g) ->
  screen_focus g = Some sf -> screens g !! sf = Some s ->
  scr_client_focus s = Some c ->
  client_focus_update (S n) c g = inr (tt, g).
Proof using Type.
  intros Hc Hv Hsf Hs Hf. cbn [client_focus_update].
  unfold bind at 1, deref. rewrite Hc.
  unfold bind at 1. rewrite Hv. cbn [negb].
  unfold bind at 1, get. unfold bind at 1. rewrite Hsf.
  unfold bind at 1, screen_at. rewrite Hs, Hf, Nat.eqb_refl. reflexivity.
Qed.

(** X18: [client_focus_update] on a maybe-visible client [c], while
    another client [f] has the focus of the focused screen, first
    records that [f] lost the focus (the active window of the screen of
    [f] is updated, and the unfocus hook runs on the window of [f] when
    one is registered) and then does the bookkeeping for [c], the update
    of the active window of the screen of [c] included: [c] is shown,
    restored, mapped and no longer urgent, it is the focused and the
    previously focused client of its physical screen, which becomes the
    focused screen; the screen of [f], if another one, has no focused
    client any more; and doing it again changes nothing. *)
Theorem client_focus_update_takes_over (n : nat) (c f : client_p)
    (g : globalconf_t) (cl fl : client_t) (s sc : screen_t) :
  heap g !! c = Some cl ->
  client_maybevisible c (screen cl) g = inr (true, g) ->
  heap g !! f = Some fl -> f <> c ->
  screen_focus g = Some (phys_screen fl) ->
  screens g !! phys_screen fl = Some s ->
  scr_client_focus s = Some f ->
  screens g !! phys_screen cl = Some sc ->
  exists g',
    client_focus_update (S n) c g = inr (tt, g')
    /\ heap g' = <[c := focus_shown cl]> (heap g)
    /\ screen_focus g' = Some (phys_screen cl)
    /\ (exists s', screens g' !! phys_screen cl = Some s'
                   /\ scr_client_focus s' = Some c
                   /\ scr_prev_client_focus s' = Some c)
    /\ (phys_screen cl <> phys_screen fl ->
        screens g' !! phys_screen fl = Some (set_scr_client_focus None s))
    /\ (forall i : nat,
          i <> phys_screen cl -> i <> phys_screen fl ->
          screens g' !! i = screens g !! i)
    /\ clients g' = clients g /\ stack g' = stack g
    /\ (exists ev,
          trace g'
          = ev ++ (if hooks_unfocus (hooks g)
                   then [hook_unfocus (win fl)] else [])
               ++ ewmh_update_net_active_window (phys_screen fl) :: trace g
          /\ In (ewmh_update_net_active_window (phys_screen cl)) ev)
    /\ client_focus_update (S n) c g' = inr (tt, g').
Proof using Type.
  clear screen_getbycoord screen_area_get display_area_get
    titlebar_geometry_remove titlebar_geometry_add.
  intros Hc Hv Hf Hne Hsf Hs Hfoc Hsc.
  set (g1 := focus_lost (win fl) (phys_screen fl) s g).
  assert (Hh1 : heap g1 = heap g)
    by (unfold g1, focus_lost; destruct (hooks_unfocus _); reflexivity).
  assert (Hscr1 : screens g1
                  = <[phys_screen fl := set_scr_client_focus None s]> (screens g))
    by (unfold g1, focus_lost; destruct (hooks_unfocus _); reflexivity).
  assert (Hsf1 : screen_focus g1 = Some (phys_screen fl))
    by (unfold g1, focus_lost; destruct (hooks_unfocus _); exact Hsf).
  assert (Hcl1 : clients g1 = clients g /\ stack g1 = stack g)
    by (unfold g1, focus_lost; destruct (hooks_unfocus _); split; reflexivity).
  assert (Hlf : (phys_screen fl < length (screens g))%nat)
    by (eapply lookup_lt_Some; exact Hs).
  assert (Hlc : (phys_screen cl < length (screens g))%nat)
    by (eapply lookup_lt_Some; exact Hsc).
  assert (Hs1 : screens g1 !! phys_screen fl
                = Some (set_scr_client_focus None s))
    by (rewrite Hscr1; apply list_lookup_insert_eq; exact Hlf).
  assert (Hsc1 : exists sc1, screens g1 !! phys_screen cl = Some sc1
                             /\ tags sc1 = tags sc).
  { rewrite Hscr1. destruct (decide (phys_screen cl = phys_screen fl)) as [E | E].
    - rewrite E, list_lookup_insert_eq by exact Hlf. eexists.
      split; [reflexivity|]. rewrite E, Hs in Hsc. injection Hsc as <-.
      reflexivity.
    - rewrite list_lookup_insert_ne by auto. exists sc. split; auto. }
  destruct Hsc1 as (sc1 & Hsc1 & Htag1).
  assert (Hv1 : client_maybevisible c (screen cl) g1 = inr (true, g1)).
  { apply (client_maybevisible_transfer c (screen cl) g g1 cl cl);
      try reflexivity; try assumption.
    - rewrite Hh1. exact Hc.
    - intros i. rewrite Hscr1. apply (tagged_on_insert c _ _ s); auto. }
  pose proof (client_focus_update_exact n c g1 cl (phys_screen fl)
                (set_scr_client_focus None s) sc1
                ltac:(rewrite Hh1; exact Hc) Hv1 Hsf1 Hs1 eq_refl Hsc1) as W.
  assert (W' : wp (client_focus_update (S n) c) g
                 (fun _ g' =>
                    heap g' = <[c := focus_shown cl]> (heap g)
                    /\ screens g'
                       = <[phys_screen cl := focus_given c sc1]> (screens g1)
                    /\ screen_focus g' = Some (phys_screen cl)
                    /\ clients g' = clients g1 /\ stack g' = stack g1
                    /\ hooks g' = hooks g1 /\ wiboxes g' = wiboxes g1
                    /\ exists ev,
                         trace g' = ev ++ trace g1
                         /\ In (ewmh_update_net_active_window
                                  (phys_screen cl)) ev)).
  { cbn [client_focus_update] in W |- *. unfold wp in W |- *.
    unfold bind at 1, deref in W. rewrite Hh1, Hc in W.
    unfold bind at 1 in W. rewrite Hv1 in W. cbn [negb] in W.
    unfold bind at 1, get in W. unfold bind at 1 in W. rewrite Hsf1 in W.
    unfold bind at 1, screen_at in W. rewrite Hs1 in W.
    cbn [scr_client_focus set_scr_client_focus] in W. unfold ret at 1 in W.
    unfold bind at 1, deref. rewrite Hc.
    unfold bind at 1. rewrite Hv. cbn [negb].
    unfold bind at 1, get. unfold bind at 1. rewrite Hsf.
    unfold bind at 1, screen_at. rewrite Hs, Hfoc.
    destruct (Nat.eqb_spec f c) as [E | _]; [contradiction|]. cbn [negb].
    unfold bind at 1. rewrite (client_unfocus_update_eq f fl s g Hf Hs).
    fold g1. unfold ret at 1. exact W. }
  apply wp_run in W'
    as ([] & g' & Hr & Hh & Hscr & Hsf' & Hcs & Hst & _ & _ & ev & Ht & Hin).
  exists g'. destruct Hcl1 as [Hcl1 Hst1].
  assert (Ht1 : trace g1
                = (if hooks_unfocus (hooks g)
                   then [hook_unfocus (win fl)] else [])
                  ++ ewmh_update_net_active_window (phys_screen fl)
                     :: trace g)
    by (unfold g1, focus_lost; destruct (hooks_unfocus _); reflexivity).
  assert (Hlc1 : (phys_screen cl < length (screens g1))%nat)
    by (eapply lookup_lt_Some; exact Hsc1).
  assert (Hfc : screens g' !! phys_screen cl = Some (focus_given c sc1))
    by (rewrite Hscr; apply list_lookup_insert_eq; exact Hlc1).
  repeat apply conj.
  - exact Hr.
  - exact Hh.
  - exact Hsf'.
  - exists (focus_given c sc1). repeat split. exact Hfc.
  - intros E. rewrite Hscr, list_lookup_insert_ne by auto. exact Hs1.
  - intros i Hic Hif.
    rewrite Hscr, list_lookup_insert_ne, Hscr1, list_lookup_insert_ne by auto.
    reflexivity.
  - congruence.
  - congruence.
  - exists ev. split; [rewrite Ht, Ht1; reflexivity | exact Hin].
  - apply (client_focus_update_already n c g' (focus_shown cl)
             (phys_screen cl) (focus_given c sc1)).
    + rewrite Hh. apply lookup_insert_eq.
    + apply (client_maybevisible_transfer c (screen cl) g1 g' cl
               (focus_shown cl)); try reflexivity; try assumption.
      * rewrite Hh1. exact Hc.
      * rewrite Hh. apply lookup_insert_eq.
      * intros i. rewrite Hscr. apply (tagged_on_insert c _ _ sc1); auto.
    + exact Hsf'.
    + exact Hfc.
    + reflexivity.
Qed.

(** X19: [client_focus] does no bookkeeping for a maybe-visible client
    that does not accept the focus, and none for one that has the focus
    of the focused screen already: it only asks the window to take the
    focus when the client supports that protocol, and sets the input
    focus in the second case. *)
Theorem client_focus_requests_only (n : nat) (c : client_p)
    (g : globalconf_t) (cl : client_t) :
  heap g !! c = Some cl ->
  client_maybevisible c (screen cl) g = inr (true, g) ->
  (nofocus cl = true ->
   client_focus (S n) (Some c) g
   = inr (tt, focus_requested cl false
                (client_hasproto cl WM_TAKE_FOCUS) g))
  /\ (forall (sf : nat) (s : screen_t),
        nofocus cl = false ->
        screen_focus g = Some sf -> screens g !! sf = Some s ->
        scr_client_focus s = Some c ->
        client_focus (S (S n)) (Some c) g
        = inr (tt, focus_requested cl true
                     (client_hasproto cl WM_TAKE_FOCUS) g)).
Proof using Type.
  clear screen_getbycoord screen_area_get display_area_get
    titlebar_geometry_remove titlebar_geometry_add.
  intros Hc Hv. split.
  - intros Hn. cbn [client_focus]. unfold bind at 1, get.
    unfold bind at 1, deref. rewrite Hc.
    unfold bind at 1. rewrite Hv. cbn [negb]. rewrite Hn. cbn [negb].
    unfold bind at 1, ret at 1. unfold bind at 1. rewrite Hc.
    unfold client_setfocus. unfold bind at 1, deref. rewrite Hc, Hn.
    cbn [negb]. unfold bind at 1, ret at 1. unfold focus_requested.
    destruct (client_hasproto cl WM_TAKE_FOCUS); reflexivity.
  - intros sf s Hn Hsf Hs Hf.
    pose proof (client_focus_update_already n c g cl sf s Hc Hv Hsf Hs Hf)
      as Hu.
    cbn [client_focus].
    unfold bind at 1, get.
    unfold bind at 1, deref. rewrite Hc.
    unfold bind at 1. rewrite Hv. cbn [negb]. rewrite Hn. cbn [negb].
    unfold bind at 1. rewrite Hu. unfold bind at 1, deref. rewrite Hc.
    unfold client_setfocus. unfold bind at 1, deref. rewrite Hc, Hn.
    cbn [negb]. unfold bind at 1, emitg, modify. unfold focus_requested.
    destruct (client_hasproto cl WM_TAKE_FOCUS); reflexivity.
Qed.

(** [client_focus] on a client that is maybe-visible and accepts the
    focus, when no client has the focus, in full. *)
Lemma client_focus_exact (n : nat) (c : client_p) (g : globalconf_t)
    (cl : client_t) (sf : nat) (s sc : screen_t) :
  heap g !! c = Some cl ->
  client_maybevisible c (screen cl) g = inr (true, g) ->
  nofocus cl = false ->
  screen_focus g = Some sf -> screens g !! sf = Some s ->
  scr_client_focus s = None ->
  screens g !! phys_screen cl = Some sc ->
  wp (client_focus (S (S n)) (Some c)) g
    (fun _ g' =>
       heap g' = <[c := focus_shown cl]> (heap g)
       /\ screens g' = <[phys_screen cl := focus_given c sc]> (screens g)
       /\ screen_focus g' = Some (phys_screen cl)
       /\ clients g' = clients g /\ stack g' = stack g
       /\ hooks g' = hooks g /\ wiboxes g' = wiboxes g
       /\ exists ev, trace g' = ev ++ trace g
                     /\ In (xcb_set_input_focus (win cl)) ev).
Proof using Type.
  intros Hc Hv Hn Hsf Hs Hf Hsc. cbn [client_focus].
  apply wp_bind, wp_get.
  apply wp_bind. eapply wp_deref; [exact Hc|].
  apply wp_bind. eapply wp_eq; [exact Hv|]. cbn [negb]. rewrite Hn.
  cbn [negb]. apply wp_bind. eapply wp_mono.
  { apply (client_focus_update_exact n c g cl sf s sc); assumption. }
  intros [] g' (Hh & Hscr & Hsf' & Hcs & Hst & Hk & Hw & ev & Ht & _).
  assert (Hc' : heap g' !! c = Some (focus_shown cl))
    by (rewrite Hh; apply lookup_insert_eq).
  apply wp_bind. eapply wp_deref; [exact Hc'|].
  unfold client_setfocus. apply wp_bind. eapply wp_deref; [exact Hc'|].
  cbn [nofocus focus_shown set_isurgent set_isbanned set_isminimized
       set_ishidden]. rewrite Hn. cbn [negb].
  apply wp_bind, wp_emitg.
  assert (G : forall (g'' : globalconf_t) (ev' : list event),
             heap g'' = heap g' -> screens g'' = screens g' ->
             screen_focus g'' = screen_focus g' ->
             clients g'' = clients g' -> stack g'' = stack g' ->
             hooks g'' = hooks g' -> wiboxes g'' = wiboxes g' ->
             trace g'' = ev' ++ xcb_set_input_focus (win cl) :: trace g' ->
             heap g'' = <[c := focus_shown cl]> (heap g)
             /\ screens g''
                = <[phys_screen cl := focus_given c sc]> (screens g)
             /\ screen_focus g'' = Some (phys_screen cl)
             /\ clients g'' = clients g /\ stack g'' = stack g
             /\ hooks g'' = hooks g /\ wiboxes g'' = wiboxes g
             /\ exists ev, trace g'' = ev ++ trace g
                           /\ In (xcb_set_input_focus (win cl)) ev).
  { intros g'' ev' E1 E2 E3 E4 E5 E6 E7 E8.
    repeat (split; [congruence|]).
    exists (ev' ++ xcb_set_input_focus (win cl) :: ev). split.
    - rewrite E8, Ht, <- app_assoc. reflexivity.
    - apply in_or_app. right. left. reflexivity. }
  destruct (client_hasproto _ _).
  - apply wp_emitg.
    apply (G _ [window_takefocus (win (focus_shown cl))]); reflexivity.
  - apply wp_ret. apply (G _ []); reflexivity.
Qed.

(** X20: [luaA_client_redraw] unmaps and maps the window of a valid
    client.  For a client that is not the focused client of the focused
    screen that is all.  A maybe-visible client that accepts the focus
    and is the focused client of its own, focused, screen loses the
    focus and gets it back: afterwards it is the focused client of its
    screen again, and the input focus was set on its window after the
    window was mapped. *)
Theorem luaA_client_redraw_refocuses (n : nat) (c : client_p)
    (g : globalconf_t) (cl : client_t) (sf : nat) (s : screen_t) :
  heap g !! c = Some cl -> invalid cl = false ->
  screen_focus g = Some sf -> screens g !! sf = Some s ->
  (scr_client_focus s <> Some c ->
   luaA_client_redraw (S (S n)) c g
   = inr (lua_return 0,
          record (xcb_map_window (win cl))
            (record (xcb_unmap_window (win cl)) g)))
  /\ (scr_client_focus s = Some c -> sf = phys_screen cl ->
      client_maybevisible c (screen cl) g = inr (true, g) ->
      nofocus cl = false ->
      exists g' s' ev,
        luaA_client_redraw (S (S n)) c g = inr (lua_return 0, g')
        /\ screen_focus g' = Some sf
        /\ screens g' !! sf = Some s' /\ scr_client_focus s' = Some c
        /\ heap g' = <[c := focus_shown cl]> (heap g)
        /\ trace g'
           = ev ++ xcb_map_window (win cl) :: xcb_unmap_window (win cl)
                :: trace g
        /\ In (xcb_set_input_focus (win cl)) ev).
Proof using Type.
  clear screen_getbycoord screen_area_get display_area_get
    titlebar_geometry_remove titlebar_geometry_add.
  intros Hc Hval Hsf Hs.
  assert (Hstart :
             luaA_client_redraw (S (S n)) c g
             = (let* s0 := screen_at sf in
                (if points_to (scr_client_focus s0) c
                 then client_unfocus c ;; client_focus (S (S n)) (Some c)
                 else ret tt) ;;
                ret (lua_return 0))
                 (record (xcb_map_window (win cl))
                    (record (xcb_unmap_window (win cl)) g))).
  { unfold luaA_client_redraw, lua_bind, luaA_client_checkudata.
    unfold bind at 1. unfold bind at 1, deref. rewrite Hc, Hval.
    unfold ret at 1. unfold bind at 1. rewrite Hc.
    unfold bind at 1, emitg, modify. unfold bind at 1.
    unfold bind at 1, get. cbn [screen_focus record set_trace].
    rewrite Hsf. reflexivity. }
  set (g0 := record (xcb_map_window (win cl))
               (record (xcb_unmap_window (win cl)) g)) in *.
  assert (Hs0 : screens g0 !! sf = Some s) by exact Hs.
  split.
  - intros Hf. rewrite Hstart. unfold bind at 1, screen_at. rewrite Hs0.
    assert (E : points_to (scr_client_focus s) c = false).
    { destruct (scr_client_focus s) as [f |]; [|reflexivity]. cbn.
      apply Nat.eqb_neq. intros ->. apply Hf. reflexivity. }
    rewrite E. reflexivity.
  - intros Hf -> Hv Hn.
    enough (W : wp (let* s0 := screen_at (phys_screen cl) in
                    (if points_to (scr_client_focus s0) c
                     then client_unfocus c ;; client_focus (S (S n)) (Some c)
                     else ret tt) ;;
                    ret (lua_return 0)) g0
                  (fun r g' =>
                     r = lua_return 0
                     /\ screen_focus g' = Some (phys_screen cl)
                     /\ (exists s', screens g' !! phys_screen cl = Some s'
                                    /\ scr_client_focus s' = Some c)
                     /\ heap g' = <[c := focus_shown cl]> (heap g)
                     /\ exists ev, trace g' = ev ++ trace g0
                                   /\ In (xcb_set_input_focus (win cl)) ev)).
    { apply wp_run in W
        as (r & g' & Hr & -> & Hsf' & (s' & Hs' & Hf') & Hh & ev & Ht & Hin).
      exists g', s', ev. rewrite Hstart. repeat split; assumption. }
    apply wp_bind. eapply wp_screen_at; [exact Hs0|].
    rewrite Hf. cbn [points_to]. rewrite Nat.eqb_refl.
    apply wp_bind, wp_bind. unfold client_unfocus.
    apply wp_bind. eapply wp_deref; [exact Hc|].
    apply wp_bind, wp_emitg.
    set (g1 := record (xcb_set_input_focus_root (phys_screen cl)) g0).
    eapply wp_eq; [apply (client_unfocus_update_eq c cl s g1 Hc Hs)|].
    set (g2 := focus_lost (win cl) (phys_screen cl) s g1).
    assert (Hh2 : heap g2 = heap g)
      by (unfold g2, focus_lost; destruct (hooks_unfocus _); reflexivity).
    assert (Hscr2 : screens g2
                    = <[phys_screen cl := set_scr_client_focus None s]>
                        (screens g))
      by (unfold g2, focus_lost; destruct (hooks_unfocus _); reflexivity).
    assert (Hsf2 : screen_focus g2 = Some (phys_screen cl))
      by (unfold g2, focus_lost; destruct (hooks_unfocus _); exact Hsf).
    assert (Ht2 : exists ev, trace g2 = ev ++ trace g0).
    { unfold g2, focus_lost, g1.
      destruct (hooks_unfocus _); cbn [trace record set_trace set_screens];
        grows. }
    assert (Hl : (phys_screen cl < length (screens g))%nat)
      by (eapply lookup_lt_Some; exact Hs).
    assert (Hs2 : screens g2 !! phys_screen cl
                  = Some (set_scr_client_focus None s))
      by (rewrite Hscr2; apply list_lookup_insert_eq; exact Hl).
    assert (Hv2 : client_maybevisible c (screen cl) g2 = inr (true, g2)).
    { apply (client_maybevisible_transfer c (screen cl) g g2 cl cl);
        try reflexivity; try assumption.
      - rewrite Hh2. exact Hc.
      - intros i. rewrite Hscr2. apply (tagged_on_insert c _ _ s); auto. }
    eapply wp_mono.
    { apply (client_focus_exact n c g2 cl (phys_screen cl)
               (set_scr_client_focus None s) (set_scr_client_focus None s));
        try assumption; try reflexivity.
      rewrite Hh2. exact Hc. }
    intros [] g3 (Hh3 & Hscr3 & Hsf3 & _ & _ & _ & _ & ev3 & Ht3 & Hin3).
    apply wp_ret. split; [reflexivity|]. split; [exact Hsf3|].
    split; [|split].
    + eexists. split.
      * rewrite Hscr3. apply list_lookup_insert_eq. rewrite Hscr2, length_insert.
        exact Hl.
      * reflexivity.
    + rewrite Hh3, Hh2. reflexivity.
    + destruct Ht2 as (ev2 & Ht2). exists (ev3 ++ ev2). split.
      * rewrite Ht3, Ht2, app_assoc. reflexivity.
      * apply in_or_app. left. exact Hin3.
Qed.

(** ** Further properties of the geometry resolver *)

(** X21: the resolver never moves the rectangle, whatever the hints,
    and on a client whose hints have no flag set it returns the
    rectangle as it is. *)
Theorem client_geometry_hints_position (c : client_t) (geometry : area_t) :
  x (client_geometry_hints c geometry) = x geometry
  /\ y (client_geometry_hints c geometry) = y geometry
  /\ (flags (size_hints c) = 0 -> client_geometry_hints c geometry = geometry).
Proof using Type.
  clear screen_getbycoord screen_area_get display_area_get
    titlebar_geometry_remove titlebar_geometry_add.
  unfold client_geometry_hints.
  destruct (hints_base (size_hints c)) as [basew baseh] eqn:Hb.
  destruct (hints_min (size_hints c)) as [minw minh] eqn:Hm.
  repeat apply conj.
  - unfold hints_increment, hints_clamp, hints_aspect.
    repeat match goal with
           | |- context [if ?b then _ else _] => destruct b
           end; reflexivity.
  - unfold hints_increment, hints_clamp, hints_aspect.
    repeat match goal with
           | |- context [if ?b then _ else _] => destruct b
           end; reflexivity.
  - intros Hf. unfold hints_base, hints_min in Hb, Hm.
    unfold hints_increment, hints_increment_enabled, hints_clamp,
      hints_aspect.
    rewrite Hf in *. cbn in Hb, Hm. injection Hb as <- <-.
    injection Hm as <- <-. reflexivity.
Qed.

(** X22: when the hints carry a maximum size with positive sides and
    the base size is not negative, a rectangle with sides of 16 bits is
    resolved to one whose sides do not exceed the maximum, whatever the
    minimum size is: the maximum wins over the minimum. *)
Theorem client_geometry_hints_max (c : client_t) (geometry : area_t) :
  let h := size_hints c in
  has_flag (flags h) XCB_SIZE_HINT_P_MAX_SIZE = true ->
  0 < max_width h -> 0 < max_height h ->
  0 <= fst (hints_base h) -> 0 <= snd (hints_base h) ->
  0 <= width geometry < 65536 -> 0 <= height geometry < 65536 ->
  0 <= width (client_geometry_hints c geometry) <= max_width h
  /\ 0 <= height (client_geometry_hints c geometry) <= max_height h.
Proof using Type.
  clear screen_getbycoord screen_area_get display_area_get
    titlebar_geometry_remove titlebar_geometry_add.
  intros h Hf Hmw Hmh Hbw Hbh Hw Hh. unfold client_geometry_hints.
  fold h. destruct (hints_base h) as [basew baseh].
  destruct (hints_min h) as [minw minh]. cbn [fst snd] in Hbw, Hbh.
  destruct (hints_aspect_range h basew baseh geometry Hw Hh) as [Haw Hah].
  set (g1 := hints_aspect h basew baseh geometry) in *.
  assert (Hc : 0 <= width (hints_clamp h minw minh g1) <= max_width h
               /\ width (hints_clamp h minw minh g1) < 65536
               /\ 0 <= height (hints_clamp h minw minh g1) <= max_height h
               /\ height (hints_clamp h minw minh g1) < 65536).
  { unfold hints_clamp. rewrite Hf.
    destruct (Z.eqb_spec (max_width h) 0) as [E | _]; [lia|].
    destruct (Z.eqb_spec (max_height h) 0) as [E | _]; [lia|].
    cbn [negb].
    assert (Hmin : forall a m : Z,
               0 <= a < 65536 -> 0 < m ->
               0 <= wrap_u16 (MIN a m) <= m /\ wrap_u16 (MIN a m) < 65536).
    { intros a m Ha Hm. unfold MIN. destruct (Z.ltb_spec a m).
      - rewrite wrap_u16_small by lia. lia.
      - rewrite wrap_u16_small by lia. lia. }
    destruct (negb (minw =? 0)), (negb (minh =? 0));
      cbn [width height set_width set_height];
      repeat match goal with
             | |- context [wrap_u16 (MIN ?a ?m)] =>
                 let H := fresh in
                 assert (H : 0 <= a < 65536)
                   by first [assumption | apply wrap_u16_range];
                 pose proof (Hmin a m H ltac:(assumption));
                 generalize dependent (wrap_u16 (MIN a m)); intros
             end; lia. }
  set (g2 := hints_clamp h minw minh g1) in *.
  unfold hints_increment. destruct (hints_increment_enabled h).
  - cbn [width height set_width set_height].
    pose proof (snap_no_wrap (width g2) basew (width_inc h)
                  ltac:(lia) Hbw).
    pose proof (snap_no_wrap (height g2) baseh (height_inc h)
                  ltac:(lia) Hbh).
    lia.
  - lia.
Qed.

(** X23: the resolver does not read the denominator of the maximum
    aspect ratio: the upper bound of the ratio is taken over the
    denominator of the lower bound, so two clients whose hints differ
    in that field only are resolved alike. *)
Theorem client_geometry_hints_max_aspect_den (c c' : client_t)
    (geometry : area_t) (d : Z) :
  size_hints c'
  = (let h := size_hints c in
     mk_size_hints (flags h) (min_width h) (min_height h) (max_width h)
       (max_height h) (width_inc h) (height_inc h) (min_aspect_num h)
       (min_aspect_den h) (max_aspect_num h) d (base_width h)
       (base_height h)) ->
  client_geometry_hints c' geometry = client_geometry_hints c geometry.
Proof using Type.
  clear screen_getbycoord screen_area_get display_area_get
    titlebar_geometry_remove titlebar_geometry_add.
  intros H. unfold client_geometry_hints. rewrite H. reflexivity.
Qed.

(** ** The rectangles saved by the fullscreen and maximize setters *)

Ltac saved_solve :=
  unfold keeps_saved in *;
  repeat match goal with
         | H : _ /\ _ |- _ => destruct H
         end;
  cbn [geometry geometries_fullscreen geometries_max fst snd
       set_isfullscreen set_ismaxhoriz set_ismaxvert set_isabove set_isbelow
       set_isontop set_geometry set_geometries_internal
       set_geometries_fullscreen set_geometries_max set_border set_border_fs
       set_screen] in *;
  repeat split; congruence.

Lemma client_resize_saved (geom : area_t) (hints : bool) (c : client_t)
    (g : globalconf_t) :
  wp (client_resize geom hints) (c, g) (fun _ s' => keeps_saved c (fst s')).
Proof using Type.
  unfold client_resize, do_screen_client_moveto. wp_steps; saved_solve.
Qed.

Lemma client_setborder_saved (bwidth : Z) (c : client_t) (g : globalconf_t) :
  wp (client_setborder bwidth) (c, g) (fun _ s' => keeps_saved c (fst s')).
Proof using Type.
  unfold client_setborder. wp_steps; saved_solve.
Qed.

Lemma client_setabove_off_saved (n : nat) (c : client_t) (g : globalconf_t) :
  wp (client_setabove (S n) false) (c, g)
    (fun _ s' => keeps_saved c (fst s') /\ geometry (fst s') = geometry c).
Proof using Type.
  cbn [client_setabove]. wp_steps; split; saved_solve.
Qed.

Lemma client_setbelow_off_saved (n : nat) (c : client_t) (g : globalconf_t) :
  wp (client_setbelow (S n) false) (c, g)
    (fun _ s' => keeps_saved c (fst s') /\ geometry (fst s') = geometry c).
Proof using Type.
  cbn [client_setbelow]. wp_steps; split; saved_solve.
Qed.

Lemma client_setontop_off_saved (n : nat) (c : client_t) (g : globalconf_t) :
  wp (client_setontop (S n) false) (c, g)
    (fun _ s' => keeps_saved c (fst s') /\ geometry (fst s') = geometry c).
Proof using Type.
  cbn [client_setontop]. wp_steps; split; saved_solve.
Qed.

(** X24: the setters save what they are about to change.  Going
    fullscreen, from a client without a titlebar that is not maximized,
    saves the whole rectangle of the client (for a client with a
    titlebar, [titlebar_ban] first takes the titlebar out of that
    rectangle, which is the titlebar module's affair); maximizing along
    one axis, from a client that is not fullscreen, saves the position
    and the extent along that axis and leaves the other saved values
    alone. *)
Theorem setters_save_geometry (n : nat) (c : client_t) (g : globalconf_t) :
  (titlebar c = None ->
   isfullscreen c = false -> ismaxhoriz c = false -> ismaxvert c = false ->
   exists c' g',
     client_setfullscreen (S (S n)) true (c, g) = inr (tt, (c', g'))
     /\ geometries_fullscreen c' = geometry c
     /\ geometries_max c' = geometries_max c)
  /\ (ismaxhoriz c = false -> isfullscreen c = false ->
      exists c' g',
        client_setmaxhoriz (S (S n)) true (c, g) = inr (tt, (c', g'))
        /\ x (geometries_max c') = x (geometry c)
        /\ width (geometries_max c') = width (geometry c)
        /\ y (geometries_max c') = y (geometries_max c)
        /\ height (geometries_max c') = height (geometries_max c)
        /\ geometries_fullscreen c' = geometries_fullscreen c)
  /\ (ismaxvert c = false -> isfullscreen c = false ->
      exists c' g',
        client_setmaxvert (S (S n)) true (c, g) = inr (tt, (c', g'))
        /\ y (geometries_max c') = y (geometry c)
        /\ height (geometries_max c') = height (geometry c)
        /\ x (geometries_max c') = x (geometries_max c)
        /\ width (geometries_max c') = width (geometries_max c)
        /\ geometries_fullscreen c' = geometries_fullscreen c).
Proof using Type.
  repeat apply conj.
  - intros _ Hf Hh Hv.
    enough (W : wp (client_setfullscreen (S (S n)) true) (c, g)
                  (fun _ s' =>
                     geometries_fullscreen (fst s') = geometry c
                     /\ geometries_max (fst s') = geometries_max c)).
    { apply wp_run in W as ([] & [c' g'] & Hr & HQ). exists c', g'. tauto. }
    cbn [client_setfullscreen]. wp_step. wp_step. rewrite Hf.
    cbn [eqb negb]. wp_steps.
    eapply wp_eq.
    { apply (setter_noop n SET_MAXIMIZED_HORIZONTAL false). exact Hh. }
    wp_steps.
    eapply wp_eq.
    { apply (setter_noop n SET_MAXIMIZED_VERTICAL false). exact Hv. }
    wp_steps.
    wp_call client_setbelow_off_saved. wp_steps.
    wp_call client_setabove_off_saved. wp_steps.
    wp_call client_setontop_off_saved. wp_steps.
    wp_call client_setborder_saved. wp_steps.
    wp_call client_resize_saved. wp_steps. saved_solve.
  - intros Hh Hf.
    enough (W : wp (client_setmaxhoriz (S (S n)) true) (c, g)
                  (fun _ s' =>
                     x (geometries_max (fst s')) = x (geometry c)
                     /\ width (geometries_max (fst s')) = width (geometry c)
                     /\ y (geometries_max (fst s')) = y (geometries_max c)
                     /\ height (geometries_max (fst s'))
                        = height (geometries_max c)
                     /\ geometries_fullscreen (fst s')
                        = geometries_fullscreen c)).
    { apply wp_run in W as ([] & [c' g'] & Hr & HQ). exists c', g'. tauto. }
    cbn [client_setmaxhoriz]. wp_step. wp_step. rewrite Hh.
    cbn [eqb negb]. wp_steps.
    eapply wp_eq.
    { apply (setter_noop n SET_FULLSCREEN false). exact Hf. }
    wp_steps.
    wp_call client_resize_saved. wp_steps.
    unfold keeps_saved in *.
    repeat match goal with
           | H : _ /\ _ |- _ => destruct H
           end.
    cbn in *.
    repeat match goal with
           | H : geometries_max _ = _ |- _ => rewrite H; clear H
           end.
    repeat split; try reflexivity; congruence.
  - intros Hv Hf.
    enough (W : wp (client_setmaxvert (S (S n)) true) (c, g)
                  (fun _ s' =>
                     y (geometries_max (fst s')) = y (geometry c)
                     /\ height (geometries_max (fst s')) = height (geometry c)
                     /\ x (geometries_max (fst s')) = x (geometries_max c)
                     /\ width (geometries_max (fst s'))
                        = width (geometries_max c)
                     /\ geometries_fullscreen (fst s')
                        = geometries_fullscreen c)).
    { apply wp_run in W as ([] & [c' g'] & Hr & HQ). exists c', g'. tauto. }
    cbn [client_setmaxvert]. wp_step. wp_step. rewrite Hv.
    cbn [eqb negb]. wp_steps.
    eapply wp_eq.
    { apply (setter_noop n SET_FULLSCREEN false). exact Hf. }
    wp_steps.
    wp_call client_resize_saved. wp_steps.
    unfold keeps_saved in *.
    repeat match goal with
           | H : _ /\ _ |- _ => destruct H
           end.
    cbn in *.
    repeat match goal with
           | H : geometries_max _ = _ |- _ => rewrite H; clear H
           end.
    repeat split; try reflexivity; congruence.
Qed.

(** X25: before anything else [client_resize] pulls a rectangle that
    lies off the display back onto it, along each axis on its own: one
    that starts beyond the far edge is moved so that it ends at that
    edge, one that ends before the origin is moved to the origin, and
    any other is left where it is; the extent never changes. *)
Theorem resize_onscreen_pulls (c : client_t) (geom : area_t) :
  let area := display_area_get (phys_screen c) in
  let r := resize_onscreen c geom in
  width r = width geom /\ height r = height geom
  /\ (0 <= width area -> width area < x geom ->
      -32768 <= width area - width geom < 32768 ->
      x r + width geom = width area)
  /\ (x geom + width geom < 0 -> x geom <= width area -> x r = 0)
  /\ (0 <= x geom + width geom -> x geom <= width area -> x r = x geom)
  /\ (0 <= height area -> height area < y geom ->
      -32768 <= height area - height geom < 32768 ->
      y r + height geom = height area)
  /\ (y geom + height geom < 0 -> y geom <= height area -> y r = 0)
  /\ (0 <= y geom + height geom -> y geom <= height area -> y r = y geom).
Proof using Type.
  intros area r. unfold r, resize_onscreen. fold area.
  assert (Hs : forall z : Z, -32768 <= z < 32768 -> wrap_s16 z = z).
  { intros z Hz. unfold wrap_s16. rewrite Z.mod_small by lia. lia. }
  rewrite !Z.gtb_ltb.
  repeat apply conj;
    repeat match goal with
           | |- context [if ?b then _ else _] =>
               lazymatch b with
               | context [if _ then _ else _] => fail
               | _ => idtac
               end;
               let E := fresh in
               destruct b eqn:E; cbn [x y width height set_x set_y] in *
           end;
    intros;
    repeat match goal with
           | H : (_ <? _) = true |- _ => apply Z.ltb_lt in H
           | H : (_ <? _) = false |- _ => apply Z.ltb_ge in H
           end;
    try rewrite Hs in * by lia; try reflexivity; try lia.
Qed.

End Client.

(** ** Examples

    The properties above at concrete clients and configurations. *)

Lemma aspect_example_projects_witness :
  client_geometry_hints (set_size_hints aspect_hints client_zero)
    (mk_area 0 0 100 100) = mk_area 0 0 112 84.
Proof.
  apply (aspect_example_projects (set_size_hints aspect_hints client_zero) 0 0);
    reflexivity.
Defined.

(** C5, as the specification states it, fails: the resolver does not answer
    (100, 75), nor anything within a pixel of it. *)
Lemma aspect_example_not_100_75 :
  let r := client_geometry_hints (set_size_hints aspect_hints client_zero)
             (mk_area 0 0 100 100) in
  width r = 112 /\ height r = 84
  /\ ~ (Z.abs (width r - 100) <= 1 /\ Z.abs (height r - 75) <= 1).
Proof.
  vm_compute. repeat split; intros [H _]; apply H; reflexivity.
Qed.


Lemma client_setborder_refuses_witness :
  client_setborder 5 (dock_client, globalconf_zero)
  = inr (tt, (dock_client, globalconf_zero)).
Proof.
  apply client_setborder_refuses; [left; reflexivity | lia].
Defined.

(** C8, as the specification states it, fails: a border of 0 is not refused on a
    dock; the border and the geometry change and the notification
    fires. *)
Lemma client_setborder_zero_on_dock :
  exists c' g',
    client_setborder 0 (dock_client, globalconf_zero) = inr (tt, (c', g'))
    /\ border dock_client = 2 /\ border c' = 0
    /\ geometry dock_client = mk_area 0 0 104 104
    /\ geometry c' = mk_area 0 0 100 100
    /\ trace globalconf_zero = []
    /\ In (hook_property 20 "border_width") (trace g').
Proof.
  eexists. eexists. split; [vm_compute; reflexivity|].
  repeat split. cbn. tauto.
Qed.

Lemma client_resize_unchanged_witness :
  client_resize ex_display_area_get ex_screen_getbycoord
    ex_titlebar_geometry_remove ex_titlebar_geometry_add
    (mk_area 0 0 105 103) true (snapped_client, globalconf_zero)
  = inr (false, (snapped_client, globalconf_zero))
  /\ mk_area 0 0 105 103 <> geometry snapped_client.
Proof.
  split.
  - apply client_resize_unchanged. vm_compute. reflexivity.
  - discriminate.
Defined.

(** C1, as the specification states it, fails: [client_setontop] with [true] on
    a client that is already on top does nothing, so a client that was
    also above stays above. *)
Lemma client_setontop_keeps_above :
  client_setontop ex_display_area_get ex_screen_area_get ex_screen_getbycoord
    ex_titlebar_geometry_remove ex_titlebar_geometry_add 2 true
    (ontop_above_client, globalconf_zero)
  = inr (tt, (ontop_above_client, globalconf_zero))
  /\ isontop ontop_above_client = true /\ isabove ontop_above_client = true.
Proof. vm_compute. repeat split. Qed.

Lemma special_layers_exclusive_witness :
  exists c' g',
    client_setontop ex_display_area_get ex_screen_area_get
      ex_screen_getbycoord ex_titlebar_geometry_remove
      ex_titlebar_geometry_add 2 true (above_client, globalconf_zero)
    = inr (tt, (c', g'))
    /\ isontop c' = true /\ isabove c' = false /\ isbelow c' = false
    /\ isfullscreen c' = false.
Proof.
  apply (special_layers_exclusive ex_display_area_get ex_screen_area_get
           ex_screen_getbycoord ex_titlebar_geometry_remove
           ex_titlebar_geometry_add 0 above_client globalconf_zero).
  intros H. discriminate H.
Defined.

Lemma setters_idempotent_witness :
  run_setter ex_display_area_get ex_screen_area_get ex_screen_getbycoord
    ex_titlebar_geometry_remove ex_titlebar_geometry_add 2 SET_ABOVE true
    (above_client, globalconf_zero)
  = inr (tt, (above_client, globalconf_zero)).
Proof.
  apply (setters_idempotent ex_display_area_get ex_screen_area_get
           ex_screen_getbycoord ex_titlebar_geometry_remove
           ex_titlebar_geometry_add 0 SET_ABOVE true above_client
           globalconf_zero).
  reflexivity.
Defined.

Lemma focus_not_visible_falls_back_witness :
  client_focus ex_WM_TAKE_FOCUS 2 (Some 1%nat) (focus_world None None)
  = inr (tt, focus_world None None)
  /\ client_focus_update ex_WM_TAKE_FOCUS 3 1 (focus_world None None)
     = client_focus ex_WM_TAKE_FOCUS 2 (Some 0%nat) (focus_world None None)
  /\ exists g' s',
       client_focus_update ex_WM_TAKE_FOCUS 3 1
         (focus_world None (Some 0%nat)) = inr (tt, g')
       /\ screens g' !! 0%nat = Some s'
       /\ scr_client_focus s' = Some 0%nat.
Proof.
  destruct (focus_not_visible_falls_back ex_WM_TAKE_FOCUS 0 1
              (focus_world None None) 0 (focus_screen None None))
    as (H1 & _ & _ & _ & H5).
  { exists focus_Y. split; reflexivity. }
  { reflexivity. }
  { reflexivity. }
  destruct (focus_not_visible_falls_back ex_WM_TAKE_FOCUS 0 1
              (focus_world None (Some 0%nat)) 0
              (focus_screen None (Some 0%nat)))
    as (_ & _ & _ & H4 & _).
  { exists focus_Y. split; reflexivity. }
  { reflexivity. }
  { reflexivity. }
  split; [exact H1|]. split.
  - apply (H5 0%nat [1%nat]); reflexivity.
  - apply (H4 0%nat focus_X (focus_screen None (Some 0%nat))); reflexivity.
Defined.

(** C3, as the specification states it, fails twice over.  When no client was
    focused before, [client_focus_update] on the invisible Y gives the
    focus to X, the first member of the registry: the focus state is not
    left unchanged.  And [client_focus] on Y never turns to the
    previously focused client: X, visible and previously focused, stays
    without focus. *)
Lemma focus_fallback_differs :
  (exists g',
     client_focus_update ex_WM_TAKE_FOCUS 3 1 (focus_world None None)
     = inr (tt, g')
     /\ scr_client_focus <$> (screens (focus_world None None) !! 0%nat)
        = Some None
     /\ scr_client_focus <$> (screens g' !! 0%nat) = Some (Some 0%nat))
  /\ client_focus ex_WM_TAKE_FOCUS 3 (Some 1%nat)
       (focus_world None (Some 0%nat))
     = inr (tt, focus_world None (Some 0%nat)).
Proof.
  split.
  - eexists. split; [vm_compute; reflexivity|]. split; reflexivity.
  - vm_compute. reflexivity.
Qed.

Lemma transient_stacked_above_parent_witness :
  exists g',
    client_stack_refresh 2 stack_world = inr (tt, g')
    /\ rev (trace g')
       = [xcb_configure_window_stack 50 XCB_NONE;
          xcb_configure_window_stack 10 50;
          xcb_configure_window_stack 11 10;
          xcb_configure_window_stack 12 11;
          xcb_configure_window_stack 60 12].
Proof.
  destruct (transient_stacked_above_parent 0 stack_world 0 1 2
              stack_A stack_B stack_C) as (g' & Hr & Ht & _);
    try reflexivity; try lia.
  - symmetry. apply (Permutation_rev [0%nat; 1%nat; 2%nat]).
  - exists g'. split; [exact Hr | exact Ht].
Defined.

Lemma unmanage_clears_transient_witness :
  exists g',
    client_unmanage 1 unmanage_world = inr (tt, g')
    /\ (transient_for <$> heap g' !! 0%nat) = Some None
    /\ 0%nat ∈ clients g' /\ (1%nat ∉ clients g') /\ (1%nat ∉ stack g')
    /\ (invalid <$> heap g' !! 1%nat) = Some true.
Proof.
  destruct (unmanage_clears_transient unmanage_world 0 1 unmanage_P
              unmanage_Q)
    as (g' & Hr & (P' & HP & _ & HtP & _) & Hin & _ & Hnc & Hns & _
        & (Q' & HQ & HiQ)).
  - lia.
  - reflexivity.
  - reflexivity.
  - reflexivity.
  - left.
  - right; left.
  - apply (bool_decide_unpack (NoDup [0%nat; 1%nat])). vm_compute. exact I.
  - apply (bool_decide_unpack (NoDup [0%nat; 1%nat])). vm_compute. exact I.
  - intros c Hc. cbn in Hc.
    apply elem_of_cons in Hc as [-> | Hc]; [eexists; reflexivity|].
    apply elem_of_cons in Hc as [-> | Hc]; [eexists; reflexivity|].
    apply elem_of_nil in Hc. contradiction.
  - eexists. reflexivity.
  - eexists. reflexivity.
  - exists g'. rewrite HP, HQ. cbn. rewrite HtP, HiQ. tauto.
Defined.

Lemma client_resize_reports_change_witness :
  exists b c' g',
    client_resize ex_display_area_get ex_screen_getbycoord
      ex_titlebar_geometry_remove ex_titlebar_geometry_add
      (mk_area 0 0 105 103) false (snapped_client, globalconf_zero)
    = inr (b, (c', g'))
    /\ b = true
    /\ hd_error (trace g') = Some (hook_property 21 "geometry").
Proof.
  destruct (client_resize_reports_change ex_display_area_get
              ex_screen_getbycoord ex_titlebar_geometry_remove
              ex_titlebar_geometry_add snapped_client globalconf_zero
              (mk_area 0 0 105 103) false)
    as (b & c' & g' & Hr & _ & _ & Ht).
  exists b, c', g'.
  assert (Hb : b = true) by (vm_compute in Hr; congruence).
  split; [exact Hr|]. split; [exact Hb|]. apply Ht. exact Hb.
Defined.

Lemma client_resize_twice_witness :
  exists b c' g',
    client_resize ex_display_area_get ex_screen_getbycoord
      ex_titlebar_geometry_remove ex_titlebar_geometry_add
      (mk_area 0 0 105 103) false (snapped_client, globalconf_zero)
    = inr (b, (c', g'))
    /\ client_resize ex_display_area_get ex_screen_getbycoord
         ex_titlebar_geometry_remove ex_titlebar_geometry_add
         (mk_area 0 0 105 103) false (c', g')
       = inr (false, (c', g')).
Proof.
  apply (client_resize_twice ex_display_area_get ex_screen_getbycoord
           ex_titlebar_geometry_remove ex_titlebar_geometry_add
           snapped_client globalconf_zero (mk_area 0 0 105 103) false).
Defined.

Lemma client_setborder_effect_witness :
  exists c' g',
    client_setborder 3 (bordered_client, globalconf_zero) = inr (tt, (c', g'))
    /\ border c' = 3 /\ geometry c' = mk_area 0 0 106 106.
Proof.
  destruct (client_setborder_effect bordered_client globalconf_zero 3)
    as (c' & g' & Hr & Hb & Hg & _); [lia | discriminate | reflexivity |].
  exists c', g'. repeat split; assumption.
Defined.

Lemma client_setborder_round_trip_witness :
  exists c1 g1 c2 g2,
    client_setborder 3 (bordered_client, globalconf_zero)
    = inr (tt, (c1, g1))
    /\ client_setborder 1 (c1, g1) = inr (tt, (c2, g2))
    /\ border c2 = 1 /\ geometry c2 = mk_area 0 0 102 102.
Proof.
  apply (client_setborder_round_trip bordered_client globalconf_zero 3);
    cbn; try reflexivity; lia.
Defined.

Lemma fullscreen_border_round_trip_witness :
  exists c1 g1 c2 g2,
    client_setfullscreen ex_display_area_get ex_screen_area_get
      ex_screen_getbycoord ex_titlebar_geometry_remove
      ex_titlebar_geometry_add 2 true (bordered_client, globalconf_zero)
    = inr (tt, (c1, g1))
    /\ isfullscreen c1 = true /\ border c1 = 0 /\ border_fs c1 = 1
    /\ client_setfullscreen ex_display_area_get ex_screen_area_get
         ex_screen_getbycoord ex_titlebar_geometry_remove
         ex_titlebar_geometry_add 2 false (c1, g1)
       = inr (tt, (c2, g2))
    /\ isfullscreen c2 = false /\ border c2 = 1.
Proof.
  apply (fullscreen_border_round_trip ex_display_area_get ex_screen_area_get
           ex_screen_getbycoord ex_titlebar_geometry_remove
           ex_titlebar_geometry_add 0 bordered_client globalconf_zero);
    cbn; try reflexivity; lia.
Defined.

Lemma setter_then_layer_witness :
  exists c' g',
    client_setontop ex_display_area_get ex_screen_area_get
      ex_screen_getbycoord ex_titlebar_geometry_remove
      ex_titlebar_geometry_add 2 true (above_client, globalconf_zero)
    = inr (tt, (c', g'))
    /\ client_layer_translator c' = LAYER_ONTOP.
Proof.
  apply (setter_then_layer ex_display_area_get ex_screen_area_get
           ex_screen_getbycoord ex_titlebar_geometry_remove
           ex_titlebar_geometry_add 0 above_client globalconf_zero).
  reflexivity.
Defined.

Lemma fullscreen_excludes_maximized_witness :
  exists c' g',
    client_setfullscreen ex_display_area_get ex_screen_area_get
      ex_screen_getbycoord ex_titlebar_geometry_remove
      ex_titlebar_geometry_add 2 true
      (set_ismaxhoriz true bordered_client, globalconf_zero)
    = inr (tt, (c', g'))
    /\ isfullscreen c' = true /\ ismaxhoriz c' = false
    /\ ismaxvert c' = false.
Proof.
  apply (fullscreen_excludes_maximized ex_display_area_get ex_screen_area_get
           ex_screen_getbycoord ex_titlebar_geometry_remove
           ex_titlebar_geometry_add 0 (set_ismaxhoriz true bordered_client)
           globalconf_zero).
  reflexivity.
Defined.

Lemma setter_change_notifies_witness :
  exists c' g',
    run_setter ex_display_area_get ex_screen_area_get ex_screen_getbycoord
      ex_titlebar_geometry_remove ex_titlebar_geometry_add 2
      SET_MAXIMIZED_VERTICAL true (bordered_client, globalconf_zero)
    = inr (tt, (c', g'))
    /\ ismaxvert c' = true
    /\ hd_error (trace g') = Some (hook_property 24 "maximized_vertical")
    /\ client_need_stack_refresh g' = true.
Proof.
  destruct (setter_change_notifies ex_display_area_get ex_screen_area_get
              ex_screen_getbycoord ex_titlebar_geometry_remove
              ex_titlebar_geometry_add 0 SET_MAXIMIZED_VERTICAL true
              bordered_client globalconf_zero)
    as (c' & g' & Hr & Hf & Ht & Hd); [discriminate|].
  exists c', g'. split; [exact Hr|]. split; [exact Hf|].
  split; [exact Ht | apply Hd; reflexivity].
Defined.

Lemma client_stack_refresh_frame_witness :
  exists g',
    client_stack_refresh 2 stack_world = inr (tt, g')
    /\ clients g' = clients stack_world /\ stack g' = stack stack_world
    /\ heap g' = heap stack_world
    /\ client_need_stack_refresh g' = false
    /\ client_stack_refresh 2 g' = inr (tt, g').
Proof.
  assert (Hr : exists g', client_stack_refresh 2 stack_world = inr (tt, g'))
    by (eexists; vm_compute; reflexivity).
  destruct Hr as (g' & Hr). exists g'. split; [exact Hr|].
  destruct (client_stack_refresh_frame 2 stack_world g' Hr)
    as ((ev & E & _) & Hagain).
  rewrite E at 1 2 3 4. repeat split. apply Hagain.
Defined.

Lemma client_stack_above_self_transient_witness :
  (exists f, client_stack_above 5 0 XCB_NONE loop_world = inl f)
  /\ exists f, client_stack_refresh 5 loop_world = inl f.
Proof.
  destruct (client_stack_above_self_transient 0 loop_client loop_world)
    with (fuel := 5%nat) as [H1 H2].
  - reflexivity.
  - reflexivity.
  - left.
  - split; [apply H1 | apply H2; reflexivity].
Defined.

Lemma restack_by_layer_witness :
  exists g',
    client_stack_refresh 1 layer_world = inr (tt, g')
    /\ rev (trace g')
       = [xcb_configure_window_stack 13 XCB_NONE;
          xcb_configure_window_stack 50 13;
          xcb_configure_window_stack 10 50;
          xcb_configure_window_stack 12 10;
          xcb_configure_window_stack 60 12].
Proof.
  destruct (restack_by_layer 0 layer_world [stack_C; stack_A; layer_D])
    as (g' & Hr & Ht & _).
  - reflexivity.
  - split; repeat constructor.
  - exists g'. split; [exact Hr | exact Ht].
Defined.

Lemma client_ban_effect_witness :
  exists g',
    client_ban 1 unmanage_world = inr (tt, g')
    /\ (isbanned <$> heap g' !! 1%nat) = Some true
    /\ (scr_client_focus <$> screens g' !! 0%nat) <> Some (Some 1%nat)
    /\ client_ban 1 g' = inr (tt, g').
Proof.
  destruct (client_ban_effect 1 unmanage_Q
              (mk_screen [mk_tag true [0%nat; 1%nat]] (Some 1%nat)
                 (Some 1%nat)) unmanage_world)
    as (g' & Hr & Hh & _ & _ & (s' & Hs & _ & Hf & _) & Hagain);
    try reflexivity.
  exists g'. split; [exact Hr|]. rewrite Hh, Hs. cbn.
  repeat split; [|exact Hagain]. intros [= E]. apply Hf. exact E.
Defined.

Lemma client_getbywin_first_witness :
  exists r,
    client_getbywin 11 unmanage_world = inr (r, unmanage_world)
    /\ r <> None.
Proof.
  destruct (client_getbywin_first 11 unmanage_world) as (r & Hr & Hspec).
  - intros c Hc. cbn in Hc.
    apply elem_of_cons in Hc as [-> | Hc]; [eexists; reflexivity|].
    apply elem_of_cons in Hc as [-> | Hc]; [eexists; reflexivity|].
    apply elem_of_nil in Hc. contradiction.
  - exists r. split; [exact Hr|]. intros ->.
    apply (Hspec 1%nat unmanage_Q); [right; left | reflexivity | reflexivity].
Defined.

Lemma luaA_client_swap_transposes_witness :
  exists g' g'',
    luaA_client_swap 0 1 unmanage_world = inr (lua_return 0, g')
    /\ clients g' = [1%nat; 0%nat]
    /\ luaA_client_swap 0 1 g' = inr (lua_return 0, g'')
    /\ clients g'' = [0%nat; 1%nat].
Proof.
  destruct (luaA_client_swap_transposes 0 1 unmanage_P unmanage_Q
              unmanage_world) as (Hr & g'' & Hr' & Hc'');
    try reflexivity.
  - lia.
  - apply (bool_decide_unpack (NoDup [0%nat; 1%nat])). vm_compute. exact I.
  - left.
  - right; left.
  - eexists. exists g''. split; [exact Hr|]. split; [reflexivity|].
    split; [exact Hr' | exact Hc''].
Defined.

Lemma client_unmanage_sweeps_witness :
  exists g',
    client_unmanage 1 unmanage_world = inr (tt, g')
    /\ heap g' !! 0%nat = Some (set_transient_for None unmanage_P)
    /\ (invalid <$> heap g' !! 1%nat) = Some true.
Proof.
  destruct (client_unmanage_sweeps unmanage_world 1 unmanage_Q)
    as (g' & Hr & _ & Hother & (Q' & HQ & HiQ)).
  - reflexivity.
  - intros c Hc. cbn in Hc.
    apply elem_of_cons in Hc as [-> | Hc]; [eexists; reflexivity|].
    apply elem_of_cons in Hc as [-> | Hc]; [eexists; reflexivity|].
    apply elem_of_nil in Hc. contradiction.
  - eexists. reflexivity.
  - eexists. reflexivity.
  - exists g'. split; [exact Hr|]. split.
    + apply (Hother 0%nat unmanage_P); [left | lia | reflexivity].
    + rewrite HQ. cbn. rewrite HiQ. reflexivity.
Defined.

Lemma luaA_client_unmanage_once_witness :
  exists g',
    luaA_client_unmanage 1 unmanage_world = inr (lua_return 0, g')
    /\ luaA_client_unmanage 1 g' = inr (lua_error client_is_invalid, g').
Proof.
  destruct (luaA_client_unmanage_once unmanage_world 1 unmanage_Q)
    as (g' & Hr & _ & _ & Hagain).
  - reflexivity.
  - reflexivity.
  - intros c Hc. cbn in Hc.
    apply elem_of_cons in Hc as [-> | Hc]; [eexists; reflexivity|].
    apply elem_of_cons in Hc as [-> | Hc]; [eexists; reflexivity|].
    apply elem_of_nil in Hc. contradiction.
  - eexists. reflexivity.
  - eexists. reflexivity.
  - exists g'. split; [exact Hr | exact Hagain].
Defined.

Lemma client_unmanage_then_getbywin_witness :
  exists g',
    client_unmanage 1 unmanage_world = inr (tt, g')
    /\ client_getbywin 11 g' = inr (None, g').
Proof.
  apply (client_unmanage_then_getbywin unmanage_world 1 unmanage_Q).
  - reflexivity.
  - intros c Hc. cbn in Hc.
    apply elem_of_cons in Hc as [-> | Hc]; [eexists; reflexivity|].
    apply elem_of_cons in Hc as [-> | Hc]; [eexists; reflexivity|].
    apply elem_of_nil in Hc. contradiction.
  - eexists. reflexivity.
  - eexists. reflexivity.
  - apply (bool_decide_unpack (NoDup [0%nat; 1%nat])). vm_compute. exact I.
  - intros c cl Hc Hne Hcl. cbn in Hc.
    apply elem_of_cons in Hc as [-> | Hc].
    + cbn in Hcl. injection Hcl as <-. discriminate.
    + apply elem_of_cons in Hc as [-> | Hc]; [contradiction|].
      apply elem_of_nil in Hc. contradiction.
Defined.

Lemma client_focus_update_takes_over_witness :
  exists g',
    client_focus_update ex_WM_TAKE_FOCUS 1 0 unmanage_world = inr (tt, g')
    /\ (scr_client_focus <$> screens g' !! 0%nat) = Some (Some 0%nat)
    /\ client_focus_update ex_WM_TAKE_FOCUS 1 0 g' = inr (tt, g').
Proof.
  destruct (client_focus_update_takes_over ex_WM_TAKE_FOCUS 0 0 1
              unmanage_world unmanage_P unmanage_Q
              (mk_screen [mk_tag true [0%nat; 1%nat]] (Some 1%nat)
                 (Some 1%nat))
              (mk_screen [mk_tag true [0%nat; 1%nat]] (Some 1%nat)
                 (Some 1%nat)))
    as (g' & Hr & _ & _ & (s' & Hs & Hf & _) & _ & _ & _ & _ & _ & Hagain);
    try reflexivity.
  - lia.
  - exists g'. split; [exact Hr|].
    change (phys_screen unmanage_P) with 0%nat in Hs.
    rewrite Hs. cbn. rewrite Hf. split; [reflexivity | exact Hagain].
Defined.

Lemma client_focus_requests_only_witness :
  client_focus ex_WM_TAKE_FOCUS 2 (Some 1%nat) unmanage_world
  = inr (tt, record (xcb_set_input_focus 11) unmanage_world).
Proof.
  assert (Hc : heap unmanage_world !! 1%nat = Some unmanage_Q)
    by reflexivity.
  assert (Hv : client_maybevisible 1 (screen unmanage_Q) unmanage_world
               = inr (true, unmanage_world)) by reflexivity.
  destruct (client_focus_requests_only ex_WM_TAKE_FOCUS 0 1 unmanage_world
              unmanage_Q Hc Hv) as [_ H].
  apply (H 0%nat
           (mk_screen [mk_tag true [0%nat; 1%nat]] (Some 1%nat)
              (Some 1%nat))); reflexivity.
Defined.

Lemma luaA_client_redraw_refocuses_witness :
  exists g',
    luaA_client_redraw ex_WM_TAKE_FOCUS 2 1 unmanage_world
    = inr (lua_return 0, g')
    /\ (scr_client_focus <$> screens g' !! 0%nat) = Some (Some 1%nat).
Proof.
  destruct (luaA_client_redraw_refocuses ex_WM_TAKE_FOCUS 0 1 unmanage_world
              unmanage_Q 0
              (mk_screen [mk_tag true [0%nat; 1%nat]] (Some 1%nat)
                 (Some 1%nat))) as [_ H]; try reflexivity.
  destruct H as (g' & s' & ev & Hr & _ & Hs & Hf & _); try reflexivity.
  exists g'. split; [exact Hr|]. rewrite Hs. cbn. rewrite Hf. reflexivity.
Defined.

Lemma client_geometry_hints_position_witness :
  client_geometry_hints client_zero (mk_area 5 7 300 200)
  = mk_area 5 7 300 200.
Proof.
  apply (client_geometry_hints_position client_zero (mk_area 5 7 300 200)).
  reflexivity.
Defined.

Lemma client_geometry_hints_max_witness :
  0 <= width (client_geometry_hints (set_size_hints max_hints client_zero)
                (mk_area 0 0 300 50)) <= 100
  /\ 0 <= height (client_geometry_hints (set_size_hints max_hints client_zero)
                    (mk_area 0 0 300 50)) <= 80.
Proof.
  apply (client_geometry_hints_max (set_size_hints max_hints client_zero)
           (mk_area 0 0 300 50)); cbn; try reflexivity; try lia;
    vm_compute; discriminate.
Defined.

Lemma client_geometry_hints_max_aspect_den_witness :
  client_geometry_hints
    (set_size_hints
       (mk_size_hints XCB_SIZE_HINT_P_ASPECT 0 0 0 0 0 0 4 3 4 7 0 0)
       client_zero) (mk_area 0 0 100 100)
  = client_geometry_hints (set_size_hints aspect_hints client_zero)
      (mk_area 0 0 100 100).
Proof.
  apply (client_geometry_hints_max_aspect_den
           (set_size_hints aspect_hints client_zero) _ (mk_area 0 0 100 100)
           7).
  reflexivity.
Defined.

Lemma setters_save_geometry_witness :
  exists c' g',
    client_setfullscreen ex_display_area_get ex_screen_area_get
      ex_screen_getbycoord ex_titlebar_geometry_remove
      ex_titlebar_geometry_add 2 true (bordered_client, globalconf_zero)
    = inr (tt, (c', g'))
    /\ geometries_fullscreen c' = mk_area 0 0 102 102.
Proof.
  destruct (setters_save_geometry ex_display_area_get ex_screen_area_get
              ex_screen_getbycoord ex_titlebar_geometry_remove
              ex_titlebar_geometry_add 0 bordered_client globalconf_zero)
    as [H _].
  destruct H as (c' & g' & Hr & Hs & _); try reflexivity.
  exists c', g'. split; [exact Hr | exact Hs].
Defined.

Lemma resize_onscreen_pulls_witness :
  x (resize_onscreen ex_display_area_get client_zero
       (mk_area 1300 0 100 100)) + 100 = 1280
  /\ x (resize_onscreen ex_display_area_get client_zero
          (mk_area (-200) 0 100 100)) = 0.
Proof.
  split.
  - apply (resize_onscreen_pulls ex_display_area_get client_zero
             (mk_area 1300 0 100 100)); cbn; lia.
  - apply (resize_onscreen_pulls ex_display_area_get client_zero
             (mk_area (-200) 0 100 100)); cbn; lia.
Defined.
